(** * glazier/lib/download.py: a shallow embedding and its properties

    The module downloads files over HTTPS.  Its pure helpers (the locator
    classifiers, [Transform], [PathCompile]) are embedded as functions on
    strings; the methods of [BaseDownloader] are embedded in a state and
    exception monad over a [World] that holds the downloader instance, the
    file system and a chronological trace of every external effect (network
    requests, sleeps, log records, console output, stream reads and closes).

    Python [str] values are Rocq strings read as sequences of code points
    below 256.  Loops that Python writes as [while True] take a fuel
    argument; running out of fuel is the separate result [OutOfFuel].
    What the module imports (urllib, re templates, hashlib, the flags, the
    BeyondCorp, WinPE and file_util modules, the clock) is a parameter of
    the model, gathered in [Env]. *)

From Stdlib Require Import ZArith Ascii String List Bool Lia DecimalString.
From Stdlib Require Import Init.Byte.
From stdpp Require Import base option list strings gmap.

Local Open Scope string_scope.
Local Open Scope Z_scope.

(** ** Python string primitives *)

Module PyStr.

Definition chr (n : nat) : string := String (ascii_of_nat n) EmptyString.

(** The double quote and the backslash, by code point. *)
Definition dquote : string := chr 34.
Definition backslash : ascii := ascii_of_nat 92.
Definition slash : ascii := ascii_of_nat 47.
Definition hash : ascii := ascii_of_nat 35.
Definition at_sign : ascii := ascii_of_nat 64.

Definition truthy (s : string) : bool :=
  match s with EmptyString => false | _ => true end.

(** [s.lstrip(c)], [s.rstrip(c)] and [s.strip(c)] for a character set given
    as a predicate. *)
Fixpoint lstrip (p : ascii -> bool) (s : string) : string :=
  match s with
  | EmptyString => EmptyString
  | String a r => if p a then lstrip p r else s
  end.

Fixpoint rstrip (p : ascii -> bool) (s : string) : string :=
  match s with
  | EmptyString => EmptyString
  | String a r =>
      match rstrip p r with
      | EmptyString => if p a then EmptyString else String a EmptyString
      | r' => String a r'
      end
  end.

Definition strip (p : ascii -> bool) (s : string) : string :=
  rstrip p (lstrip p s).

Definition is_slash (a : ascii) : bool := Ascii.eqb a slash.

(** [str.isspace] on code points below 256: TAB..CR, FS..US, SPACE, NEL and
    NBSP. *)
Definition is_space (a : ascii) : bool :=
  let n := nat_of_ascii a in
  ((9 <=? n) && (n <=? 13) || (28 <=? n) && (n <=? 32)
   || (n =? 133) || (n =? 160))%nat.

(** [sep.join(l)] *)
Fixpoint join (sep : string) (l : list string) : string :=
  match l with
  | [] => EmptyString
  | [x] => x
  | x :: r => x +:+ sep +:+ join sep r
  end.

(** [str.lower] on code points below 256: A..Z and the Latin-1 capitals
    (U+00C0..U+00DE without the multiplication sign) move up by 32. *)
Definition lower_char (a : ascii) : ascii :=
  let n := nat_of_ascii a in
  if ((65 <=? n) && (n <=? 90)
      || (192 <=? n) && (n <=? 222) && negb (n =? 215))%nat
  then ascii_of_nat (n + 32) else a.

Fixpoint lower (s : string) : string :=
  match s with
  | EmptyString => EmptyString
  | String a r => String (lower_char a) (lower r)
  end.

Definition startswith (prefix s : string) : bool := String.prefix prefix s.

(** [s[n:]] *)
Fixpoint drop (n : nat) (s : string) : string :=
  match n, s with
  | O, _ => s
  | S n', String _ r => drop n' r
  | S _, EmptyString => EmptyString
  end.

(** ['%d' % z] *)
Definition of_Z (z : Z) : string := NilZero.string_of_int (Z.to_int z).

Fixpoint contains (c : ascii) (s : string) : bool :=
  match s with
  | EmptyString => false
  | String a r => Ascii.eqb a c || contains c r
  end.

Fixpoint last_char (s : string) : option ascii :=
  match s with
  | EmptyString => None
  | String a EmptyString => Some a
  | String _ r => last_char r
  end.

Definition first_char (s : string) : option ascii :=
  match s with
  | EmptyString => None
  | String a _ => Some a
  end.

(** [int(s)] for the base-10 literals made of ASCII digits: surrounding
    white space is dropped, one sign is allowed, single underscores may
    separate digits.  [None] stands for [ValueError]. *)
Definition digit_of (a : ascii) : option Z :=
  let n := nat_of_ascii a in
  if ((48 <=? n) && (n <=? 57))%nat then Some (Z.of_nat n - 48) else None.

Fixpoint digits_from (acc : Z) (after_digit : bool) (s : string) : option Z :=
  match s with
  | EmptyString => if after_digit then Some acc else None
  | String a r =>
      match digit_of a with
      | Some d => digits_from (10 * acc + d) true r
      | None =>
          if Ascii.eqb a (ascii_of_nat 95) && after_digit
          then match r with
               | EmptyString => None
               | String b _ =>
                   match digit_of b with
                   | Some _ => digits_from acc false r
                   | None => None
                   end
               end
          else None
      end
  end.

Definition int (s : string) : option Z :=
  match strip is_space s with
  | String a r =>
      if Ascii.eqb a (ascii_of_nat 45) then Z.opp <$> digits_from 0 false r
      else if Ascii.eqb a (ascii_of_nat 43) then digits_from 0 false r
      else digits_from 0 false (String a r)
  | EmptyString => None
  end.

End PyStr.

(** ** Regular expressions used by the module

    Each pattern of the source is embedded as the scanner it denotes. *)

Module Re.
Import PyStr.

Definition in_range (lo hi : nat) (a : ascii) : bool :=
  let n := nat_of_ascii a in ((lo <=? n) && (n <=? hi))%nat.

(** [re.match(r'[A-Z,a-z]\:', s)]: the class holds the capitals, the comma
    and the small letters. *)
Definition match_local (s : string) : bool :=
  match s with
  | String a (String b _) =>
      (in_range 65 90 a || Ascii.eqb a (ascii_of_nat 44) || in_range 97 122 a)
      && Ascii.eqb b (ascii_of_nat 58)
  | _ => false
  end.

(** One literal character under [re.I]. *)
Definition eq_nocase (lit a : ascii) : bool :=
  Ascii.eqb (lower_char a) (lower_char lit).

(** [re.match(r'http(s)?:', s, re.I)] *)
Definition match_remote (s : string) : bool :=
  match s with
  | String h (String t1 (String t2 (String p r))) =>
      eq_nocase "h" h && eq_nocase "t" t1 && eq_nocase "t" t2
      && eq_nocase "p" p
      && match r with
         | String c r' =>
             (eq_nocase "s" c
              && match r' with
                 | String d _ => Ascii.eqb d (ascii_of_nat 58)
                 | EmptyString => false
                 end)
             || Ascii.eqb c (ascii_of_nat 58)
         | EmptyString => false
         end
  | _ => false
  end.

(** [re.sub('(?<!\\)' + m, repl, s)], with [repl] the text inserted at each
    match: every [m] whose left neighbour in [s] is not a backslash is
    replaced.  [prev_bs] tells whether the character before the current
    position is a backslash. *)
Fixpoint sub_unescaped (m : ascii) (repl : string) (prev_bs : bool)
    (s : string) : string :=
  match s with
  | EmptyString => EmptyString
  | String c r =>
      if Ascii.eqb c m && negb prev_bs
      then repl +:+ sub_unescaped m repl (Ascii.eqb c backslash) r
      else String c (sub_unescaped m repl (Ascii.eqb c backslash) r)
  end.

(** [re.sub('\\' + m, m, s)]: every backslash followed by [m] becomes [m],
    scanning from the left without overlap. *)
Fixpoint sub_escaped (m : ascii) (s : string) : string :=
  match s with
  | EmptyString => EmptyString
  | String c r =>
      match r with
      | String d r' =>
          if Ascii.eqb c backslash && Ascii.eqb d m
          then String m (sub_escaped m r')
          else String c (sub_escaped m r)
      | EmptyString => String c EmptyString
      end
  end.

End Re.

(** ** Locator classification and path helpers *)

Import PyStr.

Definition IsLocal (s : string) : bool := Re.match_local s.

Definition IsRemote (s : string) : bool := Re.match_remote s.

(** The build-context collaborator: the three values the module reads from
    it.  [BinaryPath] is the text [str] gives for the binary-storage root. *)
Record BuildInfo := {
  ReleasePath : string;
  ActiveConfigPath : list string;
  BinaryPath : string;
}.

Definition PathCompile (build_info : BuildInfo) (file_name : option string)
    (base : option string) : string :=
  let path :=
    match base with
    | Some b => if truthy b then b else ReleasePath build_info
    | None => ReleasePath build_info
    end in
  let path := rstrip is_slash path in
  let sub_path := ActiveConfigPath build_info in
  let path :=
    match sub_path with
    | [] => path
    | _ => path +:+ "/" +:+ strip is_slash (join "/" sub_path)
    end in
  match file_name with
  | Some f =>
      if truthy f then path +:+ "/" +:+ lstrip is_slash f else path
  | None => path
  end.

Section Transform.

(** [re.sub] reads its replacement argument as a template: a backslash in it
    starts an escape, which is expanded or rejected with [re.error].
    [re_template repl m] is the text inserted for a match [m], [None] when
    the template is rejected.  The library is a parameter; the theorems
    assume of it only that a template without backslash is inserted as it
    is ([literal_templates]). *)
Variable re_template : string -> ascii -> option string.

Definition literal_templates : Prop :=
  forall repl m, contains backslash repl = false ->
                 re_template repl m = Some repl.

Definition Transform (s : string) (build_info : BuildInfo) : option string :=
  r1 ← re_template (PathCompile build_info None None +:+ "/") hash;
  let s := Re.sub_unescaped hash r1 false s in
  let s := Re.sub_escaped hash s in
  r2 ← re_template (BinaryPath build_info) at_sign;
  let s := Re.sub_unescaped at_sign r2 false s in
  let s := Re.sub_escaped at_sign s in
  Some s.

End Transform.

(** The template reader that accepts exactly the templates without
    backslash; it satisfies [literal_templates] and is used to run
    [Transform] on concrete inputs. *)
Definition plain_template (repl : string) (_ : ascii) : option string :=
  if contains backslash repl then None else Some repl.

(** ** Byte sequences with binary counts *)

Module Bytes.

(** [l[:n]] and [l[n:]] for a count given as an integer, so that the chunk
    sizes of the module (64 KiB and 4 MiB) stay binary numbers. *)
Fixpoint take {A} (n : Z) (l : list A) : list A :=
  match l with
  | [] => []
  | x :: r => if n <=? 0 then [] else x :: take (n - 1) r
  end.

Fixpoint drop {A} (n : Z) (l : list A) : list A :=
  match l with
  | [] => []
  | x :: r => if n <=? 0 then l else drop (n - 1) r
  end.

Definition len {A} (l : list A) : Z := Z.of_nat (length l).

Definition is_empty {A} (l : list A) : bool :=
  match l with [] => true | _ => false end.

End Bytes.

(** ** Exceptions, streams and events *)

Definition CHUNK_BYTE_SIZE : Z := 65536.
Definition SLEEP : Z := 20.

(** The exceptions that cross a function boundary of the module.  In
    Python 3 [socket.error] and [IOError] are both names of [OSError]. *)
Inductive exn :=
| DownloadError (msg : string)
| OSError (msg : string)
| ValueError
| TypeError
| ZeroDivisionError.

Definition socket_error (e : exn) : bool :=
  match e with OSError _ => true | _ => false end.

Definition IOError (e : exn) : bool :=
  match e with OSError _ => true | _ => false end.

Definition is_DownloadError (e : exn) : bool :=
  match e with DownloadError _ => true | _ => false end.

(** [str(e)] *)
Definition str_exn (e : exn) : string :=
  match e with
  | DownloadError m | OSError m => m
  | ValueError => "ValueError"
  | TypeError => "TypeError"
  | ZeroDivisionError => "float division by zero"
  end.

Inductive result (A : Type) :=
| Ok (a : A)
| Raise (e : exn)
| OutOfFuel.
Arguments Ok {A} a.
Arguments Raise {A} e.
Arguments OutOfFuel {A}.

(** What one [read] of a response body gives: some bytes (none at the end
    of the body) or a socket error with its text. *)
Inductive ReadResult :=
| Chunk (data : list byte)
| ReadFails (msg : string).

(** An open response: status code, resolved URL, header list and the
    reads still to come.  After the scripted reads the body is at its end. *)
Record Stream := {
  getcode : Z;
  geturl : string;
  headers : list (string * string);
  body : list ReadResult;
}.

(** The three ways the module calls [urllib.request.urlopen]. *)
Inductive Request :=
| UrlopenCafile (url : string) (cafile : option string)
| UrlopenDefault (url : string)
| UrlopenContext (url : string).

(** What [urlopen] does: a response, [None] (no handler took the request),
    [HTTPError], or another [URLError] with its text. *)
Inductive UrlopenResult :=
| Response (s : Stream)
| ReturnsNone
| HTTPError
| URLError (str_e : string).

Inductive LogLevel := INFO | ERROR.

(** Every effect on the outside world, in the order it happens. *)
Inductive Event :=
| EvInstallOpener
| EvUrlopen (r : Request)
| EvSleep (seconds : Z)
| EvLog (level : LogLevel) (msg : string)
| EvProgress (bytes_so_far total_size : Z)
| EvNewline
| EvRead (amt : Z)
| EvClose
| EvGetSignedUrl (path : string)
| EvCopy (src dst : string).

Definition is_urlopen (e : Event) : bool :=
  match e with EvUrlopen _ => true | _ => false end.

Definition is_sleep (e : Event) : bool :=
  match e with EvSleep _ => true | _ => false end.

Definition is_read (e : Event) : bool :=
  match e with EvRead _ => true | _ => false end.

Definition is_close (e : Event) : bool :=
  match e with EvClose => true | _ => false end.

Definition count (p : Event -> bool) (t : list Event) : nat :=
  length (filter (fun e => p e = true) t).

(** ** The collaborators

    Everything the module calls and does not define: the network, the flags,
    the BeyondCorp, WinPE and file_util modules, the operating system and
    hashlib. *)
Record Env := {
  (** [urlopen n r]: the outcome of request [r] when [n] requests were made
      before it. *)
  urlopen : nat -> Request -> UrlopenResult;
  (** [winpe.check_winpe()] *)
  check_winpe : bool;
  (** [urllib.parse.urlparse(url).netloc]; [None] when parsing raises
      [ValueError]. *)
  urlparse_netloc : string -> option string;
  (** [beyondcorp.BeyondCorp().CheckBeyondCorp()] *)
  CheckBeyondCorp : bool;
  (** [GetSignedUrl(path)]: the signed URL, or the text of the [BCError]. *)
  GetSignedUrl : string -> string + string;
  FLAGS_use_signed_url : bool;
  FLAGS_config_server : string;
  (** [file_util.Copy(src, dst)] on the file system: the new file system, or
      the text of the [file_util.Error]. *)
  Copy : string -> string -> gmap string (list byte)
         -> string + gmap string (list byte);
  (** [open(path, mode)] fails with an [OSError] of this text. *)
  open_error : string -> option string;
  (** [hashlib.new('sha256')] fed with these bytes: its [hexdigest()]. *)
  sha256_hexdigest : list byte -> string;
  (** [time.strftime('%A, %d %B %Y %H:%M:%S UTC')] after the given history *)
  strftime : list Event -> string;
}.

(** ** The world and the monad *)

(** The fields of a [BaseDownloader] instance (the BeyondCorp object is a
    collaborator and lives in [Env]). *)
Record Downloader := {
  _debug_info : gmap string string;
  _save_location : option string;
  _default_show_progress : bool;
  _ca_cert_file : option string;
}.

(** [BaseDownloader.__init__] *)
Definition __init__ (show_progress : bool) : Downloader :=
  {| _debug_info := ∅; _save_location := None;
     _default_show_progress := show_progress; _ca_cert_file := None |}.

Record World := {
  self : Downloader;
  files : gmap string (list byte);
  trace : list Event;
}.

Definition set_self (d : Downloader) (w : World) : World :=
  {| self := d; files := files w; trace := trace w |}.

Definition set_files (f : gmap string (list byte)) (w : World) : World :=
  {| self := self w; files := f; trace := trace w |}.

Definition emit (e : Event) (w : World) : World :=
  {| self := self w; files := files w; trace := (trace w ++ [e])%list |}.

Definition set_debug_info (m : gmap string string) (d : Downloader)
    : Downloader :=
  {| _debug_info := m; _save_location := _save_location d;
     _default_show_progress := _default_show_progress d;
     _ca_cert_file := _ca_cert_file d |}.

Definition set_save_location (p : option string) (d : Downloader)
    : Downloader :=
  {| _debug_info := _debug_info d; _save_location := p;
     _default_show_progress := _default_show_progress d;
     _ca_cert_file := _ca_cert_file d |}.

Definition M (A : Type) : Type := World -> result A * World.

Definition ret {A} (a : A) : M A := fun w => (Ok a, w).

Definition raise {A} (e : exn) : M A := fun w => (Raise e, w).

Definition out_of_fuel {A} : M A := fun w => (OutOfFuel, w).

Definition bind {A B} (m : M A) (k : A -> M B) : M B :=
  fun w =>
    match m w with
    | (Ok a, w') => k a w'
    | (Raise e, w') => (Raise e, w')
    | (OutOfFuel, w') => (OutOfFuel, w')
    end.

Notation "x <- m ;; k" := (bind m (fun x => k))
  (at level 100, m at next level, right associativity).
Notation "m ;; k" := (bind m (fun _ => k))
  (at level 100, right associativity).

Definition do (f : World -> World) : M unit := fun w => (Ok tt, f w).

Definition ask {A} (f : World -> A) : M A := fun w => (Ok (f w), w).

(** [try: body except c1: h1 except c2: h2 ...]: the first clause whose
    class holds the exception handles it. *)
Definition try_except {A} (body : M A)
    (handlers : list ((exn -> bool) * (exn -> M A))) : M A :=
  fun w =>
    match body w with
    | (Raise e, w') =>
        match List.find (fun h => fst h e) handlers with
        | Some h => snd h e w'
        | None => (Raise e, w')
        end
    | r => r
    end.

Definition logging_info (msg : string) : M unit := do (emit (EvLog INFO msg)).
Definition logging_error (msg : string) : M unit := do (emit (EvLog ERROR msg)).
Definition time_sleep (seconds : Z) : M unit := do (emit (EvSleep seconds)).

(** ** BaseDownloader *)

Section BaseDownloader.

Variable E : Env.

(** One call of [urlopen], answered by the network of [E]. *)
Definition urlopen_call (r : Request) : M UrlopenResult :=
  fun w =>
    (Ok (urlopen E (count is_urlopen (trace w)) r), emit (EvUrlopen r) w).

Definition _AttemptResource (attempt max_retries : Z) (resource : string)
    : M unit :=
  if max_retries <? 0 then
    logging_info
      ("Failed attempt " +:+ of_Z attempt +:+ " of Unlimited: Sleeping for "
       +:+ of_Z SLEEP +:+ " second(s) before retrying the " +:+ resource
       +:+ ".") ;;
    time_sleep SLEEP
  else if attempt <? max_retries then
    logging_info
      ("Failed attempt " +:+ of_Z attempt +:+ " of " +:+ of_Z max_retries
       +:+ ": Sleeping for " +:+ of_Z SLEEP
       +:+ " second(s) before retrying the " +:+ resource +:+ ".") ;;
    time_sleep SLEEP
  else
    raise (DownloadError
             ("Failed to reach " +:+ resource +:+ " after "
              +:+ of_Z max_retries +:+ " attempt(s).")).

Definition log_not_found (url : string) : M unit :=
  logging_error ("File not found on remote server: " +:+ url +:+ ".").

Definition log_connect_error (url str_e : string) : M unit :=
  logging_error
    ("Error connecting to remote server to download file " +:+ dquote +:+ url
     +:+ dquote +:+ ". The error was: " +:+ str_e).

(** The [try] statement of one cycle of [_OpenStream]: the value of
    [file_stream] after it.  A request that raises leaves the variable as
    it was. *)
Definition open_attempt (url : string) (file_stream : option Stream)
    : M (option Stream) :=
  ca <- ask (fun w => _ca_cert_file (self w)) ;;
  r <- urlopen_call (if check_winpe E then UrlopenCafile url ca
                     else UrlopenDefault url) ;;
  match r with
  | Response s => ret (Some s)
  | ReturnsNone => ret None
  | HTTPError => log_not_found url ;; ret file_stream
  | URLError e =>
      log_connect_error url e ;;
      logging_info "Trying again with machine context..." ;;
      r2 <- urlopen_call (UrlopenContext url) ;;
      match r2 with
      | Response s => ret (Some s)
      | ReturnsNone => ret None
      | HTTPError => log_not_found url ;; ret file_stream
      | URLError e2 => log_connect_error url e2 ;; ret file_stream
      end
  end.

(** [status_codes or [200]] *)
Definition acceptable (status_codes : option (list Z)) : list Z :=
  match status_codes with
  | Some (c :: l) => c :: l
  | _ => [200]
  end.

Definition code_in (c : Z) (l : list Z) : bool := existsb (Z.eqb c) l.

(** The [if file_stream:] statement of a cycle: [inl] is the returned
    stream, [inr] the working URL the cycle goes on with. *)
Definition check_stream (file_stream : option Stream) (url : string)
    (status_codes : option (list Z)) : M (Stream + string) :=
  match file_stream with
  | Some s =>
      if code_in (getcode s) (acceptable status_codes) then ret (inl s)
      else if code_in (getcode s) [302] then ret (inr (geturl s))
      else raise (DownloadError
                    ("Invalid return code for file " +:+ url +:+ ". ["
                     +:+ of_Z (getcode s) +:+ "]"))
  | None => ret (inr url)
  end.

(** The [while True] loop of [_OpenStream]. *)
Fixpoint open_loop (fuel : nat) (attempt : Z) (file_stream : option Stream)
    (url : string) (max_retries : Z) (status_codes : option (list Z))
    : M Stream :=
  match fuel with
  | O => out_of_fuel
  | S fuel =>
      let attempt := attempt + 1 in
      file_stream <- open_attempt url file_stream ;;
      next <- check_stream file_stream url status_codes ;;
      match next with
      | inl s => ret s
      | inr url =>
          _AttemptResource attempt max_retries "file download" ;;
          open_loop fuel attempt file_stream url max_retries status_codes
      end
  end.

(** [_OpenStream]: the opener is installed, the URL stripped and parsed,
    and only a URL with a host enters the loop. *)
Definition _OpenStream (fuel : nat) (url : string) (max_retries : Z)
    (status_codes : option (list Z)) : M Stream :=
  do (emit EvInstallOpener) ;;
  let url := strip is_space url in
  match urlparse_netloc E url with
  | None => raise ValueError
  | Some netloc =>
      if negb (truthy netloc) then
        raise (DownloadError
                 ("Invalid remote server URL " +:+ dquote +:+ url +:+ dquote
                  +:+ "."))
      else open_loop fuel 0 None url max_retries status_codes
  end.

Definition CheckUrl (fuel : nat) (url : string) (status_codes : list Z)
    (max_retries : Z) : M bool :=
  try_except
    (_OpenStream fuel url max_retries (Some status_codes) ;; ret true)
    [(is_DownloadError, fun e => logging_error (str_exn e) ;; ret false)].

(** [_DownloadChunkReport]: the progress line is recorded by its two
    numbers (the floating-point text is not rebuilt); the division by
    [total_size] fails when that is zero. *)
Definition _DownloadChunkReport (bytes_so_far total_size : Z) : M unit :=
  if total_size =? 0 then raise ZeroDivisionError
  else
    do (emit (EvProgress bytes_so_far total_size)) ;;
    if bytes_so_far >=? total_size then do (emit EvNewline) else ret tt.

(** [_SetUrl]: [url[url.startswith(config_server) and len(config_server):]]
    drops the prefix when it is there and nothing otherwise. *)
Definition _SetUrl (url : string) : M string :=
  if negb (FLAGS_use_signed_url E) then ret url
  else
    let config_server := FLAGS_config_server E +:+ "/" in
    let path :=
      if startswith config_server url
      then PyStr.drop (String.length config_server) url
      else url in
    do (emit (EvGetSignedUrl path)) ;;
    match GetSignedUrl E path with
    | inr signed => ret signed
    | inl e => raise (DownloadError e)
    end.

(** [for header in items: d[header[0]] = header[1]] *)
Definition store_headers (items : list (string * string))
    (d : gmap string string) : gmap string string :=
  foldl (fun d header => <[fst header := snd header]> d) d items.

Definition _StoreDebugInfo (file_stream : option Stream)
    (socket_error : option string) : M unit :=
  fun w =>
    let d := _debug_info (self w) in
    let d :=
      match socket_error with
      | Some e => if truthy e then <["socket_error" := e]> d else d
      | None => d
      end in
    let d :=
      match file_stream with
      | Some s => store_headers (headers s) d
      | None => d
      end in
    let d := <["current_time" := strftime E (trace w)]> d in
    (Ok tt, set_self (set_debug_info d (self w)) w).

(** [self._save_location] used as a path; [None] is not one. *)
Definition save_location : M string :=
  fun w =>
    match _save_location (self w) with
    | Some p => (Ok p, w)
    | None => (Raise TypeError, w)
    end.

Definition _Validate (file_stream : Stream) (expected_size : Z) : M unit :=
  path <- save_location ;;
  content <- ask (fun w => files w !! path) ;;
  match content with
  | None =>
      _StoreDebugInfo (Some file_stream) None ;;
      raise (DownloadError ("Could not locate file at " +:+ path))
  | Some data =>
      let actual_file_size := Bytes.len data in
      if negb (actual_file_size =? expected_size) then
        _StoreDebugInfo (Some file_stream) None ;;
        raise (DownloadError
                 ("File size of " +:+ of_Z actual_file_size
                  +:+ " bytes did not match expected size of "
                  +:+ of_Z expected_size +:+ "!"))
      else ret tt
  end.

(** [headers.get(name)]: the first header of that name, names compared
    without case. *)
Fixpoint headers_get (items : list (string * string)) (name : string)
    : option string :=
  match items with
  | [] => None
  | (k, v) :: r =>
      if String.eqb (lower k) (lower name) then Some v else headers_get r name
  end.

(** The first loop of [_StreamToDisk]: the URL and the declared size.  A
    missing header is the [AttributeError] of the source, sent to the retry
    gate; a value that is no integer raises [ValueError]. *)
Fixpoint content_length_loop (fuel : nat) (attempt : Z) (file_stream : Stream)
    (max_retries : Z) : M (string * Z) :=
  match fuel with
  | O => out_of_fuel
  | S fuel =>
      let attempt := attempt + 1 in
      let url := geturl file_stream in
      match headers_get (headers file_stream) "Content-Length" with
      | Some v =>
          match PyStr.int (strip is_space v) with
          | Some total_size => ret (url, total_size)
          | None => raise ValueError
          end
      | None =>
          _AttemptResource attempt max_retries "server URL" ;;
          content_length_loop fuel attempt file_stream max_retries
      end
  end.

(** [file_stream.read(amt)]: the bytes read and the stream after the read. *)
Definition stream_read (file_stream : Stream) (amt : Z)
    : M (list byte * Stream) :=
  do (emit (EvRead amt)) ;;
  let rest b :=
    {| getcode := getcode file_stream; geturl := geturl file_stream;
       headers := headers file_stream; body := b |} in
  match body file_stream with
  | [] => ret ([], file_stream)
  | Chunk data :: b =>
      ret (Bytes.take amt data,
           rest (if Bytes.is_empty (Bytes.drop amt data) then b
                 else Chunk (Bytes.drop amt data) :: b))
  | ReadFails msg :: b => raise (OSError msg)
  end.

Definition stream_close (file_stream : Stream) : M unit :=
  do (emit EvClose).

(** [open(path, 'wb')]: the file is created empty, or the call fails. *)
Definition open_wb (path : string) : M unit :=
  match open_error E path with
  | Some msg => raise (OSError msg)
  | None => do (fun w => set_files (<[path := []]> (files w)) w)
  end.

(** [output_file.write(chunk)] *)
Definition file_write (path : string) (chunk : list byte) : M unit :=
  do (fun w =>
        let old := default [] (files w !! path) in
        set_files (<[path := (old ++ chunk)%list]> (files w)) w).

(** The [while 1] loop of [_StreamToDisk]. *)
Fixpoint write_loop (fuel : nat) (file_stream : Stream) (bytes_so_far : Z)
    (total_size : Z) (progress : bool) (path : string) : M Stream :=
  match fuel with
  | O => out_of_fuel
  | S fuel =>
      r <- stream_read file_stream CHUNK_BYTE_SIZE ;;
      let chunk := fst r in
      let file_stream := snd r in
      let bytes_so_far := bytes_so_far + Bytes.len chunk in
      if Bytes.is_empty chunk then ret file_stream
      else
        file_write path chunk ;;
        (if progress then _DownloadChunkReport bytes_so_far total_size
         else ret tt) ;;
        write_loop fuel file_stream bytes_so_far total_size progress path
  end.

(** [_StreamToDisk].  Both [except] clauses are kept in the order of the
    source; as [socket.error] and [IOError] name the same class, the first
    one also takes a destination that cannot be opened.  The reads change
    only the body of the response, which validation and [close] do not look
    at, so they are given the stream as it came in. *)
Definition _StreamToDisk (fuel : nat) (file_stream : Stream)
    (show_progress : option bool) (max_retries : Z) : M unit :=
  default_progress <- ask (fun w => _default_show_progress (self w)) ;;
  let progress := default default_progress show_progress in
  r <- content_length_loop fuel 0 file_stream max_retries ;;
  let url := fst r in
  let total_size := snd r in
  try_except
    (path <- save_location ;;
     open_wb path ;;
     logging_info
       ("Downloading file " +:+ dquote +:+ url +:+ dquote +:+ " to "
        +:+ dquote +:+ path +:+ dquote +:+ ".") ;;
     write_loop fuel file_stream 0 total_size progress path ;;
     ret tt)
    [(socket_error,
      fun e =>
        _StoreDebugInfo (Some file_stream) (Some (str_exn e)) ;;
        raise (DownloadError "Socket error during download."));
     (IOError,
      fun _ =>
        path <- ask (fun w => _save_location (self w)) ;;
        raise (DownloadError
                 ("File location could not be opened for writing: "
                  +:+ default "None" path)))] ;;
  _Validate file_stream total_size ;;
  stream_close file_stream.

(** A path with an embedded NUL character: [open] refuses it with
    [ValueError] ("embedded null byte") before the operating system is
    asked. *)
Definition embedded_null (path : string) : bool :=
  contains Ascii.zero path.

(** [open(path, 'rb')]: the bytes of the file, or the call fails: with
    [ValueError] for a path that holds a NUL character, with [OSError] when
    the operating system refuses or has no such file. *)
Definition open_rb (path : string) : M (list byte) :=
  if embedded_null path then raise ValueError
  else
    match open_error E path with
    | Some msg => raise (OSError msg)
    | None =>
        content <- ask (fun w => files w !! path) ;;
        match content with
        | Some data => ret data
        | None => raise (OSError "No such file or directory")
        end
    end.

(** The read loop of [VerifyShaHash]: [f] is what is left of the file,
    [sha_object] the bytes fed to the hash so far. *)
Fixpoint sha_read_loop (fuel : nat) (f : list byte) (sha_object : list byte)
    : M (list byte) :=
  match fuel with
  | O => out_of_fuel
  | S fuel =>
      let current_chunk := Bytes.take 4194304 f in
      let f := Bytes.drop 4194304 f in
      if Bytes.is_empty current_chunk then ret sha_object
      else sha_read_loop fuel f (sha_object ++ current_chunk)%list
  end.

Definition VerifyShaHash (fuel : nat) (file_path expected : string) : M bool :=
  read <-
    try_except
      (f <- open_rb file_path ;;
       sha_object <- sha_read_loop fuel f [] ;;
       ret (Some sha_object))
      [(IOError,
        fun _ =>
          logging_error
            ("Unable to read file " +:+ file_path
             +:+ " for SHA verification.") ;;
          ret None)] ;;
  match read with
  | None => ret false
  | Some sha_object =>
      let file_hash := sha256_hexdigest E sha_object in
      let expected := lower expected in
      if String.eqb file_hash expected then
        logging_info
          ("SHA256 hash for " +:+ file_path +:+ " matched expected hash of "
           +:+ expected +:+ ".") ;;
        ret true
      else
        logging_error
          ("SHA256 hash for " +:+ file_path +:+ " was " +:+ file_hash
           +:+ ", which did not match expected hash of " +:+ expected
           +:+ ".") ;;
        ret false
  end.

(** [DownloadFile].  [_StreamToDisk] is called without [max_retries] and
    so runs with its default of 5. *)
Definition DownloadFile (fuel : nat) (url save_location : string)
    (max_retries : Z) (show_progress : bool) : M unit :=
  do (fun w => set_self (set_save_location (Some save_location) (self w)) w) ;;
  if IsRemote url then
    r <- (if CheckBeyondCorp E then
            url <- _SetUrl url ;; ret (url, -1)
          else ret (url, max_retries)) ;;
    let url := fst r in
    let max_retries := snd r in
    file_stream <- _OpenStream fuel url max_retries None ;;
    _StreamToDisk fuel file_stream (Some show_progress) 5
  else
    do (emit (EvCopy url save_location)) ;;
    fun w =>
      match Copy E url save_location (files w) with
      | inr f => (Ok tt, set_files f w)
      | inl e => (Raise (DownloadError e), w)
      end.

End BaseDownloader.

(** ** Reference readings used by the statements *)

(** [Transform] read as one pass over the template: a backslash followed by
    a marker gives the marker itself, any other [#] gives [release], any
    other [@] gives [binary], every other character stays. *)
Definition expand_char (release binary : string) (c : ascii) : string :=
  if Ascii.eqb c hash then release
  else if Ascii.eqb c at_sign then binary
  else String c EmptyString.

Fixpoint expand_markers (release binary : string) (s : string) : string :=
  match s with
  | EmptyString => EmptyString
  | String c r =>
      match r with
      | String d r' =>
          if Ascii.eqb c backslash
             && (Ascii.eqb d hash || Ascii.eqb d at_sign)
          then String d (expand_markers release binary r')
          else expand_char release binary c +:+ expand_markers release binary r
      | EmptyString => expand_char release binary c
      end
  end.

Definition ends_with_slash (s : string) : bool :=
  match last_char s with
  | Some c => is_slash c
  | None => false
  end.

Definition starts_with_slash (s : string) : bool :=
  match first_char s with
  | Some c => is_slash c
  | None => false
  end.

(** Whether the first character of [s] is [m]. *)
Definition head_is (m : ascii) (s : string) : bool :=
  match s with
  | String c _ => Ascii.eqb c m
  | EmptyString => false
  end.

(** The four substitutions of [Transform], in the order of the source, with
    [release] the text put for [#] and [binary] the text put for [@]. *)
Definition passes (release binary : string) (s : string) : string :=
  Re.sub_escaped at_sign
    (Re.sub_unescaped at_sign binary false
       (Re.sub_escaped hash (Re.sub_unescaped hash release false s))).

Definition succeeded {A} (r : result A) : bool :=
  match r with Ok _ => true | _ => false end.

(** [m] emits no event of the kind [p], in whatever world it runs and
    however it ends. *)
Definition quiet {A} (p : Event -> bool) (m : M A) : Prop :=
  forall w, exists t,
    trace (snd (m w)) = (trace w ++ t)%list /\ count p t = O.

(** [m] closes the stream as its last effect when it returns, and does not
    close it at all when it does not return. *)
Definition closes_at_end {A} (m : M A) : Prop :=
  forall w, exists t,
    trace (snd (m w))
    = (trace w ++ t ++ if succeeded (fst (m w)) then [EvClose] else [])%list
    /\ count is_close t = O.

(** The request that a cycle of [_OpenStream] makes first. *)
Definition first_request (E : Env) (ca : option string) (url : string)
    : Request :=
  if check_winpe E then UrlopenCafile url ca else UrlopenDefault url.

(** From request number [n] on, the network sends the working URL through
    the responses [redirects], each with status 302 and each asked for at
    the redirect target of the one before, and then answers with [final]. *)
Fixpoint redirect_chain_from (E : Env) (ca : option string) (n : nat)
    (url : string) (redirects : list Stream) (final : Stream) : Prop :=
  match redirects with
  | [] => urlopen E n (first_request E ca url) = Response final
  | r :: rest =>
      urlopen E n (first_request E ca url) = Response r
      /\ getcode r = 302
      /\ redirect_chain_from E ca (S n) (geturl r) rest final
  end.

(** The error of the retry gate. *)
Definition exhausted (resource : string) (max_retries : Z) : exn :=
  DownloadError ("Failed to reach " +:+ resource +:+ " after "
                 +:+ of_Z max_retries +:+ " attempt(s).").

Definition is_get_signed_url (e : Event) : bool :=
  match e with EvGetSignedUrl _ => true | _ => false end.

(** What a dict holds under [k] once the pairs of a header list have been
    assigned to it one after the other: the value of the last pair named
    [k], names compared as they are written. *)
Fixpoint last_value (items : list (string * string)) (k : string)
    : option string :=
  match items with
  | [] => None
  | (name, v) :: r =>
      match last_value r k with
      | Some later => Some later
      | None => if String.eqb name k then Some v else None
      end
  end.

(** The bytes a response body hands out before its end or its first empty
    read; [None] when a read fails before that. *)
Fixpoint delivered (body : list ReadResult) : option (list byte) :=
  match body with
  | [] => Some []
  | Chunk [] :: _ => Some []
  | Chunk data :: b => (fun rest => (data ++ rest)%list) <$> delivered b
  | ReadFails _ :: _ => None
  end.

(** ** Concrete collaborators for running the model *)

Module Fixtures.

(** A host reader for test URLs: the text between [https://] and the next
    slash. *)
Fixpoint until_slash (s : string) : string :=
  match s with
  | EmptyString => EmptyString
  | String c r => if is_slash c then EmptyString else String c (until_slash r)
  end.

Definition netloc (u : string) : option string :=
  if startswith "https://" u then Some (until_slash (PyStr.drop 8 u))
  else Some EmptyString.

(** A digest stand-in: the two small hexadecimal digits of the byte count
    modulo 256.  It only has to be some function into lowercase text. *)
Definition hex_digit (n : nat) : ascii :=
  if (n <? 10)%nat then ascii_of_nat (48 + n) else ascii_of_nat (87 + n).

Definition digest (data : list byte) : string :=
  let n := (length data mod 256)%nat in
  String (hex_digit (n / 16)) (String (hex_digit (n mod 16)) EmptyString).

Definition copy (src dst : string) (f : gmap string (list byte))
    : string + gmap string (list byte) :=
  match f !! src with
  | Some data => inr (<[dst := data]> f)
  | None => inl ("Unable to copy " +:+ src +:+ " to " +:+ dst)
  end.

(** An environment whose network answers request [n] with the [n]-th entry
    of [script]; the BeyondCorp switch and the signed-URL flag are given. *)
Definition env (script : list UrlopenResult) (beyondcorp signed : bool)
    : Env :=
  {| urlopen := fun n _ => nth n script ReturnsNone;
     check_winpe := false;
     urlparse_netloc := netloc;
     CheckBeyondCorp := beyondcorp;
     GetSignedUrl := fun path => inr ("https://signed.example/" +:+ path);
     FLAGS_use_signed_url := signed;
     FLAGS_config_server := "https://cfg.example";
     Copy := copy;
     open_error := fun _ => None;
     sha256_hexdigest := digest;
     strftime := fun _ => "Monday, 01 January 2024 00:00:00 UTC" |}.

Definition response (code : Z) (url : string) (data : list byte)
    (declared : string) : Stream :=
  {| getcode := code; geturl := url;
     headers := [("Content-Length", declared)];
     body := [Chunk data] |}.

Definition abc : list byte := [x61; x62; x63]%byte.

Definition found : Stream := response 200 "https://h.example/3" abc "3".

(** Three redirects, then the file. *)
Definition redirect_chain : list UrlopenResult :=
  [Response (response 302 "https://h.example/1" [] "0");
   Response (response 302 "https://h.example/2" [] "0");
   Response (response 302 "https://h.example/3" [] "0");
   Response found].

(** A response that declares three bytes and delivers two. *)
Definition short : Stream :=
  response 200 "https://h.example/f" [x61; x62]%byte "3".

Definition world0 : World :=
  {| self := __init__ false; files := ∅; trace := [] |}.

Definition world_saving (path : string) (f : gmap string (list byte)) : World :=
  {| self := set_save_location (Some path) (__init__ false);
     files := f; trace := [] |}.

Definition build (release : string) (sub_path : list string) : BuildInfo :=
  {| ReleasePath := release; ActiveConfigPath := sub_path;
     BinaryPath := "https://bin.example/" |}.

End Fixtures.

(** ** The rest of the module *)

(** The nearest integer to [n / d] for a positive [d], a tie going to the
    even neighbour. *)
Definition round_half_even (n d : Z) : Z :=
  let q := n / d in
  let r := n mod d in
  if 2 * r <? d then q
  else if d <? 2 * r then q + 1
  else if Z.even q then q else q + 1.

Definition two_digits (k : Z) : string :=
  if k <? 10 then "0" +:+ of_Z k else of_Z k.

(** ['%.2f' % (n / d)] for a float quotient that is exact: the decimal
    text of the quotient rounded to hundredths, ties to even. *)
Definition format_2f (n d : Z) : string :=
  let h := round_half_even (100 * n) d in
  (if h <? 0 then "-" else "")
  +:+ of_Z (Z.abs h / 100) +:+ "." +:+ two_digits (Z.abs h mod 100).

(** [_ConvertBytes].  [float(num_bytes)] and its quotient by a power of two
    are exact as long as the count is below 2^53 in size, which is the
    range this definition stands for. *)
Definition _ConvertBytes (num_bytes : Z) : string :=
  if num_bytes >=? 1099511627776 then
    format_2f num_bytes 1099511627776 +:+ "TB"
  else if num_bytes >=? 1073741824 then
    format_2f num_bytes 1073741824 +:+ "GB"
  else if num_bytes >=? 1048576 then
    format_2f num_bytes 1048576 +:+ "MB"
  else if num_bytes >=? 1024 then
    format_2f num_bytes 1024 +:+ "KB"
  else
    format_2f num_bytes 1 +:+ "B".

Section TemporaryDownload.

Variable E : Env.

(** [DownloadFileTemp].  [temp_name] is the name that
    [tempfile.NamedTemporaryFile()] picks; closing the temporary file
    removes it again, so the download starts without a file of that name.
    The result is the attribute [self._save_location]. *)
Definition DownloadFileTemp (fuel : nat) (temp_name url : string)
    (max_retries : Z) (show_progress : bool) : M (option string) :=
  do (fun w =>
        set_self (set_save_location (Some temp_name) (self w))
                 (set_files (delete temp_name (files w)) w)) ;;
  r <- (if CheckBeyondCorp E then
          url <- _SetUrl E url ;; ret (url, -1)
        else ret (url, max_retries)) ;;
  let url := fst r in
  let max_retries := snd r in
  file_stream <- _OpenStream E fuel url max_retries None ;;
  _StreamToDisk E fuel file_stream (Some show_progress) 5 ;;
  ask (fun w => _save_location (self w)).

End TemporaryDownload.

(** ** More readings for the statements *)

(** The events of the opening phase: the opener, requests, log records and
    sleeps. *)
Definition opening_event (e : Event) : bool :=
  match e with
  | EvInstallOpener | EvUrlopen _ | EvSleep _ | EvLog _ _ => true
  | _ => false
  end.

Definition is_copy (e : Event) : bool :=
  match e with EvCopy _ _ => true | _ => false end.

(** [m] takes every world to one related to it by [R], however it ends. *)
Definition preserves {A} (R : World -> World -> Prop) (m : M A) : Prop :=
  forall w, R w (snd (m w)).

(** The trace grows by events of the kind [p], and neither the downloader
    nor the files change. *)
Definition adds_only (p : Event -> bool) (w w' : World) : Prop :=
  self w' = self w /\ files w' = files w
  /\ exists t, trace w' = (trace w ++ t)%list
               /\ Forall (fun e => p e = true) t.

(** The downloader keeps its settings and every key of its debug
    information. *)
Definition debug_grows (w w' : World) : Prop :=
  _save_location (self w') = _save_location (self w)
  /\ _default_show_progress (self w') = _default_show_progress (self w)
  /\ _ca_cert_file (self w') = _ca_cert_file (self w)
  /\ forall k, is_Some (_debug_info (self w) !! k) ->
               is_Some (_debug_info (self w') !! k).


(** The number of cycles the retry gate lets a failing loop run. *)
Definition cycles (max_retries : Z) : nat := Z.to_nat (Z.max max_retries 1).

Definition segment_clean (s : string) : Prop :=
  s <> EmptyString /\ contains slash s = false.

(** Every cycle of the opening loop fails without a response, after [c]
    requests and no sleep. *)
Definition failing_cycles (E : Env) (c : nat) : Prop :=
  forall url w, exists w1,
    open_attempt E url None w = (Ok None, w1)
    /\ count is_urlopen (trace w1) = (count is_urlopen (trace w) + c)%nat
    /\ count is_sleep (trace w1) = count is_sleep (trace w).

(** The requests of a trace, in the order they were made. *)
Definition requests (t : list Event) : list Request :=
  omap (fun e => match e with EvUrlopen r => Some r | _ => None end) t.

(** The two requests of a cycle whose first request ends in a transport
    error: the request the cycle opens with, then the same URL with the
    machine context. *)
Definition transport_cycle (E : Env) (url : string) (ca : option string)
    : list Request :=
  [if check_winpe E then UrlopenCafile url ca else UrlopenDefault url;
   UrlopenContext url].

(** A network that answers every request alike, in the pre-installation
    environment. *)
Definition constant_env (outcome : UrlopenResult) : Env :=
  {| urlopen := fun _ _ => outcome;
     check_winpe := true;
     urlparse_netloc := Fixtures.netloc;
     CheckBeyondCorp := false;
     GetSignedUrl := fun path => inr path;
     FLAGS_use_signed_url := false;
     FLAGS_config_server := "https://cfg.example";
     Copy := Fixtures.copy;
     open_error := fun _ => None;
     sha256_hexdigest := Fixtures.digest;
     strftime := fun _ => "Monday, 01 January 2024 00:00:00 UTC" |}.

(** Collaborators under which no file can be opened. *)
Definition locked_env : Env :=
  {| urlopen := fun _ _ => ReturnsNone;
     check_winpe := false;
     urlparse_netloc := Fixtures.netloc;
     CheckBeyondCorp := false;
     GetSignedUrl := fun path => inr path;
     FLAGS_use_signed_url := false;
     FLAGS_config_server := "https://cfg.example";
     Copy := Fixtures.copy;
     open_error := fun _ => Some "Permission denied";
     sha256_hexdigest := Fixtures.digest;
     strftime := fun _ => "Monday, 01 January 2024 00:00:00 UTC" |}.

(** * Properties *)

(** ** The retry gate *)

Lemma _AttemptResource_sleeps (n max_retries : Z) (resource : string)
    (w : World) :
  max_retries < 0 \/ n < max_retries ->
  exists msg,
    _AttemptResource n max_retries resource w
    = (Ok tt, emit (EvSleep SLEEP) (emit (EvLog INFO msg) w)).
Proof.
  intros H. unfold _AttemptResource.
  destruct (Z.ltb_spec max_retries 0) as [Hneg | Hpos].
  - eexists. reflexivity.
  - destruct (Z.ltb_spec n max_retries) as [Hlt | Hge]; [| lia].
    eexists. reflexivity.
Qed.

Lemma _AttemptResource_raises (n max_retries : Z) (resource : string)
    (w : World) :
  0 <= max_retries <= n ->
  _AttemptResource n max_retries resource w
  = (Raise (DownloadError ("Failed to reach " +:+ resource +:+ " after "
                           +:+ of_Z max_retries +:+ " attempt(s).")), w).
Proof.
  intros [H0 Hn]. unfold _AttemptResource.
  destruct (Z.ltb_spec max_retries 0); [lia |].
  destruct (Z.ltb_spec n max_retries); [lia |].
  reflexivity.
Qed.

(** C2.  The retry gate [_AttemptResource n max_retries resource] raises if
    and only if [max_retries] is non-negative and [n >= max_retries].  When
    [max_retries] is negative, or [n < max_retries], it logs, sleeps the
    fixed 20 units and returns.  Otherwise it raises [DownloadError] and
    does nothing else; the message names the resource and gives the count
    of attempts as the number [max_retries]. *)
Theorem _AttemptResource_gate (n max_retries : Z) (resource : string)
    (w : World) :
  let r := _AttemptResource n max_retries resource w in
  ((exists e, fst r = Raise e) <-> 0 <= max_retries /\ max_retries <= n)
  /\ (max_retries < 0 \/ n < max_retries ->
      exists msg, r = (Ok tt, emit (EvSleep 20) (emit (EvLog INFO msg) w)))
  /\ (0 <= max_retries /\ max_retries <= n ->
      r = (Raise (DownloadError
                    ("Failed to reach " +:+ resource +:+ " after "
                     +:+ of_Z max_retries +:+ " attempt(s).")), w)).
Proof.
  cbv zeta. split; [| split].
  - split.
    + intros [e He].
      destruct (Z.lt_ge_cases max_retries 0) as [Hneg | Hpos].
      * destruct (_AttemptResource_sleeps n max_retries resource w
                    (or_introl Hneg)) as [msg Hm].
        rewrite Hm in He. discriminate.
      * destruct (Z.lt_ge_cases n max_retries) as [Hlt | Hge]; [| lia].
        destruct (_AttemptResource_sleeps n max_retries resource w
                    (or_intror Hlt)) as [msg Hm].
        rewrite Hm in He. discriminate.
    + intros H. rewrite _AttemptResource_raises by lia. eauto.
  - apply _AttemptResource_sleeps.
  - intros H. apply _AttemptResource_raises. lia.
Qed.

(** The number in the message is the budget, not the attempt count.  At
    attempt 7 with a budget of 3 the message says 3.  In the loop of
    [_OpenStream], on a network that answers every request with
    [HTTPError], a budget of 0 gives "after 0 attempt(s)" although one
    request was made. *)
Lemma _AttemptResource_message_gives_budget :
  let r := _AttemptResource 7 3 "file download" Fixtures.world0 in
  let o := _OpenStream (constant_env HTTPError) 1 "https://h.example/f" 0
                       None Fixtures.world0 in
  fst r
  = Raise (DownloadError "Failed to reach file download after 3 attempt(s).")
  /\ fst r
     <> Raise (DownloadError
                "Failed to reach file download after 7 attempt(s).")
  /\ fst o
     = Raise (DownloadError "Failed to reach file download after 0 attempt(s).")
  /\ count is_urlopen (trace (snd o)) = 1%nat.
Proof.
  cbv zeta. split; [vm_compute; reflexivity |].
  split; [vm_compute; discriminate |].
  split; vm_compute; reflexivity.
Qed.

(** ** Counting events *)

Lemma count_app (p : Event -> bool) (t u : list Event) :
  count p (t ++ u) = (count p t + count p u)%nat.
Proof.
  unfold count. rewrite filter_app, length_app. reflexivity.
Qed.

Lemma count_emit (p : Event -> bool) (e : Event) (w : World) :
  count p (trace (emit e w))
  = (count p (trace w) + if p e then 1 else 0)%nat.
Proof.
  simpl. rewrite count_app. f_equal.
  unfold count. simpl. destruct (p e) eqn:Hp.
  - rewrite filter_cons_True by exact Hp. reflexivity.
  - rewrite filter_cons_False by (rewrite Hp; discriminate). reflexivity.
Qed.

(** ** A locator without host *)

(** C3.  When the stripped URL parses to an empty host, [_OpenStream] raises
    [DownloadError] for every fuel (also none, so before the attempt loop),
    every [max_retries] and every status list; the only effect is the
    installation of the opener, and no network request is made. *)
Theorem _OpenStream_no_host (E : Env) (fuel : nat) (url : string)
    (max_retries : Z) (status_codes : option (list Z)) (w : World) :
  urlparse_netloc E (strip is_space url) = Some EmptyString ->
  _OpenStream E fuel url max_retries status_codes w
  = (Raise (DownloadError
              ("Invalid remote server URL " +:+ dquote
               +:+ strip is_space url +:+ dquote +:+ ".")),
     emit EvInstallOpener w)
  /\ count is_urlopen
       (trace (snd (_OpenStream E fuel url max_retries status_codes w)))
     = count is_urlopen (trace w).
Proof.
  intros Hhost.
  assert (Heq : _OpenStream E fuel url max_retries status_codes w
                = (Raise (DownloadError
                            ("Invalid remote server URL " +:+ dquote
                             +:+ strip is_space url +:+ dquote +:+ ".")),
                   emit EvInstallOpener w)).
  { unfold _OpenStream, bind, do. rewrite Hhost. reflexivity. }
  split; [exact Heq |].
  rewrite Heq. cbn [snd]. rewrite count_emit. cbn [is_urlopen]. lia.
Qed.

Lemma _OpenStream_no_host_witness :
  let E := Fixtures.env Fixtures.redirect_chain false false in
  urlparse_netloc E (strip is_space " h.example/f ") = Some EmptyString
  /\ fst (_OpenStream E 0 " h.example/f " 5 None Fixtures.world0)
     = Raise (DownloadError
                ("Invalid remote server URL " +:+ dquote +:+ "h.example/f"
                 +:+ dquote +:+ ".")).
Proof.
  cbv zeta. split; [reflexivity |].
  rewrite (proj1 (_OpenStream_no_host
                    (Fixtures.env Fixtures.redirect_chain false false)
                    0 " h.example/f " 5 None Fixtures.world0 eq_refl)).
  reflexivity.
Defined.

(** ** Dispatch of DownloadFile *)

(** C10.  [DownloadFile] looks at [IsRemote] only.  For every locator that
    is not remote, whatever [IsLocal] says of it, it stores the save
    location, calls the copy collaborator once and makes no network
    request; a failure of the copy comes back as [DownloadError]. *)
Theorem DownloadFile_not_remote (E : Env) (fuel : nat)
    (url save_location : string) (max_retries : Z) (show_progress : bool)
    (w : World) :
  IsRemote url = false ->
  let w1 :=
    emit (EvCopy url save_location)
         (set_self (set_save_location (Some save_location) (self w)) w) in
  DownloadFile E fuel url save_location max_retries show_progress w
  = match Copy E url save_location (files w) with
    | inr f => (Ok tt, set_files f w1)
    | inl e => (Raise (DownloadError e), w1)
    end
  /\ count is_urlopen
       (trace (snd (DownloadFile E fuel url save_location max_retries
                                 show_progress w)))
     = count is_urlopen (trace w).
Proof.
  intros Hremote. cbv zeta.
  assert (Heq : DownloadFile E fuel url save_location max_retries
                             show_progress w
                = match Copy E url save_location (files w) with
                  | inr f =>
                      (Ok tt,
                       set_files f
                         (emit (EvCopy url save_location)
                            (set_self
                               (set_save_location (Some save_location)
                                  (self w)) w)))
                  | inl e =>
                      (Raise (DownloadError e),
                       emit (EvCopy url save_location)
                         (set_self
                            (set_save_location (Some save_location) (self w))
                            w))
                  end).
  { unfold DownloadFile. rewrite Hremote. unfold bind, do. simpl.
    destruct (Copy E url save_location (files w)); reflexivity. }
  split; [exact Heq |].
  rewrite Heq.
  destruct (Copy E url save_location (files w)); cbn [snd];
    unfold set_files; cbn [trace]; rewrite count_emit;
    cbn [is_urlopen trace set_self]; lia.
Qed.

Lemma DownloadFile_not_remote_witness :
  let E := Fixtures.env [] false false in
  let w := Fixtures.world_saving "old" {["relative/path" := Fixtures.abc]} in
  IsRemote "relative/path" = false
  /\ IsLocal "relative/path" = false
  /\ fst (DownloadFile E 0 "relative/path" "C:\out" 5 false w) = Ok tt
  /\ files (snd (DownloadFile E 0 "relative/path" "C:\out" 5 false w))
       !! "C:\out" = Some Fixtures.abc.
Proof.
  cbv zeta. split; [reflexivity |]. split; [reflexivity |].
  rewrite (proj1 (DownloadFile_not_remote
                    (Fixtures.env [] false false) 0 "relative/path" "C:\out"
                    5 false
                    (Fixtures.world_saving "old"
                       {["relative/path" := Fixtures.abc]}) eq_refl)).
  split; vm_compute; reflexivity.
Defined.

(** ** PathCompile *)

Lemma rstrip_last_clean (p : ascii -> bool) (s : string) (c : ascii) :
  last_char (rstrip p s) = Some c -> p c = false.
Proof.
  induction s as [| a r IH]; simpl; [discriminate |].
  destruct (rstrip p r) as [| b r'] eqn:Hr.
  - destruct (p a) eqn:Hp; simpl; [discriminate |].
    intros [= <-]. exact Hp.
  - exact IH.
Qed.

Lemma rstrip_no_trailing_slash (s : string) :
  ends_with_slash (rstrip is_slash s) = false.
Proof.
  unfold ends_with_slash.
  destruct (last_char (rstrip is_slash s)) as [c |] eqn:Hc; [| reflexivity].
  exact (rstrip_last_clean is_slash s c Hc).
Qed.

Lemma lstrip_no_leading_slash (s : string) :
  starts_with_slash (lstrip is_slash s) = false.
Proof.
  unfold starts_with_slash.
  induction s as [| a r IH]; simpl; [reflexivity |].
  destruct (is_slash a) eqn:Ha; [exact IH | simpl; exact Ha].
Qed.

Lemma rstrip_keeps_head (p : ascii -> bool) (s : string) :
  match first_char (rstrip p s) with
  | Some c => first_char s = Some c
  | None => True
  end.
Proof.
  destruct s as [| a r]; simpl; [exact I |].
  destruct (rstrip p r); [destruct (p a) |]; simpl; auto.
Qed.

Lemma strip_no_slash_at_ends (s : string) :
  starts_with_slash (strip is_slash s) = false
  /\ ends_with_slash (strip is_slash s) = false.
Proof.
  unfold strip. split; [| apply rstrip_no_trailing_slash].
  pose proof (lstrip_no_leading_slash s) as Hl.
  pose proof (rstrip_keeps_head is_slash (lstrip is_slash s)) as Hk.
  unfold starts_with_slash in *.
  destruct (first_char (rstrip is_slash (lstrip is_slash s))) as [c |];
    [| reflexivity].
  rewrite Hk in Hl. exact Hl.
Qed.

Lemma last_char_app (a b : string) :
  b <> EmptyString -> last_char (a +:+ b) = last_char b.
Proof.
  intros Hb. induction a as [| c r IH]; simpl; [reflexivity |].
  rewrite <- IH. destruct (r +:+ b) eqn:Hrb; [| reflexivity].
  destruct r; simpl in Hrb; [contradiction | discriminate].
Qed.

(** Without a file name, [PathCompile] ends in a slash only when there are
    sub-path segments and nothing is left of their joined text. *)
Lemma PathCompile_no_trailing_slash (build_info : BuildInfo)
    (base : option string) :
  ActiveConfigPath build_info = []
  \/ strip is_slash (join "/" (ActiveConfigPath build_info)) <> EmptyString ->
  ends_with_slash (PathCompile build_info None base) = false.
Proof.
  intros H. unfold PathCompile.
  destruct (ActiveConfigPath build_info) as [| x l] eqn:Hsub.
  - apply rstrip_no_trailing_slash.
  - destruct H as [H | H]; [discriminate |].
    pose proof (proj2 (strip_no_slash_at_ends (join "/" (x :: l)))) as Hs.
    unfold ends_with_slash in *.
    rewrite last_char_app by discriminate.
    rewrite (last_char_app "/") by exact H.
    exact Hs.
Qed.

(** The two compilations that the specification lists. *)
Lemma PathCompile_examples :
  PathCompile (Fixtures.build "https://r" ["a"; "b"]) (Some "f.txt")
              (Some "https://x") = "https://x/a/b/f.txt"
  /\ PathCompile (Fixtures.build "https://r" []) None (Some "https://x/")
     = "https://x".
Proof. split; reflexivity. Qed.

(** C6.  With the one empty segment that a sub-path sequence can hold,
    [PathCompile] appends the separating slash and then nothing: the result
    without file name ends in a slash, and with a file name two slashes
    stand between base and name. *)
Theorem PathCompile_empty_segment :
  PathCompile (Fixtures.build "https://r" [""]) None (Some "https://x")
  = "https://x/"
  /\ ends_with_slash
       (PathCompile (Fixtures.build "https://r" [""]) None (Some "https://x"))
     = true
  /\ PathCompile (Fixtures.build "https://r" [""]) (Some "f.txt")
                 (Some "https://x")
     = "https://x//f.txt".
Proof. repeat split; reflexivity. Qed.

(** ** Transform *)

Lemma append_nil_r (s : string) : s +:+ EmptyString = s.
Proof.
  induction s as [| a r IH]; [reflexivity |].
  change (String a (r +:+ EmptyString) = String a r). f_equal. exact IH.
Qed.

Lemma contains_app (c : ascii) (a b : string) :
  contains c (a +:+ b) = contains c a || contains c b.
Proof.
  induction a as [| x r IH]; [reflexivity |].
  change (String x r +:+ b) with (String x (r +:+ b)).
  cbn [contains]. rewrite IH, orb_assoc. reflexivity.
Qed.

Lemma sub_escaped_cons (m c : ascii) (s : string) :
  Ascii.eqb c backslash = false ->
  Re.sub_escaped m (String c s) = String c (Re.sub_escaped m s).
Proof.
  intros Hc. simpl. rewrite Hc. destruct s; reflexivity.
Qed.

Lemma sub_escaped_backslash (m : ascii) (s : string) :
  head_is m s = false ->
  Re.sub_escaped m (String backslash s)
  = String backslash (Re.sub_escaped m s).
Proof.
  intros Hs. destruct s as [| d r]; [reflexivity |].
  simpl in Hs. cbn [Re.sub_escaped]. rewrite Hs, andb_false_r. reflexivity.
Qed.

Lemma sub_escaped_app (m : ascii) (x y : string) :
  contains backslash x = false ->
  Re.sub_escaped m (x +:+ y) = x +:+ Re.sub_escaped m y.
Proof.
  induction x as [| c r IH]; intros Hx; [reflexivity |].
  simpl in Hx. apply orb_false_elim in Hx as [Hc Hr].
  change (String c r +:+ y) with (String c (r +:+ y)).
  rewrite sub_escaped_cons by exact Hc.
  rewrite IH by exact Hr. reflexivity.
Qed.

Lemma sub_unescaped_app (m : ascii) (repl x y : string) :
  contains m x = false -> contains backslash x = false ->
  Re.sub_unescaped m repl false (x +:+ y)
  = x +:+ Re.sub_unescaped m repl false y.
Proof.
  induction x as [| c r IH]; intros Hm Hb; [reflexivity |].
  simpl in Hm, Hb.
  apply orb_false_elim in Hm as [Hcm Hrm].
  apply orb_false_elim in Hb as [Hcb Hrb].
  change (String c r +:+ y) with (String c (r +:+ y)).
  cbn [Re.sub_unescaped]. rewrite Hcm, Hcb. cbn [andb]. cbv iota.
  rewrite IH by assumption. reflexivity.
Qed.

Lemma sub_unescaped_head (m : ascii) (repl : string) (b : bool) (s : string) :
  head_is m s = false ->
  Re.sub_unescaped m repl b s = Re.sub_unescaped m repl false s
  /\ head_is m (Re.sub_unescaped m repl false s) = false.
Proof.
  intros Hs. destruct s as [| c r]; [split; reflexivity |].
  simpl in Hs. simpl. rewrite Hs. simpl. split; [reflexivity | exact Hs].
Qed.

Lemma sub_escaped_head (m k c : ascii) (s : string) :
  Ascii.eqb c k = false -> Ascii.eqb m k = false ->
  head_is k (Re.sub_escaped m (String c s)) = false.
Proof.
  intros Hc Hm. destruct s as [| d r]; simpl; [exact Hc |].
  destruct (Ascii.eqb c backslash && Ascii.eqb d m); simpl; assumption.
Qed.

Section TransformPasses.

(** [release] is the text put for [#] and [binary] the text put for [@]. *)
Variables release binary : string.
Hypothesis release_plain : contains backslash release = false.
Hypothesis release_no_at : contains at_sign release = false.
Hypothesis binary_plain : contains backslash binary = false.

Lemma passes_hash (r : string) :
  passes release binary (String hash r) = release +:+ passes release binary r.
Proof.
  unfold passes. cbn [Re.sub_unescaped].
  change (Ascii.eqb hash hash && negb false) with true.
  change (Ascii.eqb hash backslash) with false. cbv iota.
  rewrite sub_escaped_app by exact release_plain.
  rewrite sub_unescaped_app by assumption.
  rewrite sub_escaped_app by exact release_plain.
  reflexivity.
Qed.

Lemma passes_at (r : string) :
  passes release binary (String at_sign r)
  = binary +:+ passes release binary r.
Proof.
  unfold passes. cbn [Re.sub_unescaped].
  change (Ascii.eqb at_sign hash && negb false) with false.
  change (Ascii.eqb at_sign backslash) with false. cbv iota.
  rewrite sub_escaped_cons by reflexivity.
  cbn [Re.sub_unescaped].
  change (Ascii.eqb at_sign at_sign && negb false) with true.
  change (Ascii.eqb at_sign backslash) with false. cbv iota.
  rewrite sub_escaped_app by exact binary_plain.
  reflexivity.
Qed.

Lemma passes_escaped_hash (r : string) :
  passes release binary (String backslash (String hash r))
  = String hash (passes release binary r).
Proof.
  unfold passes. cbn [Re.sub_unescaped].
  change (Ascii.eqb backslash hash && negb false) with false.
  change (Ascii.eqb backslash backslash) with true.
  change (Ascii.eqb hash hash && negb true) with false.
  change (Ascii.eqb hash backslash) with false. cbv iota.
  cbn [Re.sub_escaped].
  change (Ascii.eqb backslash backslash && Ascii.eqb hash hash) with true.
  cbv iota. cbn [Re.sub_unescaped].
  change (Ascii.eqb hash at_sign && negb false) with false.
  change (Ascii.eqb hash backslash) with false. cbv iota.
  rewrite sub_escaped_cons by reflexivity. reflexivity.
Qed.

Lemma passes_escaped_at (r : string) :
  passes release binary (String backslash (String at_sign r))
  = String at_sign (passes release binary r).
Proof.
  unfold passes. cbn [Re.sub_unescaped].
  change (Ascii.eqb backslash hash && negb false) with false.
  change (Ascii.eqb backslash backslash) with true.
  change (Ascii.eqb at_sign hash && negb true) with false.
  change (Ascii.eqb at_sign backslash) with false. cbv iota.
  rewrite (sub_escaped_backslash hash) by reflexivity.
  rewrite sub_escaped_cons by reflexivity.
  cbn [Re.sub_unescaped].
  change (Ascii.eqb backslash at_sign && negb false) with false.
  change (Ascii.eqb backslash backslash) with true.
  change (Ascii.eqb at_sign at_sign && negb true) with false.
  change (Ascii.eqb at_sign backslash) with false. cbv iota.
  cbn [Re.sub_escaped].
  change (Ascii.eqb backslash backslash && Ascii.eqb at_sign at_sign)
    with true.
  reflexivity.
Qed.

Lemma passes_plain (c : ascii) (r : string) :
  Ascii.eqb c hash = false -> Ascii.eqb c at_sign = false ->
  Ascii.eqb c backslash = false ->
  passes release binary (String c r) = String c (passes release binary r).
Proof.
  intros Hh Ha Hb. unfold passes. cbn [Re.sub_unescaped].
  rewrite Hh, Hb. cbn [andb]. cbv iota.
  rewrite sub_escaped_cons by exact Hb.
  cbn [Re.sub_unescaped]. rewrite Ha, Hb. cbn [andb]. cbv iota.
  rewrite sub_escaped_cons by exact Hb. reflexivity.
Qed.

Lemma passes_backslash (r : string) :
  head_is hash r = false -> head_is at_sign r = false ->
  passes release binary (String backslash r)
  = String backslash (passes release binary r).
Proof.
  intros Hh Ha. unfold passes. cbn [Re.sub_unescaped].
  change (Ascii.eqb backslash hash && negb false) with false.
  change (Ascii.eqb backslash backslash) with true. cbv iota.
  destruct (sub_unescaped_head hash release true r Hh) as [-> Hh1].
  rewrite (sub_escaped_backslash hash) by exact Hh1.
  cbn [Re.sub_unescaped].
  change (Ascii.eqb backslash at_sign && negb false) with false.
  change (Ascii.eqb backslash backslash) with true. cbv iota.
  assert (Hw : head_is at_sign
                 (Re.sub_escaped hash (Re.sub_unescaped hash release false r))
               = false).
  { destruct r as [| d r']; [reflexivity |].
    simpl in Hh, Ha. cbn [Re.sub_unescaped]. rewrite Hh. cbn [andb]. cbv iota.
    apply sub_escaped_head; [exact Ha | reflexivity]. }
  destruct (sub_unescaped_head at_sign binary true _ Hw) as [-> Hv].
  rewrite (sub_escaped_backslash at_sign) by exact Hv.
  reflexivity.
Qed.

Lemma passes_expand (n : nat) :
  forall s, (String.length s <= n)%nat ->
            passes release binary s = expand_markers release binary s.
Proof.
  induction n as [| n IH]; intros s Hlen.
  - destruct s; [reflexivity | simpl in Hlen; lia].
  - destruct s as [| c r]; [reflexivity |].
    simpl in Hlen.
    assert (Hr : passes release binary r = expand_markers release binary r)
      by (apply IH; lia).
    destruct (Ascii.eqb_spec c backslash) as [-> | Hcb].
    + destruct r as [| d r'].
      * reflexivity.
      * simpl in Hlen.
        destruct (Ascii.eqb_spec d hash) as [-> | Hdh].
        { rewrite passes_escaped_hash. cbn [expand_markers].
          change (Ascii.eqb backslash backslash
                  && (Ascii.eqb hash hash || Ascii.eqb hash at_sign))
            with true. cbv iota. f_equal. apply IH. lia. }
        destruct (Ascii.eqb_spec d at_sign) as [-> | Hda].
        { rewrite passes_escaped_at. cbn [expand_markers].
          change (Ascii.eqb backslash backslash
                  && (Ascii.eqb at_sign hash || Ascii.eqb at_sign at_sign))
            with true. cbv iota. f_equal. apply IH. lia. }
        apply Ascii.eqb_neq in Hdh, Hda.
        rewrite passes_backslash by (simpl; assumption).
        rewrite Hr.
        change (expand_markers release binary
                  (String backslash (String d r')))
          with (if Ascii.eqb backslash backslash
                   && (Ascii.eqb d hash || Ascii.eqb d at_sign)
                then String d (expand_markers release binary r')
                else expand_char release binary backslash
                     +:+ expand_markers release binary (String d r')).
        rewrite Hdh, Hda. reflexivity.
    + apply Ascii.eqb_neq in Hcb.
      assert (Hspec : expand_markers release binary (String c r)
                      = expand_char release binary c
                        +:+ expand_markers release binary r).
      { destruct r as [| d r'].
        - simpl. rewrite append_nil_r. reflexivity.
        - cbn [expand_markers]. rewrite Hcb. reflexivity. }
      rewrite Hspec. unfold expand_char.
      destruct (Ascii.eqb_spec c hash) as [-> | Hch].
      { rewrite passes_hash, Hr. reflexivity. }
      destruct (Ascii.eqb_spec c at_sign) as [-> | Hca].
      { rewrite passes_at, Hr. reflexivity. }
      apply Ascii.eqb_neq in Hch, Hca.
      rewrite passes_plain by assumption. rewrite Hr. reflexivity.
Qed.

End TransformPasses.

(** C5.  When the reader of replacement templates inserts a template
    without backslash as it is, the compiled release path holds neither a
    backslash nor an [@], and the binary-storage root holds no backslash,
    [Transform] is the one-pass expansion of the template: every [#] that
    no backslash precedes becomes the compiled release path followed by a
    slash, every such [@] becomes the binary-storage root, a backslash
    before a marker disappears and leaves the marker unexpanded, and all
    other characters stay. *)
Theorem Transform_expands (re_template : string -> ascii -> option string)
    (s : string) (build_info : BuildInfo) :
  literal_templates re_template ->
  contains backslash (PathCompile build_info None None) = false ->
  contains at_sign (PathCompile build_info None None) = false ->
  contains backslash (BinaryPath build_info) = false ->
  Transform re_template s build_info
  = Some (expand_markers (PathCompile build_info None None +:+ "/")
                         (BinaryPath build_info) s).
Proof.
  intros Hlit Hpb Hpa Hbb.
  assert (Hrb : contains backslash (PathCompile build_info None None +:+ "/")
                = false)
    by (rewrite contains_app, Hpb; reflexivity).
  assert (Hra : contains at_sign (PathCompile build_info None None +:+ "/")
                = false)
    by (rewrite contains_app, Hpa; reflexivity).
  unfold Transform.
  rewrite (Hlit _ hash Hrb). cbn [mbind option_bind].
  rewrite (Hlit _ at_sign Hbb). cbn [mbind option_bind].
  f_equal.
  exact (passes_expand _ _ Hrb Hra Hbb (String.length s) s (le_n _)).
Qed.

Lemma plain_template_literal : literal_templates plain_template.
Proof.
  intros repl m H. unfold plain_template. rewrite H. reflexivity.
Qed.

Lemma Transform_expands_witness :
  Transform plain_template "#f.txt @x \#lit \@lit \\#"
            (Fixtures.build "https://x" ["a"; "b"])
  = Some "https://x/a/b/f.txt https://bin.example/x #lit @lit \#".
Proof.
  rewrite (Transform_expands plain_template _
             (Fixtures.build "https://x" ["a"; "b"])
             plain_template_literal eq_refl eq_refl eq_refl).
  reflexivity.
Defined.

(** The claim C5 as it is written fails for a release path that holds an
    [@]: the text put for [#] is itself rewritten by the later [@] pass. *)
Lemma Transform_release_with_at :
  let build_info := Fixtures.build "https://user@host" [] in
  PathCompile build_info None None = "https://user@host"
  /\ Transform plain_template "#conf" build_info
     = Some "https://userhttps://bin.example/host/conf"
  /\ Transform plain_template "#conf" build_info
     <> Some (expand_markers (PathCompile build_info None None +:+ "/")
                             (BinaryPath build_info) "#conf").
Proof.
  cbv zeta. split; [reflexivity |]. split; [reflexivity |].
  vm_compute. discriminate.
Qed.

(** ** Which computations emit which events *)

Section Quiet.

Context {A B : Type} (p : Event -> bool).

Lemma quiet_ret (a : A) : quiet p (ret a).
Proof. intros w. exists []. simpl. rewrite app_nil_r. auto. Qed.

Lemma quiet_raise (e : exn) : quiet p (@raise A e).
Proof. intros w. exists []. simpl. rewrite app_nil_r. auto. Qed.

Lemma quiet_out_of_fuel : quiet p (@out_of_fuel A).
Proof. intros w. exists []. simpl. rewrite app_nil_r. auto. Qed.

Lemma quiet_ask (f : World -> A) : quiet p (ask f).
Proof. intros w. exists []. simpl. rewrite app_nil_r. auto. Qed.

Lemma quiet_emit (e : Event) : p e = false -> quiet p (do (emit e)).
Proof.
  intros He w. exists [e]. simpl. split; [reflexivity |].
  unfold count. rewrite filter_cons_False by (rewrite He; discriminate).
  reflexivity.
Qed.

Lemma quiet_do (f : World -> World) :
  (forall w, trace (f w) = trace w) -> quiet p (do f).
Proof.
  intros Hf w. exists []. simpl. rewrite Hf, app_nil_r. auto.
Qed.

Lemma quiet_bind (m : M A) (k : A -> M B) :
  quiet p m -> (forall a, quiet p (k a)) -> quiet p (bind m k).
Proof.
  intros Hm Hk w. unfold bind.
  destruct (Hm w) as (t1 & Ht1 & Hc1).
  destruct (m w) as [[a | e |] w1] eqn:Hmw; simpl in Ht1.
  - destruct (Hk a w1) as (t2 & Ht2 & Hc2).
    exists (t1 ++ t2)%list. rewrite Ht2, Ht1, app_assoc, count_app.
    split; [reflexivity | lia].
  - exists t1. auto.
  - exists t1. auto.
Qed.

End Quiet.

Lemma quiet_try_except {A} (p : Event -> bool) (body : M A)
    (handlers : list ((exn -> bool) * (exn -> M A))) :
  quiet p body ->
  Forall (fun h => forall e, quiet p (snd h e)) handlers ->
  quiet p (try_except body handlers).
Proof.
  intros Hb Hh w. unfold try_except.
  destruct (Hb w) as (t1 & Ht1 & Hc1).
  destruct (body w) as [[a | e |] w1] eqn:Hbw; simpl in Ht1;
    [exists t1; auto | | exists t1; auto].
  destruct (List.find (fun h => fst h e) handlers) as [h |] eqn:Hf;
    [| exists t1; auto].
  apply List.find_some in Hf as [Hin _].
  rewrite List.Forall_forall in Hh.
  destruct (Hh h Hin e w1) as (t2 & Ht2 & Hc2).
  exists (t1 ++ t2)%list. rewrite Ht2, Ht1, app_assoc, count_app.
  split; [reflexivity | lia].
Qed.

Lemma closes_after {A B} (m : M A) (k : A -> M B) :
  quiet is_close m -> (forall a, closes_at_end (k a)) ->
  closes_at_end (bind m k).
Proof.
  intros Hm Hk w. unfold bind.
  destruct (Hm w) as (t1 & Ht1 & Hc1).
  destruct (m w) as [[a | e |] w1] eqn:Hmw; simpl in Ht1.
  - destruct (Hk a w1) as (t2 & Ht2 & Hc2).
    exists (t1 ++ t2)%list. rewrite Ht2, Ht1, count_app, !app_assoc.
    split; [reflexivity | lia].
  - exists t1. simpl. rewrite app_nil_r. auto.
  - exists t1. simpl. rewrite app_nil_r. auto.
Qed.

Lemma stream_close_closes (s : Stream) : closes_at_end (stream_close s).
Proof. intros w. exists []. simpl. auto. Qed.

Ltac quiet_step :=
  first
    [ apply quiet_bind; [| intros ?]
    | apply quiet_ret | apply quiet_raise | apply quiet_out_of_fuel
    | apply quiet_ask
    | apply quiet_emit; reflexivity
    | apply quiet_do; intros ?; reflexivity ].

Lemma _AttemptResource_quiet (n max_retries : Z) (resource : string) :
  quiet is_close (_AttemptResource n max_retries resource).
Proof.
  unfold _AttemptResource, logging_info, time_sleep.
  destruct (max_retries <? 0); [repeat quiet_step |].
  destruct (n <? max_retries); repeat quiet_step.
Qed.

Lemma content_length_loop_quiet (fuel : nat) (attempt : Z) (s : Stream)
    (max_retries : Z) :
  quiet is_close (content_length_loop fuel attempt s max_retries).
Proof.
  revert attempt. induction fuel as [| fuel IH]; intros attempt; simpl.
  - quiet_step.
  - destruct (headers_get (headers s) "Content-Length") as [v |].
    + destruct (PyStr.int (strip is_space v)); quiet_step.
    + apply quiet_bind; [apply _AttemptResource_quiet | intros _; apply IH].
Qed.

Lemma stream_read_quiet (s : Stream) (amt : Z) :
  quiet is_close (stream_read s amt).
Proof.
  unfold stream_read. quiet_step; [quiet_step |].
  destruct (body s) as [| [data | msg] b]; quiet_step.
Qed.

Lemma _DownloadChunkReport_quiet (bytes_so_far total_size : Z) :
  quiet is_close (_DownloadChunkReport bytes_so_far total_size).
Proof.
  unfold _DownloadChunkReport.
  destruct (total_size =? 0); [quiet_step |].
  quiet_step; [quiet_step |].
  destruct (bytes_so_far >=? total_size); quiet_step.
Qed.

Lemma write_loop_quiet (fuel : nat) (s : Stream) (bytes_so_far total_size : Z)
    (progress : bool) (path : string) :
  quiet is_close (write_loop fuel s bytes_so_far total_size progress path).
Proof.
  revert s bytes_so_far. induction fuel as [| fuel IH]; intros s bytes_so_far;
    simpl; [quiet_step |].
  apply quiet_bind; [apply stream_read_quiet | intros r].
  destruct (Bytes.is_empty (fst r)); [quiet_step |].
  apply quiet_bind; [unfold file_write; quiet_step | intros _].
  apply quiet_bind; [| intros _; apply IH].
  destruct progress; [apply _DownloadChunkReport_quiet | quiet_step].
Qed.

Lemma _StoreDebugInfo_quiet (E : Env) (s : option Stream)
    (e : option string) :
  quiet is_close (_StoreDebugInfo E s e).
Proof. intros w. exists []. simpl. rewrite app_nil_r. auto. Qed.

Lemma save_location_quiet : quiet is_close save_location.
Proof.
  intros w. exists []. unfold save_location.
  destruct (_save_location (self w)); simpl; rewrite app_nil_r; auto.
Qed.

Lemma _Validate_quiet (E : Env) (s : Stream) (expected_size : Z) :
  quiet is_close (_Validate E s expected_size).
Proof.
  unfold _Validate.
  apply quiet_bind; [apply save_location_quiet | intros path].
  apply quiet_bind; [quiet_step | intros content].
  destruct content as [data |].
  - destruct (negb (Bytes.len data =? expected_size)); [| quiet_step].
    apply quiet_bind; [apply _StoreDebugInfo_quiet | intros _; quiet_step].
  - apply quiet_bind; [apply _StoreDebugInfo_quiet | intros _; quiet_step].
Qed.

Lemma open_wb_quiet (E : Env) (path : string) : quiet is_close (open_wb E path).
Proof.
  unfold open_wb. destruct (open_error E path); quiet_step.
Qed.

(** C9.  Whatever the stream, the flags and the fuel, [_StreamToDisk] closes
    the stream handle as its very last effect when it returns, so that
    nothing is read after the close and the handle is closed once; when it
    does not return (socket error, destination that cannot be opened, size
    mismatch, missing file, exhausted content-length retries) it does not
    close the handle at all. *)
Theorem _StreamToDisk_closes_on_success (E : Env) (fuel : nat)
    (file_stream : Stream) (show_progress : option bool) (max_retries : Z)
    (w : World) :
  let r := _StreamToDisk E fuel file_stream show_progress max_retries w in
  exists t,
    trace (snd r)
    = (trace w ++ t ++ if succeeded (fst r) then [EvClose] else [])%list
    /\ count is_close t = O.
Proof.
  cbv zeta. revert w.
  change (closes_at_end
            (_StreamToDisk E fuel file_stream show_progress max_retries)).
  unfold _StreamToDisk.
  apply closes_after; [quiet_step | intros default_progress].
  apply closes_after; [apply content_length_loop_quiet | intros r].
  apply closes_after.
  - apply quiet_try_except.
    + apply quiet_bind; [apply save_location_quiet | intros path].
      apply quiet_bind; [apply open_wb_quiet | intros _].
      apply quiet_bind; [unfold logging_info; quiet_step | intros _].
      apply quiet_bind; [apply write_loop_quiet | intros _; quiet_step].
    + repeat constructor; intros e; simpl.
      * apply quiet_bind; [apply _StoreDebugInfo_quiet | intros _; quiet_step].
      * repeat quiet_step.
  - intros _.
    apply closes_after; [apply _Validate_quiet | intros _].
    apply stream_close_closes.
Qed.

(** The claim C9 as it is written fails on a failure exit: a body that is
    one byte short is read to its end, validation raises, and the handle is
    never closed. *)
Lemma _StreamToDisk_short_body_leaves_open :
  let E := Fixtures.env [] false false in
  let r := _StreamToDisk E 5 Fixtures.short None 5
                         (Fixtures.world_saving "out" ∅) in
  fst r = Raise (DownloadError
                   "File size of 2 bytes did not match expected size of 3!")
  /\ count is_read (trace (snd r)) = 2%nat
  /\ count is_close (trace (snd r)) = 0%nat.
Proof. cbv zeta. repeat split; vm_compute; reflexivity. Qed.

(** ** Validation of the written file *)

Lemma store_headers_keeps (items : list (string * string))
    (d : gmap string string) (k : string) :
  is_Some (d !! k) -> is_Some (store_headers items d !! k).
Proof.
  revert d. induction items as [| h items IH]; intros d Hd; [exact Hd |].
  change (is_Some (store_headers items (<[h.1 := h.2]> d) !! k)).
  apply IH. destruct (decide (h.1 = k)) as [<- | Hne].
  - rewrite lookup_insert_eq. eauto.
  - rewrite lookup_insert_ne by exact Hne. exact Hd.
Qed.

Lemma store_headers_records (items : list (string * string))
    (d : gmap string string) (k : string) :
  In k (map fst items) -> is_Some (store_headers items d !! k).
Proof.
  revert d. induction items as [| h items IH]; intros d Hin; [destruct Hin |].
  change (is_Some (store_headers items (<[h.1 := h.2]> d) !! k)).
  destruct Hin as [<- | Hin].
  - apply store_headers_keeps. rewrite lookup_insert_eq. eauto.
  - apply IH. exact Hin.
Qed.

Lemma _StoreDebugInfo_records (E : Env) (s : Stream) (w : World) :
  let w' := snd (_StoreDebugInfo E (Some s) None w) in
  _debug_info (self w') !! "current_time" = Some (strftime E (trace w))
  /\ (forall k, In k (map fst (headers s)) ->
                is_Some (_debug_info (self w') !! k))
  /\ files w' = files w /\ trace w' = trace w.
Proof.
  cbv zeta. simpl. split; [apply lookup_insert_eq |].
  split; [| split; reflexivity].
  intros k Hk. destruct (decide ("current_time" = k)) as [<- | Hne].
  - rewrite lookup_insert_eq. eauto.
  - rewrite lookup_insert_ne by exact Hne.
    apply store_headers_records. exact Hk.
Qed.

Lemma store_headers_lookup (items : list (string * string))
    (d : gmap string string) (k : string) :
  store_headers items d !! k
  = match last_value items k with
    | Some v => Some v
    | None => d !! k
    end.
Proof.
  revert d. induction items as [| [name v] items IH]; intros d;
    [reflexivity |].
  change (store_headers items (<[name := v]> d) !! k
          = match last_value ((name, v) :: items) k with
            | Some v' => Some v'
            | None => d !! k
            end).
  rewrite IH. cbn [last_value].
  destruct (last_value items k) as [later |]; [reflexivity |].
  destruct (String.eqb_spec name k) as [-> | Hne].
  - apply lookup_insert_eq.
  - apply lookup_insert_ne. exact Hne.
Qed.

(** What [_StoreDebugInfo] leaves when called with a stream and without a
    socket error: under every key the debug information holds the time
    stamp for [current_time], else the value of the last header of that
    name, else what it held before; nothing else changes. *)
Lemma _StoreDebugInfo_contents (E : Env) (s : Stream) (w : World) :
  let w' := snd (_StoreDebugInfo E (Some s) None w) in
  (forall k,
     _debug_info (self w') !! k
     = if String.eqb k "current_time" then Some (strftime E (trace w))
       else match last_value (headers s) k with
            | Some v => Some v
            | None => _debug_info (self w) !! k
            end)
  /\ _save_location (self w') = _save_location (self w)
  /\ _default_show_progress (self w') = _default_show_progress (self w)
  /\ _ca_cert_file (self w') = _ca_cert_file (self w)
  /\ files w' = files w /\ trace w' = trace w.
Proof.
  cbv zeta. simpl. split; [| repeat split; reflexivity].
  intros k. destruct (String.eqb_spec k "current_time") as [-> | Hne].
  - apply lookup_insert_eq.
  - rewrite lookup_insert_ne by (intros Heq; apply Hne; symmetry; exact Heq).
    apply store_headers_lookup.
Qed.

(** C4.  With the save location set, [_Validate] returns without any effect
    exactly when the destination file exists and its size equals the
    declared length.  When the file is missing it raises [DownloadError]
    "Could not locate file at ...", and when its size differs from the
    declared length, in either direction, [DownloadError] "File size of
    ... bytes did not match expected size of ...!".  In both cases the
    debug information has been recorded before: under every key it holds
    the time stamp for [current_time], else the value of the stream's last
    header of that name, else what it held before; the other fields of
    the downloader, the files and the trace are as they were. *)
Theorem _Validate_exact_size (E : Env) (file_stream : Stream)
    (expected_size : Z) (w : World) (path : string) :
  _save_location (self w) = Some path ->
  let r := _Validate E file_stream expected_size w in
  let recorded := snd (_StoreDebugInfo E (Some file_stream) None w) in
  (fst r = Ok tt <->
   exists data, files w !! path = Some data
                /\ Bytes.len data = expected_size)
  /\ (fst r = Ok tt -> snd r = w)
  /\ (fst r <> Ok tt ->
      fst r
      = Raise (DownloadError
                 match files w !! path with
                 | None => "Could not locate file at " +:+ path
                 | Some data =>
                     "File size of " +:+ of_Z (Bytes.len data)
                     +:+ " bytes did not match expected size of "
                     +:+ of_Z expected_size +:+ "!"
                 end)
      /\ snd r = recorded
      /\ (forall k,
            _debug_info (self (snd r)) !! k
            = if String.eqb k "current_time"
              then Some (strftime E (trace w))
              else match last_value (headers file_stream) k with
                   | Some v => Some v
                   | None => _debug_info (self w) !! k
                   end)
      /\ (forall k, In k (map fst (headers file_stream)) ->
                    is_Some (_debug_info (self (snd r)) !! k))
      /\ _save_location (self (snd r)) = Some path
      /\ _default_show_progress (self (snd r))
         = _default_show_progress (self w)
      /\ _ca_cert_file (self (snd r)) = _ca_cert_file (self w)
      /\ files (snd r) = files w
      /\ trace (snd r) = trace w).
Proof.
  intros Hloc. cbv zeta.
  pose proof (_StoreDebugInfo_records E file_stream w) as Hrec.
  pose proof (_StoreDebugInfo_contents E file_stream w) as Hcon.
  cbv zeta in Hrec, Hcon.
  destruct Hcon as (Hkeys & Hsave & Hshow & Hca & Hfiles & Htrace).
  rewrite Hloc in Hsave.
  unfold _Validate, bind, save_location, ask.
  rewrite Hloc.
  destruct (files w !! path) as [data |] eqn:Hfile.
  - destruct (Z.eqb_spec (Bytes.len data) expected_size) as [Hsize | Hsize];
      cbn [negb].
    + split; [| split].
      * split; [intros _; exists data; auto | reflexivity].
      * reflexivity.
      * intros Hne. exfalso. apply Hne. reflexivity.
    + split; [| split].
      * split; [discriminate |].
        intros (data' & [= <-] & Hlen). contradiction.
      * discriminate.
      * intros _. split; [reflexivity |].
        split; [reflexivity |]. split; [exact Hkeys |].
        split; [apply Hrec |]. auto.
  - split; [| split].
    + split; [discriminate | intros (data' & Habs & _); discriminate].
    + discriminate.
    + intros _. split; [reflexivity |].
      split; [reflexivity |]. split; [exact Hkeys |].
      split; [apply Hrec |]. auto.
Qed.

Lemma _Validate_exact_size_witness :
  let E := Fixtures.env [] false false in
  let w := Fixtures.world_saving "out" {["out" := Fixtures.abc]} in
  _save_location (self w) = Some "out"
  /\ fst (_Validate E Fixtures.found 3 w) = Ok tt
  /\ fst (_Validate E Fixtures.found 2 w)
     = Raise (DownloadError
                "File size of 3 bytes did not match expected size of 2!")
  /\ _debug_info (self (snd (_Validate E Fixtures.found 2 w)))
       !! "Content-Length" = Some "3"
  /\ fst (_Validate E Fixtures.found 4 w) <> Ok tt.
Proof.
  cbv zeta. split; [reflexivity |].
  split.
  - apply (proj1 (_Validate_exact_size
                    (Fixtures.env [] false false) Fixtures.found 3
                    (Fixtures.world_saving "out" {["out" := Fixtures.abc]})
                    "out" eq_refl)).
    exists Fixtures.abc. split; vm_compute; reflexivity.
  - assert (Hfails :
              fst (_Validate (Fixtures.env [] false false) Fixtures.found 2
                     (Fixtures.world_saving "out" {["out" := Fixtures.abc]}))
              <> Ok tt) by (vm_compute; discriminate).
    destruct (proj2 (proj2 (_Validate_exact_size
                              (Fixtures.env [] false false)
                              Fixtures.found 2
                              (Fixtures.world_saving "out"
                                 {["out" := Fixtures.abc]})
                              "out" eq_refl)) Hfails)
      as (Hmsg & _ & Hkeys & _).
    split; [exact Hmsg |].
    split; [exact (Hkeys "Content-Length") | vm_compute; discriminate].
Defined.

(** ** Hash verification *)

Lemma take_drop {A} (n : Z) (l : list A) :
  (Bytes.take n l ++ Bytes.drop n l)%list = l.
Proof.
  revert n. induction l as [| x r IH]; intros n; simpl; [reflexivity |].
  destruct (n <=? 0); simpl; [reflexivity | rewrite IH; reflexivity].
Qed.

Lemma take_is_empty {A} (n : Z) (l : list A) :
  0 < n -> Bytes.is_empty (Bytes.take n l) = true -> l = [].
Proof.
  intros Hn. destruct l as [| x r]; [reflexivity |]. simpl.
  destruct (Z.leb_spec n 0); [lia | discriminate].
Qed.

Lemma drop_length {A} (n : Z) (l : list A) :
  (length (Bytes.drop n l) <= length l)%nat.
Proof.
  revert n. induction l as [| x r IH]; intros n; simpl; [lia |].
  destruct (n <=? 0); simpl; [lia |]. specialize (IH (n - 1)). lia.
Qed.

Lemma drop_shorter {A} (n : Z) (l : list A) :
  0 < n -> l <> [] -> (length (Bytes.drop n l) < length l)%nat.
Proof.
  intros Hn Hl. destruct l as [| x r]; [contradiction |]. simpl.
  destruct (Z.leb_spec n 0); [lia |].
  pose proof (drop_length (n - 1) r). lia.
Qed.

(** With more fuel than bytes, the read loop feeds the whole file to the
    hash object. *)
Lemma sha_read_loop_all (fuel : nat) (f sha_object : list byte) (w : World) :
  (length f < fuel)%nat ->
  sha_read_loop fuel f sha_object w = (Ok (sha_object ++ f)%list, w).
Proof.
  revert f sha_object. induction fuel as [| fuel IH]; intros f acc Hlen;
    [lia |].
  cbn [sha_read_loop].
  destruct (Bytes.is_empty (Bytes.take 4194304 f)) eqn:Hempty.
  - apply take_is_empty in Hempty; [| lia]. subst f.
    rewrite app_nil_r. reflexivity.
  - assert (Hf : f <> []) by (intros ->; discriminate).
    rewrite IH.
    + rewrite <- app_assoc, take_drop. reflexivity.
    + pose proof (drop_shorter 4194304 f ltac:(lia) Hf). lia.
Qed.

Lemma open_rb_run (E : Env) (path : string) (w : World) :
  open_rb E path w
  = (if embedded_null path then Raise ValueError
     else match open_error E path, files w !! path with
          | Some msg, _ => Raise (OSError msg)
          | None, Some data => Ok data
          | None, None => Raise (OSError "No such file or directory")
          end, w).
Proof.
  unfold open_rb. destruct (embedded_null path); [reflexivity |].
  destruct (open_error E path); [reflexivity |].
  unfold bind, ask. destruct (files w !! path); reflexivity.
Qed.

(** A path that holds a NUL character: the [ValueError] of [open] is not
    an [IOError], so it leaves [VerifyShaHash], before anything is logged. *)
Lemma VerifyShaHash_null_path (E : Env) (fuel : nat)
    (file_path expected : string) (w : World) :
  embedded_null file_path = true ->
  VerifyShaHash E fuel file_path expected w = (Raise ValueError, w).
Proof.
  intros Hnul. unfold VerifyShaHash, bind, try_except.
  rewrite open_rb_run, Hnul. reflexivity.
Qed.

Lemma VerifyShaHash_run (E : Env) (fuel : nat) (file_path expected : string)
    (w : World) :
  embedded_null file_path = false ->
  (forall data, files w !! file_path = Some data ->
                (length data < fuel)%nat) ->
  exists level msg,
    VerifyShaHash E fuel file_path expected w
    = (Ok match open_error E file_path, files w !! file_path with
          | None, Some data =>
              String.eqb (sha256_hexdigest E data) (lower expected)
          | _, _ => false
          end,
       emit (EvLog level msg) w).
Proof.
  intros Hnul Hfuel.
  unfold VerifyShaHash, bind, try_except. rewrite open_rb_run, Hnul.
  destruct (open_error E file_path) as [msg |].
  - do 2 eexists. reflexivity.
  - destruct (files w !! file_path) as [data |].
    + rewrite sha_read_loop_all by (apply Hfuel; reflexivity).
      unfold ret. cbv beta iota. cbn [app].
      destruct (String.eqb (sha256_hexdigest E data) (lower expected));
        do 2 eexists; reflexivity.
    + do 2 eexists. reflexivity.
Qed.

(** C7.  For a path without an embedded NUL character, [VerifyShaHash]
    returns a Boolean, never an exception.  It returns true exactly when
    the file can be read and the digest of its bytes equals the
    lower-cased expected value; a hexdigest being lowercase, that is
    equality of digest and expected value without regard to case.  When
    the file cannot be read it returns false.  Files and downloader are
    left as they were. *)
Theorem VerifyShaHash_spec (E : Env) (fuel : nat)
    (file_path expected : string) (w : World) :
  embedded_null file_path = false ->
  (forall data, files w !! file_path = Some data ->
                (length data < fuel)%nat) ->
  let r := VerifyShaHash E fuel file_path expected w in
  let readable data :=
    open_error E file_path = None /\ files w !! file_path = Some data in
  (exists b, fst r = Ok b)
  /\ (fst r = Ok true <->
      exists data, readable data
                   /\ sha256_hexdigest E data = lower expected)
  /\ (forall data,
        readable data ->
        lower (sha256_hexdigest E data) = sha256_hexdigest E data ->
        (fst r = Ok true <->
         lower (sha256_hexdigest E data) = lower expected))
  /\ ((forall data, ~ readable data) -> fst r = Ok false)
  /\ files (snd r) = files w /\ self (snd r) = self w.
Proof.
  intros Hnul Hfuel. cbv beta zeta.
  destruct (VerifyShaHash_run E fuel file_path expected w Hnul Hfuel)
    as (level & msg & ->).
  cbn [fst snd].
  assert (Htrue :
            match open_error E file_path, files w !! file_path with
            | None, Some data =>
                String.eqb (sha256_hexdigest E data) (lower expected)
            | _, _ => false
            end = true
            <-> exists data,
                (open_error E file_path = None
                 /\ files w !! file_path = Some data)
                /\ sha256_hexdigest E data = lower expected).
  { destruct (open_error E file_path) as [m |].
    - split; [discriminate | intros (data & [Habs _] & _); discriminate].
    - destruct (files w !! file_path) as [data |].
      + rewrite String.eqb_eq. split.
        * intros Heq. exists data. auto.
        * intros (data' & [_ [= <-]] & Heq). exact Heq.
      + split; [discriminate | intros (data & [_ Habs] & _); discriminate]. }
  assert (Hok : forall b : bool, @Ok bool b = Ok true <-> b = true).
  { intros b. split; [intros [= ->]; reflexivity | intros ->; reflexivity]. }
  split; [eauto |].
  split; [rewrite Hok; exact Htrue |].
  split.
  { intros data Hread Hlow. rewrite Hok, Htrue. split.
    - intros (data' & [_ Hfile] & Heq).
      destruct Hread as [_ Hfile']. rewrite Hfile' in Hfile.
      injection Hfile as <-. rewrite Hlow. exact Heq.
    - intros Heq. exists data. split; [exact Hread |].
      rewrite <- Hlow. exact Heq. }
  split; [| split; reflexivity].
  intros Hnone. f_equal. apply not_true_is_false. rewrite Htrue.
  intros (data & Hread & _). exact (Hnone data Hread).
Qed.

Lemma VerifyShaHash_spec_witness :
  let E := Fixtures.env [] false false in
  let data :=
    (Fixtures.abc ++ Fixtures.abc ++ Fixtures.abc ++ [x64]%byte)%list in
  let w := Fixtures.world_saving "out" {["f" := data]} in
  sha256_hexdigest E data = "0a"
  /\ embedded_null "f" = false
  /\ fst (VerifyShaHash E 11 "f" "0A" w) = Ok true
  /\ fst (VerifyShaHash E 11 "f" "0b" w) = Ok false
  /\ fst (VerifyShaHash E 11 "missing" "0a" w) = Ok false.
Proof.
  cbv zeta. split; [reflexivity |]. split; [reflexivity |].
  split.
  - apply (proj1 (proj2 (VerifyShaHash_spec
                           (Fixtures.env [] false false) 11 "f" "0A"
                           (Fixtures.world_saving "out"
                              {["f" := (Fixtures.abc ++ Fixtures.abc
                                        ++ Fixtures.abc ++ [x64]%byte)%list]})
                           eq_refl
                           ltac:(intros data H;
                                 cbn [files Fixtures.world_saving] in H;
                                 rewrite lookup_singleton_eq in H;
                                 injection H as <-; simpl; lia)))).
    eexists. split; [split; [reflexivity | vm_compute; reflexivity] |].
    reflexivity.
  - split; vm_compute; reflexivity.
Defined.

(** A path that cannot be read because it holds a NUL character:
    [VerifyShaHash] does not return false, it raises the [ValueError] of
    [open], and nothing is logged. *)
Lemma VerifyShaHash_null_path_raises :
  let E := Fixtures.env [] false false in
  let w := Fixtures.world_saving "out" {["f" := Fixtures.abc]} in
  let file_path := "a" +:+ String Ascii.zero "b" in
  VerifyShaHash E 4 file_path "03" w = (Raise ValueError, w)
  /\ fst (VerifyShaHash E 4 file_path "03" w) <> Ok false.
Proof.
  cbv zeta. split; [vm_compute; reflexivity | vm_compute; discriminate].
Qed.

(** ** Redirects and the retry budget *)

Lemma open_attempt_response (E : Env) (url : string)
    (file_stream : option Stream) (w : World) (s : Stream) :
  urlopen E (count is_urlopen (trace w))
          (first_request E (_ca_cert_file (self w)) url) = Response s ->
  open_attempt E url file_stream w
  = (Ok (Some s),
     emit (EvUrlopen (first_request E (_ca_cert_file (self w)) url)) w).
Proof.
  intros Hnet. unfold open_attempt, bind, ask, urlopen_call.
  fold (first_request E (_ca_cert_file (self w)) url).
  rewrite Hnet. reflexivity.
Qed.

(** One cycle of [_OpenStream] that obtains a response: the stream is
    returned when its code is acceptable; on a 302 the working URL becomes
    the redirect target and the retry gate runs with this cycle's attempt
    number before the next cycle; any other code raises. *)
Lemma open_loop_response (E : Env) (fuel : nat) (attempt : Z)
    (file_stream : option Stream) (url : string) (max_retries : Z)
    (status_codes : option (list Z)) (w : World) (s : Stream) :
  urlopen E (count is_urlopen (trace w))
          (first_request E (_ca_cert_file (self w)) url) = Response s ->
  let w1 :=
    emit (EvUrlopen (first_request E (_ca_cert_file (self w)) url)) w in
  open_loop E (S fuel) attempt file_stream url max_retries status_codes w
  = if code_in (getcode s) (acceptable status_codes) then (Ok s, w1)
    else if code_in (getcode s) [302] then
      (_AttemptResource (attempt + 1) max_retries "file download" ;;
       open_loop E fuel (attempt + 1) (Some s) (geturl s) max_retries
                 status_codes) w1
    else (Raise (DownloadError
                   ("Invalid return code for file " +:+ url +:+ ". ["
                    +:+ of_Z (getcode s) +:+ "]")), w1).
Proof.
  intros Hnet. cbv zeta. cbn [open_loop]. unfold bind at 1.
  rewrite (open_attempt_response E url file_stream w s Hnet).
  unfold bind at 1. unfold check_stream.
  destruct (code_in (getcode s) (acceptable status_codes)); [reflexivity |].
  destruct (code_in (getcode s) [302]); reflexivity.
Qed.

Lemma open_loop_chain (E : Env) (max_retries : Z)
    (status_codes : option (list Z)) (final : Stream) :
  code_in (getcode final) (acceptable status_codes) = true ->
  code_in 302 (acceptable status_codes) = false ->
  forall (redirects : list Stream) (fuel : nat) (attempt : Z)
         (file_stream : option Stream) (url : string) (w : World),
    (length redirects < fuel)%nat ->
    redirect_chain_from E (_ca_cert_file (self w))
                        (count is_urlopen (trace w)) url redirects final ->
    let res :=
      open_loop E fuel attempt file_stream url max_retries status_codes w in
    (redirects = [] \/ max_retries < 0
     \/ attempt + Z.of_nat (length redirects) < max_retries ->
     fst res = Ok final
     /\ count is_sleep (trace (snd res))
        = (count is_sleep (trace w) + length redirects)%nat
     /\ count is_urlopen (trace (snd res))
        = (count is_urlopen (trace w) + length redirects + 1)%nat)
    /\ (redirects <> []
        /\ 0 <= max_retries <= attempt + Z.of_nat (length redirects) ->
        fst res = Raise (exhausted "file download" max_retries)).
Proof.
  intros Hfinal H302.
  induction redirects as [| r rest IH];
    intros fuel attempt file_stream url w Hfuel Hchain;
    (destruct fuel as [| fuel]; [simpl in Hfuel; lia |]).
  - simpl in Hchain. cbv zeta.
    rewrite (open_loop_response E fuel attempt file_stream url max_retries
               status_codes w final Hchain).
    cbv zeta. rewrite Hfinal. cbn [fst snd]. split.
    + intros _. split; [reflexivity |].
      rewrite !count_emit. cbn [is_sleep is_urlopen length]. lia.
    + intros [Hne _]. contradiction.
  - destruct Hchain as (Hnet & Hcode & Hrest). cbv zeta.
    rewrite (open_loop_response E fuel attempt file_stream url max_retries
               status_codes w r Hnet).
    cbv zeta. rewrite Hcode, H302.
    change (code_in 302 [302]) with true. cbv iota.
    set (w1 := emit (EvUrlopen
                       (first_request E (_ca_cert_file (self w)) url)) w).
    assert (Hgate :
              max_retries < 0 \/ attempt + 1 < max_retries ->
              exists w2,
                (_AttemptResource (attempt + 1) max_retries "file download" ;;
                 open_loop E fuel (attempt + 1) (Some r) (geturl r)
                           max_retries status_codes) w1
                = open_loop E fuel (attempt + 1) (Some r) (geturl r)
                            max_retries status_codes w2
                /\ _ca_cert_file (self w2) = _ca_cert_file (self w)
                /\ count is_urlopen (trace w2)
                   = S (count is_urlopen (trace w))
                /\ count is_sleep (trace w2)
                   = S (count is_sleep (trace w))).
    { intros Hok.
      destruct (_AttemptResource_sleeps (attempt + 1) max_retries
                  "file download" w1 Hok) as [msg Hmsg].
      eexists. unfold bind. rewrite Hmsg. split; [reflexivity |].
      split; [reflexivity |].
      rewrite !count_emit. subst w1. rewrite !count_emit.
      cbn [is_sleep is_urlopen]. lia. }
    split.
    + intros [Habs | Hok]; [discriminate |].
      cbn [length] in Hok.
      destruct Hgate as (w2 & Heq & Hca & Hnet2 & Hsleep2); [lia |].
      rewrite Heq.
      rewrite <- Hca, <- Hnet2 in Hrest.
      destruct (IH fuel (attempt + 1) (Some r) (geturl r) w2
                   ltac:(simpl in Hfuel; lia) Hrest) as [Hgood _].
      destruct Hgood as (Hres & Hs & Hu); [lia |].
      split; [exact Hres |]. cbn [length]. lia.
    + intros [_ Hbound]. cbn [length] in Hbound.
      destruct (Z.le_gt_cases max_retries (attempt + 1)) as [Hnow | Hlater].
      * unfold bind.
        rewrite _AttemptResource_raises by lia. reflexivity.
      * destruct Hgate as (w2 & Heq & Hca & Hnet2 & Hsleep2); [lia |].
        rewrite Heq.
        rewrite <- Hca, <- Hnet2 in Hrest.
        destruct (IH fuel (attempt + 1) (Some r) (geturl r) w2
                     ltac:(simpl in Hfuel; lia) Hrest) as [_ Hbad].
        apply Hbad. split; [| lia].
        destruct rest; [simpl in Hbound; lia | discriminate].
Qed.

(** C1.  A response with status 302 makes [_OpenStream] take the redirect
    target as working URL and then pass through the retry gate like a
    failed cycle, so every redirect uses up one attempt and one sleep.
    When the network leads the stripped URL through [redirects] and then
    answers with an acceptable [final] stream, [_OpenStream] returns
    [final] exactly when there is no redirect, or [max_retries] is
    negative, or the number of redirects is below [max_retries]; it has
    then slept once per redirect.  With at least one redirect and
    [0 <= max_retries <= number of redirects] it raises the retry gate's
    [DownloadError].  For three redirects and then a 200 stream: the 200
    stream comes back after three sleeps when [max_retries] is negative or
    above 3, and the download fails for [max_retries] from 0 to 3. *)
Theorem _OpenStream_redirects (E : Env) (redirects : list Stream)
    (final : Stream) (fuel : nat) (url : string) (max_retries : Z)
    (status_codes : option (list Z)) (w : World) (netloc : string) :
  urlparse_netloc E (strip is_space url) = Some netloc ->
  truthy netloc = true ->
  redirect_chain_from E (_ca_cert_file (self w)) (count is_urlopen (trace w))
                      (strip is_space url) redirects final ->
  code_in (getcode final) (acceptable status_codes) = true ->
  code_in 302 (acceptable status_codes) = false ->
  (length redirects < fuel)%nat ->
  let res := _OpenStream E fuel url max_retries status_codes w in
  (redirects = [] \/ max_retries < 0
   \/ Z.of_nat (length redirects) < max_retries ->
   fst res = Ok final
   /\ count is_sleep (trace (snd res))
      = (count is_sleep (trace w) + length redirects)%nat
   /\ count is_urlopen (trace (snd res))
      = (count is_urlopen (trace w) + length redirects + 1)%nat)
  /\ (redirects <> [] /\ 0 <= max_retries <= Z.of_nat (length redirects) ->
      fst res = Raise (exhausted "file download" max_retries)).
Proof.
  intros Hparse Hhost Hchain Hfinal H302 Hfuel. cbv zeta.
  unfold _OpenStream, bind, do. rewrite Hparse, Hhost. cbn [negb].
  set (w1 := emit EvInstallOpener w).
  assert (Hchain1 :
            redirect_chain_from E (_ca_cert_file (self w1))
              (count is_urlopen (trace w1)) (strip is_space url)
              redirects final).
  { subst w1. rewrite count_emit. cbn [is_urlopen emit self].
    rewrite Nat.add_0_r. exact Hchain. }
  pose proof (open_loop_chain E max_retries status_codes final Hfinal H302
                redirects fuel 0 None (strip is_space url) w1 Hfuel Hchain1)
    as [Hgood Hbad].
  cbv zeta in Hgood, Hbad.
  assert (Hs : count is_sleep (trace w1) = count is_sleep (trace w))
    by (subst w1; rewrite count_emit; cbn [is_sleep]; lia).
  assert (Hu : count is_urlopen (trace w1) = count is_urlopen (trace w))
    by (subst w1; rewrite count_emit; cbn [is_urlopen]; lia).
  rewrite Hs, Hu in Hgood.
  split.
  - intros [Hnone | [Hneg | Hlt]]; apply Hgood;
      [left; exact Hnone | right; left; exact Hneg | right; right; lia].
  - intros [Hne Hbound]. apply Hbad. split; [exact Hne | lia].
Qed.

Lemma _OpenStream_redirects_witness :
  let E := Fixtures.env Fixtures.redirect_chain false false in
  let res := _OpenStream E 4 " https://h.example/0 " 5 None Fixtures.world0 in
  fst res = Ok Fixtures.found
  /\ count is_sleep (trace (snd res)) = 3%nat
  /\ count is_urlopen (trace (snd res)) = 4%nat.
Proof.
  cbv zeta.
  refine (proj1 (_OpenStream_redirects
                   (Fixtures.env Fixtures.redirect_chain false false)
                   [Fixtures.response 302 "https://h.example/1" [] "0";
                    Fixtures.response 302 "https://h.example/2" [] "0";
                    Fixtures.response 302 "https://h.example/3" [] "0"]
                   Fixtures.found 4 " https://h.example/0 " 5 None
                   Fixtures.world0 "h.example" _ _ _ _ _ _) _).
  - reflexivity.
  - reflexivity.
  - simpl. repeat split; reflexivity.
  - reflexivity.
  - reflexivity.
  - simpl. lia.
  - right. right. simpl. lia.
Defined.

(** The claim C1 as it is written fails: on three redirects and then a 200
    stream a budget of two retries is used up by the redirects, and with
    the default budget of five the 200 stream comes back only after three
    sleeps of 20 units. *)
Lemma _OpenStream_redirects_use_budget :
  let E := Fixtures.env Fixtures.redirect_chain false false in
  fst (_OpenStream E 10 "https://h.example/0" 2 None Fixtures.world0)
  = Raise (DownloadError "Failed to reach file download after 2 attempt(s).")
  /\ fst (_OpenStream E 10 "https://h.example/0" 2 None Fixtures.world0)
     <> Ok Fixtures.found
  /\ filter (fun e => is_sleep e = true)
       (trace (snd (_OpenStream E 10 "https://h.example/0" 5 None
                                Fixtures.world0)))
     = [EvSleep 20; EvSleep 20; EvSleep 20].
Proof.
  cbv zeta. split; [vm_compute; reflexivity |].
  split; [vm_compute; discriminate | vm_compute; reflexivity].
Qed.

(** ** BeyondCorp and signed URLs *)

(** C8.  For a remote locator with BeyondCorp enabled, [DownloadFile] opens
    the stream with the retry budget -1 whatever budget the caller gave,
    and under that budget the retry gate never raises.  The URL is taken
    from the collaborator only when the flag [use_signed_url] is set: then
    [GetSignedUrl] receives the URL without the prefix made of the
    configured server and a slash (the whole URL when it lacks that
    prefix), its result is the URL that is opened, and its failure comes
    back as [DownloadError]; with the flag unset the URL is opened as it
    was given. *)
Theorem DownloadFile_beyondcorp (E : Env) (fuel : nat)
    (url save_location : string) (max_retries : Z) (show_progress : bool)
    (w : World) :
  IsRemote url = true ->
  CheckBeyondCorp E = true ->
  let w0 := set_self (set_save_location (Some save_location) (self w)) w in
  let config_server := FLAGS_config_server E +:+ "/" in
  let path :=
    if startswith config_server url
    then PyStr.drop (String.length config_server) url else url in
  let download u :=
    file_stream <- _OpenStream E fuel u (-1) None ;;
    _StreamToDisk E fuel file_stream (Some show_progress) 5 in
  DownloadFile E fuel url save_location max_retries show_progress w
  = (if FLAGS_use_signed_url E then
       match GetSignedUrl E path with
       | inr signed => download signed (emit (EvGetSignedUrl path) w0)
       | inl e => (Raise (DownloadError e), emit (EvGetSignedUrl path) w0)
       end
     else download url w0)
  /\ forall attempt resource w',
       fst (_AttemptResource attempt (-1) resource w') = Ok tt.
Proof.
  intros Hremote Hbc. cbv zeta. split.
  - unfold DownloadFile. rewrite Hremote, Hbc.
    unfold _SetUrl. unfold bind at 1. unfold do at 1. cbv beta iota.
    destruct (FLAGS_use_signed_url E); cbn [negb].
    + unfold bind at 1. unfold bind at 1. unfold bind at 1. unfold do at 1.
      cbv beta iota.
      destruct (GetSignedUrl E _) as [e | signed]; reflexivity.
    + reflexivity.
  - intros attempt resource w'.
    destruct (_AttemptResource_sleeps attempt (-1) resource w')
      as [msg ->]; [lia | reflexivity].
Qed.

Lemma DownloadFile_beyondcorp_witness :
  let E := Fixtures.env [Response Fixtures.found] true true in
  let r := DownloadFile E 5 "https://cfg.example/f" "out" 0 false
                        Fixtures.world0 in
  fst r = Ok tt
  /\ filter (fun e => is_urlopen e || is_get_signed_url e = true)
            (trace (snd r))
     = [EvGetSignedUrl "f";
        EvUrlopen (UrlopenDefault "https://signed.example/f")].
Proof.
  cbv zeta.
  rewrite (proj1 (DownloadFile_beyondcorp
                    (Fixtures.env [Response Fixtures.found] true true)
                    5 "https://cfg.example/f" "out" 0 false Fixtures.world0
                    eq_refl eq_refl)).
  split; vm_compute; reflexivity.
Defined.

(** The claim C8 as it is written fails when the flag [use_signed_url] is
    unset: BeyondCorp is enabled, yet the collaborator is never asked for a
    signed URL and the request goes to the URL as given. *)
Lemma DownloadFile_beyondcorp_unsigned :
  let E := Fixtures.env [Response Fixtures.found] true false in
  let r := DownloadFile E 5 "https://cfg.example/f" "out" 5 false
                        Fixtures.world0 in
  CheckBeyondCorp E = true
  /\ fst r = Ok tt
  /\ filter (fun e => is_urlopen e || is_get_signed_url e = true)
            (trace (snd r))
     = [EvUrlopen (UrlopenDefault "https://cfg.example/f")]
  /\ GetSignedUrl E "f" = inr "https://signed.example/f".
Proof. cbv zeta. repeat split; vm_compute; reflexivity. Qed.

(** ** Draining a body that arrives whole *)

Lemma take_nonempty {A} (n : Z) (x : A) (l : list A) :
  0 < n -> Bytes.take n (x :: l) = x :: Bytes.take (n - 1) l.
Proof.
  intros Hn. simpl. destruct (Z.leb_spec n 0); [lia | reflexivity].
Qed.

Lemma delivered_after_read (amt : Z) (data : list byte)
    (b : list ReadResult) (rest : list byte) :
  delivered b = Some rest ->
  delivered (if Bytes.is_empty (Bytes.drop amt data) then b
             else Chunk (Bytes.drop amt data) :: b)
  = Some (Bytes.drop amt data ++ rest)%list.
Proof.
  intros Hb. destruct (Bytes.drop amt data) as [| y d'] eqn:Hd; simpl.
  - exact Hb.
  - rewrite Hb. reflexivity.
Qed.

(** Without progress reports, the write loop appends to the destination
    all the bytes that the body delivers, and returns. *)
Lemma write_loop_delivers (path : string) (total_size : Z) :
  forall (fuel : nat) (s : Stream) (bytes_so_far : Z) (w : World)
         (data old : list byte),
    delivered (body s) = Some data ->
    files w !! path = Some old ->
    (length data + length (body s) < fuel)%nat ->
    exists s' w',
      write_loop fuel s bytes_so_far total_size false path w = (Ok s', w')
      /\ files w' = <[path := (old ++ data)%list]> (files w)
      /\ self w' = self w.
Proof.
  induction fuel as [| fuel IH];
    intros s bytes_so_far w data old Hdel Hold Hfuel; [lia |].
  cbn [write_loop]. unfold bind at 1. unfold stream_read.
  unfold bind at 1. unfold do at 1. cbv beta iota.
  destruct (body s) as [| [d | msg] b] eqn:Hbody.
  - injection Hdel as <-. unfold ret at 1. cbn [fst snd Bytes.is_empty].
    do 2 eexists. split; [reflexivity |].
    split; [| reflexivity].
    cbn [files emit]. rewrite app_nil_r, insert_id by exact Hold.
    reflexivity.
  - destruct d as [| x d'].
    + injection Hdel as <-. unfold ret at 1.
      cbn [fst snd Bytes.take Bytes.is_empty].
      do 2 eexists. split; [reflexivity |].
      split; [| reflexivity].
      cbn [files emit]. rewrite app_nil_r, insert_id by exact Hold.
      reflexivity.
    + cbn [delivered] in Hdel.
      destruct (delivered b) as [rest |] eqn:Hb; [| discriminate].
      cbn [fmap option_fmap option_map] in Hdel. injection Hdel as <-.
      unfold ret at 1. cbn [fst snd].
      rewrite (take_nonempty CHUNK_BYTE_SIZE x d') by reflexivity.
      cbn [Bytes.is_empty].
      unfold bind at 1. unfold file_write at 1. unfold do at 1.
      cbv beta iota. unfold bind at 1. unfold ret at 1. cbv beta iota.
      cbn [files emit set_files]. rewrite Hold. cbn [default].
      set (chunk := x :: Bytes.take (CHUNK_BYTE_SIZE - 1) d').
      set (left := Bytes.drop CHUNK_BYTE_SIZE (x :: d')).
      assert (Hsplit : (chunk ++ left)%list = x :: d').
      { subst chunk left.
        rewrite <- (take_nonempty CHUNK_BYTE_SIZE x d') by reflexivity.
        apply take_drop. }
      match goal with
      | |- context [write_loop fuel ?s1 ?n total_size false path ?w1] =>
          destruct (IH s1 n w1 (left ++ rest)%list (old ++ chunk)%list)
            as (s' & w' & Hrun & Hfiles & Hself)
      end.
      * cbn [body]. apply delivered_after_read. exact Hb.
      * cbn [files]. apply lookup_insert_eq.
      * cbn [body].
        assert (Hlen : length (x :: d') = (length chunk + length left)%nat)
          by (rewrite <- Hsplit, length_app; reflexivity).
        assert (Hchunk : (1 <= length chunk)%nat) by (subst chunk; simpl; lia).
        cbn [length] in Hfuel, Hlen.
        rewrite length_app in Hfuel. rewrite length_app.
        destruct (Bytes.is_empty left); cbn [length]; lia.
      * exists s', w'. split; [exact Hrun |].
        split; [| exact Hself].
        rewrite Hfiles. unfold set_files, id. cbn [files emit].
        rewrite insert_insert_eq.
        f_equal.
        change (x :: d' ++ rest)%list with ((x :: d') ++ rest)%list.
        rewrite <- Hsplit, <- !app_assoc. reflexivity.
  - discriminate.
Qed.

Lemma _Validate_run (E : Env) (s : Stream) (expected_size : Z) (w : World)
    (path : string) (data : list byte) :
  _save_location (self w) = Some path ->
  files w !! path = Some data ->
  _Validate E s expected_size w
  = if Bytes.len data =? expected_size then (Ok tt, w)
    else (Raise (DownloadError
                   ("File size of " +:+ of_Z (Bytes.len data)
                    +:+ " bytes did not match expected size of "
                    +:+ of_Z expected_size +:+ "!")),
          snd (_StoreDebugInfo E (Some s) None w)).
Proof.
  intros Hloc Hfile. unfold _Validate, bind, save_location, ask.
  rewrite Hloc, Hfile.
  destruct (Bytes.len data =? expected_size); reflexivity.
Qed.

(** A stream that declares [N] bytes and whose body arrives without a
    failed read is written to the destination in full; [_StreamToDisk]
    returns when the body holds exactly [N] bytes and raises the size
    error when it holds another number, for instance one byte less. *)
Lemma _StreamToDisk_delivers (E : Env) (fuel : nat) (s : Stream)
    (max_retries : Z) (w : World) (v path : string) (N : Z)
    (data : list byte) :
  headers_get (headers s) "Content-Length" = Some v ->
  PyStr.int (strip is_space v) = Some N ->
  _save_location (self w) = Some path ->
  open_error E path = None ->
  delivered (body s) = Some data ->
  (length data + length (body s) < fuel)%nat ->
  let r := _StreamToDisk E fuel s (Some false) max_retries w in
  files (snd r) !! path = Some data
  /\ (Bytes.len data = N -> fst r = Ok tt)
  /\ (Bytes.len data <> N ->
      fst r = Raise (DownloadError
                       ("File size of " +:+ of_Z (Bytes.len data)
                        +:+ " bytes did not match expected size of "
                        +:+ of_Z N +:+ "!"))).
Proof.
  intros Hhead Hint Hloc Hopen Hdel Hfuel. cbv zeta.
  destruct fuel as [| fuel]; [lia |].
  assert (Hrun :
            exists w',
              files w' !! path = Some data
              /\ _save_location (self w') = Some path
              /\ _StreamToDisk E (S fuel) s (Some false) max_retries w
                 = (_Validate E s N ;; stream_close s) w').
  { unfold _StreamToDisk. unfold bind at 1. unfold ask at 1. cbv beta iota.
    cbn [content_length_loop]. rewrite Hhead, Hint.
    unfold bind at 1. unfold ret at 1. cbv beta iota. cbn [fst snd].
    change (default (_default_show_progress (self w)) (Some false))
      with false.
    unfold bind at 1. unfold try_except.
    unfold bind at 1. unfold save_location at 1. rewrite Hloc.
    unfold bind at 1. unfold open_wb. rewrite Hopen. unfold do at 1.
    cbv beta iota.
    unfold bind at 1. unfold logging_info, do at 1. cbv beta iota.
    unfold bind at 1.
    match goal with
    | |- context [write_loop (S fuel) s 0 N false path ?w1] =>
        destruct (write_loop_delivers path N (S fuel) s 0 w1 data [])
          as (s' & w' & Hloop & Hfiles & Hself);
          [exact Hdel | cbn [files emit set_files]; apply lookup_insert_eq
           | exact Hfuel |]
    end.
    rewrite Hloop. unfold ret at 1. cbv beta iota.
    exists w'. split; [| split; [| reflexivity]].
    - rewrite Hfiles. cbn [app]. apply lookup_insert_eq.
    - rewrite Hself. exact Hloc. }
  destruct Hrun as (w' & Hfile' & Hloc' & ->).
  unfold bind.
  rewrite (_Validate_run E s N w' path data Hloc' Hfile').
  destruct (Z.eqb_spec (Bytes.len data) N) as [Heq | Hne].
  - cbn [fst snd stream_close do emit files].
    split; [exact Hfile' |]. split; [reflexivity | contradiction].
  - cbn [fst snd _StoreDebugInfo set_self files].
    split; [exact Hfile' |]. split; [contradiction | reflexivity].
Qed.

(** The stream of three declared bytes: with its three bytes the download
    returns, with two of them validation raises. *)
Lemma _StreamToDisk_delivers_examples :
  let E := Fixtures.env [] false false in
  let w := Fixtures.world_saving "out" ∅ in
  fst (_StreamToDisk E 5 Fixtures.found (Some false) 5 w) = Ok tt
  /\ fst (_StreamToDisk E 5 Fixtures.short (Some false) 5 w)
     = Raise (DownloadError
                "File size of 2 bytes did not match expected size of 3!").
Proof.
  cbv zeta. split.
  - apply (proj1 (proj2 (_StreamToDisk_delivers
                           (Fixtures.env [] false false) 5 Fixtures.found 5
                           (Fixtures.world_saving "out" ∅) "3" "out" 3
                           Fixtures.abc eq_refl eq_refl eq_refl eq_refl
                           eq_refl ltac:(simpl; lia)))).
    reflexivity.
  - apply (proj2 (proj2 (_StreamToDisk_delivers
                           (Fixtures.env [] false false) 5 Fixtures.short 5
                           (Fixtures.world_saving "out" ∅) "3" "out" 3
                           [x61; x62]%byte eq_refl eq_refl eq_refl eq_refl
                           eq_refl ltac:(simpl; lia)))).
    discriminate.
Qed.

(** * Further properties *)

(** ** Locators *)

(** X4.  No locator is both local and remote. *)
Theorem IsLocal_IsRemote_exclusive (s : string) :
  IsLocal s && IsRemote s = false.
Proof.
  unfold IsLocal, IsRemote, Re.match_local, Re.match_remote.
  destruct s as [| a [| b r]]; [reflexivity | reflexivity |].
  destruct (Ascii.eqb_spec b (ascii_of_nat 58)) as [-> | Hb];
    [| rewrite andb_false_r; reflexivity].
  destruct r as [| c [| d r']]; try (rewrite andb_false_r; reflexivity).
  replace (Re.eq_nocase "t" (ascii_of_nat 58)) with false by reflexivity.
  rewrite !andb_false_r. reflexivity.
Qed.

Lemma lower_char_idempotent (a : ascii) :
  lower_char (lower_char a) = lower_char a.
Proof. destruct a as [[] [] [] [] [] [] [] []]; reflexivity. Qed.

Lemma lower_char_colon (a : ascii) :
  Ascii.eqb (lower_char a) (ascii_of_nat 58) = Ascii.eqb a (ascii_of_nat 58).
Proof. destruct a as [[] [] [] [] [] [] [] []]; reflexivity. Qed.

Lemma eq_nocase_lower (lit a : ascii) :
  Re.eq_nocase lit (lower_char a) = Re.eq_nocase lit a.
Proof. unfold Re.eq_nocase. rewrite lower_char_idempotent. reflexivity. Qed.

(** X5.  [IsRemote] does not depend on the case of the locator: a locator
    and its lower-cased form are classified alike. *)
Theorem IsRemote_lower (s : string) : IsRemote (lower s) = IsRemote s.
Proof.
  unfold IsRemote, Re.match_remote.
  destruct s as [| h [| t1 [| t2 [| p r]]]]; try reflexivity.
  cbn [lower]. rewrite !eq_nocase_lower.
  destruct r as [| c r']; [reflexivity |].
  cbn [lower]. rewrite eq_nocase_lower, lower_char_colon.
  destruct r' as [| d r'']; [reflexivity |].
  cbn [lower]. rewrite lower_char_colon. reflexivity.
Qed.

(** ** Path compilation *)

(** X1.  Without a file name, [PathCompile] ends in a slash in exactly
    one case: there are sub-path segments, and nothing is left of their
    joined text once its slashes are stripped (segments that are empty or
    made of slashes).  In every other case the result has no trailing
    slash, whatever the base and the segments. *)
Theorem PathCompile_trailing_slash_iff (build_info : BuildInfo)
    (base : option string) :
  ends_with_slash (PathCompile build_info None base) = true
  <-> ActiveConfigPath build_info <> []
      /\ strip is_slash (join "/" (ActiveConfigPath build_info))
         = EmptyString.
Proof.
  destruct (ActiveConfigPath build_info) as [| x l] eqn:Hsub.
  - rewrite PathCompile_no_trailing_slash by (left; exact Hsub).
    split; [discriminate | intros [Habs _]; contradiction].
  - destruct (string_dec (strip is_slash (join "/" (x :: l))) EmptyString)
      as [Hempty | Hfull].
    + split; [intros _; split; [discriminate | exact Hempty] | intros _].
      unfold PathCompile. rewrite Hsub, Hempty.
      unfold ends_with_slash.
      change ("/" +:+ EmptyString) with "/".
      rewrite last_char_app by discriminate. reflexivity.
    + rewrite PathCompile_no_trailing_slash
        by (right; rewrite Hsub; exact Hfull).
      split; [discriminate | intros [_ Habs]; contradiction].
Qed.

Lemma lstrip_id (s : string) :
  starts_with_slash s = false -> lstrip is_slash s = s.
Proof.
  destruct s as [| a r]; [reflexivity |].
  unfold starts_with_slash. simpl. intros ->. reflexivity.
Qed.

Lemma rstrip_id (s : string) :
  ends_with_slash s = false -> rstrip is_slash s = s.
Proof.
  unfold ends_with_slash.
  induction s as [| a r IH]; [reflexivity |].
  destruct r as [| b r'].
  - simpl. intros ->. reflexivity.
  - intros H. change (last_char (String a (String b r')))
      with (last_char (String b r')) in H.
    change (rstrip is_slash (String a (String b r')))
      with (match rstrip is_slash (String b r') with
            | EmptyString =>
                if is_slash a then EmptyString else String a EmptyString
            | r0 => String a r0
            end).
    rewrite (IH H). reflexivity.
Qed.

Lemma clean_ends (s : string) :
  contains slash s = false ->
  starts_with_slash s = false /\ ends_with_slash s = false.
Proof.
  intros H. split.
  - destruct s as [| a r]; [reflexivity |].
    simpl in H. apply orb_false_elim in H as [Ha _]. exact Ha.
  - unfold ends_with_slash. induction s as [| a r IH]; [reflexivity |].
    simpl in H. apply orb_false_elim in H as [Ha Hr].
    destruct r as [| b r']; [exact Ha | exact (IH Hr)].
Qed.

Lemma starts_with_slash_app (a b : string) :
  a <> EmptyString -> starts_with_slash (a +:+ b) = starts_with_slash a.
Proof. destruct a; [contradiction | reflexivity]. Qed.

Lemma join_clean_ends (x : string) (l : list string) :
  Forall segment_clean (x :: l) ->
  starts_with_slash (join "/" (x :: l)) = false
  /\ ends_with_slash (join "/" (x :: l)) = false.
Proof.
  revert x. induction l as [| y l IH]; intros x Hall.
  - apply List.Forall_inv in Hall as [_ Hx]. exact (clean_ends x Hx).
  - pose proof (List.Forall_inv Hall) as [Hne Hx].
    apply List.Forall_inv_tail in Hall.
    destruct (IH y Hall) as [_ Hend].
    change (join "/" (x :: y :: l)) with (x +:+ "/" +:+ join "/" (y :: l)).
    split.
    + rewrite starts_with_slash_app by exact Hne.
      exact (proj1 (clean_ends x Hx)).
    + unfold ends_with_slash in *.
      rewrite last_char_app by discriminate.
      pose proof (List.Forall_inv Hall) as [Hy _].
      rewrite (last_char_app "/"); [exact Hend |].
      destruct l; [exact Hy |].
      destruct y; [contradiction | discriminate].
Qed.

(** X2.  When the sub-path has at least one segment and no segment is
    empty or holds a slash, stripping changes nothing: [PathCompile] is the
    base without its trailing slashes, a slash, and the segments joined by
    single slashes, followed by a slash and the file name when a file name
    of that kind is given. *)
Theorem PathCompile_clean_segments (build_info : BuildInfo)
    (base : option string) (x : string) (l : list string) :
  ActiveConfigPath build_info = x :: l ->
  Forall segment_clean (x :: l) ->
  let root := PathCompile {| ReleasePath := ReleasePath build_info;
                             ActiveConfigPath := [];
                             BinaryPath := BinaryPath build_info |}
                          None base in
  ends_with_slash root = false
  /\ PathCompile build_info None base = root +:+ "/" +:+ join "/" (x :: l)
  /\ forall f, segment_clean f ->
       PathCompile build_info (Some f) base
       = (root +:+ "/" +:+ join "/" (x :: l)) +:+ "/" +:+ f.
Proof.
  intros Hsub Hclean. cbv zeta.
  destruct (join_clean_ends x l Hclean) as [Hstart Hend].
  assert (Hstrip : strip is_slash (join "/" (x :: l)) = join "/" (x :: l)).
  { unfold strip. rewrite lstrip_id by exact Hstart.
    apply rstrip_id. exact Hend. }
  unfold PathCompile. rewrite Hsub. cbn [ActiveConfigPath ReleasePath].
  rewrite Hstrip.
  split; [apply rstrip_no_trailing_slash |].
  split; [reflexivity |].
  intros f [Hne Hf].
  destruct f as [| a r]; [contradiction |]. cbn [truthy].
  rewrite lstrip_id by exact (proj1 (clean_ends _ Hf)).
  reflexivity.
Qed.

Lemma PathCompile_clean_segments_witness :
  PathCompile (Fixtures.build "https://x//" ["a"; "b"]) (Some "f.txt") None
  = "https://x/a/b/f.txt".
Proof.
  refine (eq_trans
            (proj2 (proj2 (PathCompile_clean_segments
                             (Fixtures.build "https://x//" ["a"; "b"]) None
                             "a" ["b"] eq_refl _)) "f.txt" _) _).
  - repeat constructor; discriminate.
  - split; [discriminate | reflexivity].
  - reflexivity.
Defined.

(** ** Templates without markers *)

Lemma sub_unescaped_absent (m : ascii) (repl : string) (b : bool)
    (s : string) :
  contains m s = false -> Re.sub_unescaped m repl b s = s.
Proof.
  revert b. induction s as [| c r IH]; intros b H; [reflexivity |].
  simpl in H. apply orb_false_elim in H as [Hc Hr].
  cbn [Re.sub_unescaped]. rewrite Hc. cbn [andb]. cbv iota.
  rewrite IH by exact Hr. reflexivity.
Qed.

Lemma sub_escaped_absent (m : ascii) (s : string) :
  contains m s = false -> Re.sub_escaped m s = s.
Proof.
  induction s as [| c r IH]; intros H; [reflexivity |].
  simpl in H. apply orb_false_elim in H as [Hc Hr].
  destruct r as [| d r']; [reflexivity |].
  pose proof Hr as Hr'. simpl in Hr'. apply orb_false_elim in Hr' as [Hd _].
  change (Re.sub_escaped m (String c (String d r')))
    with (if Ascii.eqb c backslash && Ascii.eqb d m
          then String m (Re.sub_escaped m r')
          else String c (Re.sub_escaped m (String d r'))).
  rewrite Hd, andb_false_r, (IH Hr). reflexivity.
Qed.

(** X3.  A string that holds neither [#] nor [@] comes back from
    [Transform] unchanged, whatever the build context, as soon as the two
    replacement templates are accepted; backslashes in it stay. *)
Theorem Transform_without_markers
    (re_template : string -> ascii -> option string) (s : string)
    (build_info : BuildInfo) (r1 r2 : string) :
  re_template (PathCompile build_info None None +:+ "/") hash = Some r1 ->
  re_template (BinaryPath build_info) at_sign = Some r2 ->
  contains hash s = false ->
  contains at_sign s = false ->
  Transform re_template s build_info = Some s.
Proof.
  intros H1 H2 Hh Ha. unfold Transform.
  rewrite H1. cbn [mbind option_bind]. rewrite H2. cbn [mbind option_bind].
  rewrite (sub_unescaped_absent hash r1 false s Hh).
  rewrite (sub_escaped_absent hash s Hh).
  rewrite (sub_unescaped_absent at_sign r2 false s Ha).
  rewrite (sub_escaped_absent at_sign s Ha).
  reflexivity.
Qed.

Lemma Transform_without_markers_witness :
  Transform plain_template "C:\conf\build.yaml"
            (Fixtures.build "https://user@host" [""])
  = Some "C:\conf\build.yaml".
Proof.
  exact (Transform_without_markers plain_template "C:\conf\build.yaml"
           (Fixtures.build "https://user@host" [""]) _ _
           eq_refl eq_refl eq_refl eq_refl).
Defined.

(** ** Human-readable sizes *)

Lemma append_assoc (a b c : string) : (a +:+ b) +:+ c = a +:+ (b +:+ c).
Proof.
  induction a as [| x r IH]; [reflexivity |].
  change (String x ((r +:+ b) +:+ c) = String x (r +:+ (b +:+ c))).
  f_equal. exact IH.
Qed.

Lemma format_2f_whole (k d : Z) :
  0 < d -> 0 <= k -> format_2f (k * d) d = of_Z k +:+ ".00".
Proof.
  intros Hd Hk. unfold format_2f, round_half_even.
  replace (100 * (k * d)) with (100 * k * d) by lia.
  rewrite Z.div_mul, Z.mod_mul by lia.
  destruct (Z.ltb_spec (2 * 0) d) as [_ | Habs]; [| lia].
  destruct (Z.ltb_spec (100 * k) 0) as [Habs | _]; [lia |].
  rewrite Z.abs_eq by lia.
  replace (100 * k) with (k * 100) by lia.
  rewrite Z.div_mul, Z.mod_mul by lia.
  reflexivity.
Qed.

(** X6.  [_ConvertBytes] shows a count below 1024 as that count of bytes,
    and a whole number [k] of kilo-, mega-, giga- or terabytes (from 1 to
    1023) as [k] with that unit, always with two zero decimals; the units
    are powers of 1024. *)
Theorem _ConvertBytes_whole_units (k : Z) :
  0 <= k < 1024 ->
  _ConvertBytes k = of_Z k +:+ ".00B"
  /\ (k <> 0 ->
      _ConvertBytes (k * 1024) = of_Z k +:+ ".00KB"
      /\ _ConvertBytes (k * 1024 * 1024) = of_Z k +:+ ".00MB"
      /\ _ConvertBytes (k * 1024 * 1024 * 1024) = of_Z k +:+ ".00GB"
      /\ _ConvertBytes (k * 1024 * 1024 * 1024 * 1024) = of_Z k +:+ ".00TB").
Proof.
  intros Hk.
  assert (Hunit : forall d unit,
             0 < d ->
             format_2f (k * d) d +:+ unit = of_Z k +:+ (".00" +:+ unit)).
  { intros d unit Hd. rewrite format_2f_whole by lia. apply append_assoc. }
  split.
  - unfold _ConvertBytes.
    repeat match goal with
           | |- context [?a >=? ?b] =>
               destruct (Z.geb_spec a b); [lia |]
           end.
    rewrite <- (Z.mul_1_r k) at 1. exact (Hunit 1 "B" ltac:(lia)).
  - intros Hne. repeat split; unfold _ConvertBytes;
      repeat match goal with
             | |- context [?a >=? ?b] =>
                 destruct (Z.geb_spec a b); try lia
             end.
    + exact (Hunit 1024 "KB" ltac:(lia)).
    + replace (k * 1024 * 1024) with (k * 1048576) by lia.
      exact (Hunit 1048576 "MB" ltac:(lia)).
    + replace (k * 1024 * 1024 * 1024) with (k * 1073741824) by lia.
      exact (Hunit 1073741824 "GB" ltac:(lia)).
    + replace (k * 1024 * 1024 * 1024 * 1024) with (k * 1099511627776)
        by lia.
      exact (Hunit 1099511627776 "TB" ltac:(lia)).
Qed.

Lemma _ConvertBytes_whole_units_witness :
  _ConvertBytes 512 = "512.00B"
  /\ _ConvertBytes 1536 = "1.50KB"
  /\ _ConvertBytes (3 * 1024 * 1024) = "3.00MB".
Proof.
  split; [exact (proj1 (_ConvertBytes_whole_units 512 ltac:(lia))) |].
  split; [reflexivity |].
  exact (proj1 (proj2 (proj2 (_ConvertBytes_whole_units 3 ltac:(lia))
                         ltac:(discriminate)))).
Defined.

(** ** Relations that a computation preserves *)

Section Preserves.

Variable R : World -> World -> Prop.
Hypothesis R_refl : forall w, R w w.
Hypothesis R_trans : forall w1 w2 w3, R w1 w2 -> R w2 w3 -> R w1 w3.

Lemma preserves_ret {A} (a : A) : preserves R (ret a).
Proof. intros w. apply R_refl. Qed.

Lemma preserves_raise {A} (e : exn) : preserves R (@raise A e).
Proof. intros w. apply R_refl. Qed.

Lemma preserves_out_of_fuel {A} : preserves R (@out_of_fuel A).
Proof. intros w. apply R_refl. Qed.

Lemma preserves_ask {A} (f : World -> A) : preserves R (ask f).
Proof. intros w. apply R_refl. Qed.

Lemma preserves_do (f : World -> World) :
  (forall w, R w (f w)) -> preserves R (do f).
Proof. intros Hf w. exact (Hf w). Qed.

Lemma preserves_bind {A B} (m : M A) (k : A -> M B) :
  preserves R m -> (forall a, preserves R (k a)) -> preserves R (bind m k).
Proof.
  intros Hm Hk w. unfold bind. specialize (Hm w).
  destruct (m w) as [[a | e |] w1]; cbn [snd] in *; [| exact Hm | exact Hm].
  apply (R_trans w w1); [exact Hm | apply Hk].
Qed.

Lemma preserves_try_except {A} (body : M A)
    (handlers : list ((exn -> bool) * (exn -> M A))) :
  preserves R body ->
  Forall (fun h => forall e, preserves R (snd h e)) handlers ->
  preserves R (try_except body handlers).
Proof.
  intros Hb Hh w. unfold try_except. specialize (Hb w).
  destruct (body w) as [[a | e |] w1]; cbn [snd] in *;
    [exact Hb | | exact Hb].
  destruct (List.find (fun h => fst h e) handlers) as [h |] eqn:Hf;
    [| exact Hb].
  apply List.find_some in Hf as [Hin _].
  rewrite List.Forall_forall in Hh.
  apply (R_trans w w1); [exact Hb | apply (Hh h Hin)].
Qed.

End Preserves.

Lemma adds_only_refl (p : Event -> bool) (w : World) : adds_only p w w.
Proof. split; [reflexivity |]. split; [reflexivity |].
  exists []. rewrite app_nil_r. split; [reflexivity | constructor].
Qed.

Lemma adds_only_trans (p : Event -> bool) (w1 w2 w3 : World) :
  adds_only p w1 w2 -> adds_only p w2 w3 -> adds_only p w1 w3.
Proof.
  intros (Hs1 & Hf1 & t1 & Ht1 & Hp1) (Hs2 & Hf2 & t2 & Ht2 & Hp2).
  split; [congruence |]. split; [congruence |].
  exists (t1 ++ t2)%list. rewrite Ht2, Ht1, app_assoc.
  split; [reflexivity | apply Forall_app; auto].
Qed.

Lemma debug_grows_refl (w : World) : debug_grows w w.
Proof. repeat split; auto. Qed.

Lemma debug_grows_trans (w1 w2 w3 : World) :
  debug_grows w1 w2 -> debug_grows w2 w3 -> debug_grows w1 w3.
Proof.
  intros (Ha1 & Hb1 & Hc1 & Hd1) (Ha2 & Hb2 & Hc2 & Hd2).
  repeat split; try congruence. intros k Hk. apply Hd2, Hd1, Hk.
Qed.

Ltac order_goal :=
  first
    [ exact (adds_only_refl _) | exact (adds_only_trans _)
    | exact debug_grows_refl | exact debug_grows_trans ].

Lemma adds_only_emit (p : Event -> bool) (e : Event) (w : World) :
  p e = true -> adds_only p w (emit e w).
Proof.
  intros He. split; [reflexivity |]. split; [reflexivity |].
  exists [e]. split; [reflexivity | repeat constructor; exact He].
Qed.

Lemma debug_grows_trace (w w' : World) :
  self w' = self w -> debug_grows w w'.
Proof. intros H. unfold debug_grows. rewrite H. repeat split; auto. Qed.

(** ** What the opening phase touches *)

Ltac opening_step :=
  first
    [ apply preserves_bind; [order_goal | | intros ?]
    | apply preserves_ret; order_goal
    | apply preserves_raise; order_goal
    | apply preserves_out_of_fuel; order_goal
    | apply preserves_ask; order_goal
    | apply preserves_do; intros ?; apply adds_only_emit; reflexivity ].

Lemma _AttemptResource_opening (n max_retries : Z) (resource : string) :
  preserves (adds_only opening_event)
            (_AttemptResource n max_retries resource).
Proof.
  unfold _AttemptResource, logging_info, time_sleep.
  destruct (max_retries <? 0); [repeat opening_step |].
  destruct (n <? max_retries); repeat opening_step.
Qed.

Lemma urlopen_call_opening (E : Env) (r : Request) :
  preserves (adds_only opening_event) (urlopen_call E r).
Proof. intros w. apply adds_only_emit. reflexivity. Qed.

Lemma open_attempt_opening (E : Env) (url : string)
    (file_stream : option Stream) :
  preserves (adds_only opening_event) (open_attempt E url file_stream).
Proof.
  unfold open_attempt, log_not_found, log_connect_error, logging_info,
    logging_error.
  opening_step; [opening_step |].
  apply preserves_bind;
    [order_goal | apply urlopen_call_opening | intros r].
  destruct r as [s | | | e];
    [opening_step | opening_step | repeat opening_step |].
  opening_step; [opening_step |].
  opening_step; [opening_step |].
  apply preserves_bind;
    [order_goal | apply urlopen_call_opening | intros r2].
  destruct r2 as [s | | | e2]; repeat opening_step.
Qed.

Lemma check_stream_opening (file_stream : option Stream) (url : string)
    (status_codes : option (list Z)) :
  preserves (adds_only opening_event)
            (check_stream file_stream url status_codes).
Proof.
  unfold check_stream. destruct file_stream as [s |]; [| opening_step].
  destruct (code_in (getcode s) (acceptable status_codes)); [opening_step |].
  destruct (code_in (getcode s) [302]); opening_step.
Qed.

Lemma open_loop_opening (E : Env) (fuel : nat) (attempt : Z)
    (file_stream : option Stream) (url : string) (max_retries : Z)
    (status_codes : option (list Z)) :
  preserves (adds_only opening_event)
            (open_loop E fuel attempt file_stream url max_retries
                       status_codes).
Proof.
  revert attempt file_stream url.
  induction fuel as [| fuel IH]; intros attempt file_stream url;
    cbn [open_loop]; [opening_step |].
  apply preserves_bind;
    [order_goal | apply open_attempt_opening | intros fs].
  apply preserves_bind;
    [order_goal | apply check_stream_opening | intros next].
  destruct next as [s | url']; [opening_step |].
  apply preserves_bind;
    [order_goal | apply _AttemptResource_opening | intros _].
  apply IH.
Qed.

Lemma _OpenStream_opening (E : Env) (fuel : nat) (url : string)
    (max_retries : Z) (status_codes : option (list Z)) :
  preserves (adds_only opening_event)
            (_OpenStream E fuel url max_retries status_codes).
Proof.
  unfold _OpenStream. opening_step; [opening_step |].
  destruct (urlparse_netloc E (strip is_space url)) as [netloc |];
    [| opening_step].
  destruct (negb (truthy netloc)); [opening_step | apply open_loop_opening].
Qed.

Lemma count_none (p q : Event -> bool) (t : list Event) :
  Forall (fun e => p e = true) t ->
  (forall e, p e = true -> q e = false) ->
  count q t = O.
Proof.
  intros Hall Hq. unfold count.
  induction Hall as [| e t' He _ IH]; [reflexivity |].
  rewrite filter_cons_False; [exact IH |].
  rewrite (Hq e He). discriminate.
Qed.

(** X11.  However it ends, [_OpenStream] only installs the opener, sends
    requests, logs and sleeps: it reads no body, closes no stream (the
    responses it passes over, redirects among them, stay open), copies no
    file, and changes neither the file system nor the fields of the
    downloader. *)
Theorem _OpenStream_footprint (E : Env) (fuel : nat) (url : string)
    (max_retries : Z) (status_codes : option (list Z)) (w : World) :
  let w' := snd (_OpenStream E fuel url max_retries status_codes w) in
  self w' = self w
  /\ files w' = files w
  /\ exists t,
       trace w' = (trace w ++ t)%list
       /\ Forall (fun e => opening_event e = true) t
       /\ count is_read t = O /\ count is_close t = O /\ count is_copy t = O.
Proof.
  cbv zeta.
  destruct (_OpenStream_opening E fuel url max_retries status_codes w)
    as (Hself & Hfiles & t & Ht & Hall).
  split; [exact Hself |]. split; [exact Hfiles |].
  exists t. split; [exact Ht |]. split; [exact Hall |].
  repeat split;
    apply (count_none opening_event _ t Hall);
    intros [] He; try reflexivity; discriminate.
Qed.

(** ** CheckUrl *)

Lemma CheckUrl_run (E : Env) (fuel : nat) (url : string)
    (status_codes : list Z) (max_retries : Z) (w : World) :
  CheckUrl E fuel url status_codes max_retries w
  = match _OpenStream E fuel url max_retries (Some status_codes) w with
    | (Ok _, w') => (Ok true, w')
    | (Raise (DownloadError msg), w') => (Ok false, emit (EvLog ERROR msg) w')
    | (Raise e, w') => (Raise e, w')
    | (OutOfFuel, w') => (OutOfFuel, w')
    end.
Proof.
  unfold CheckUrl, try_except, bind.
  destruct (_OpenStream E fuel url max_retries (Some status_codes) w)
    as [[s | e |] w']; [reflexivity | | reflexivity].
  destruct e; reflexivity.
Qed.

(** X12.  [CheckUrl] never lets a [DownloadError] out: it returns true
    exactly when [_OpenStream] returns a stream for the given codes and
    false exactly when [_OpenStream] raises [DownloadError], whose message
    it logs.  It leaves files and downloader alone, and the stream it has
    opened is not closed. *)
Theorem CheckUrl_spec (E : Env) (fuel : nat) (url : string)
    (status_codes : list Z) (max_retries : Z) (w : World) :
  let o := _OpenStream E fuel url max_retries (Some status_codes) w in
  let c := CheckUrl E fuel url status_codes max_retries w in
  (forall msg, fst c <> Raise (DownloadError msg))
  /\ (fst c = Ok true <-> exists s, fst o = Ok s)
  /\ (fst c = Ok false <-> exists msg, fst o = Raise (DownloadError msg))
  /\ (forall msg, fst o = Raise (DownloadError msg) ->
                  snd c = emit (EvLog ERROR msg) (snd o))
  /\ self (snd c) = self w /\ files (snd c) = files w
  /\ count is_close (trace (snd c)) = count is_close (trace w).
Proof.
  cbv zeta. rewrite CheckUrl_run.
  destruct (_OpenStream_opening E fuel url max_retries (Some status_codes) w)
    as (Hself & Hfiles & t & Ht & Hall).
  assert (Hclose : count is_close t = O).
  { apply (count_none opening_event _ t Hall).
    intros [] He; try reflexivity; discriminate. }
  destruct (_OpenStream E fuel url max_retries (Some status_codes) w)
    as [[s | e |] w'] eqn:Ho; cbn [fst snd] in *.
  - split; [discriminate |].
    split; [split; eauto |].
    split; [split; [discriminate | intros [msg Hm]; discriminate] |].
    split; [discriminate |].
    split; [exact Hself |]. split; [exact Hfiles |].
    rewrite Ht, count_app. lia.
  - destruct e as [msg | msg | | |]; cbn [fst snd].
    + split; [discriminate |].
      split; [split; [discriminate | intros [s Hs]; discriminate] |].
      split; [split; eauto |].
      split; [intros m [= ->]; reflexivity |].
      split; [exact Hself |]. split; [exact Hfiles |].
      rewrite count_emit, Ht, count_app. cbn [is_close]. lia.
    + split; [discriminate |].
      split; [split; [discriminate | intros [s Hs]; discriminate] |].
      split; [split; [discriminate | intros [m Hm]; discriminate] |].
      split; [discriminate |].
      split; [exact Hself |]. split; [exact Hfiles |].
      rewrite Ht, count_app. lia.
    + split; [discriminate |].
      split; [split; [discriminate | intros [s Hs]; discriminate] |].
      split; [split; [discriminate | intros [m Hm]; discriminate] |].
      split; [discriminate |].
      split; [exact Hself |]. split; [exact Hfiles |].
      rewrite Ht, count_app. lia.
    + split; [discriminate |].
      split; [split; [discriminate | intros [s Hs]; discriminate] |].
      split; [split; [discriminate | intros [m Hm]; discriminate] |].
      split; [discriminate |].
      split; [exact Hself |]. split; [exact Hfiles |].
      rewrite Ht, count_app. lia.
    + split; [discriminate |].
      split; [split; [discriminate | intros [s Hs]; discriminate] |].
      split; [split; [discriminate | intros [m Hm]; discriminate] |].
      split; [discriminate |].
      split; [exact Hself |]. split; [exact Hfiles |].
      rewrite Ht, count_app. lia.
  - split; [discriminate |].
    split; [split; [discriminate | intros [s Hs]; discriminate] |].
    split; [split; [discriminate | intros [m Hm]; discriminate] |].
    split; [discriminate |].
    split; [exact Hself |]. split; [exact Hfiles |].
    rewrite Ht, count_app. lia.
Qed.

Lemma check_stream_codes (file_stream : option Stream) (url : string)
    (c1 c2 : option (list Z)) :
  acceptable c1 = acceptable c2 ->
  check_stream file_stream url c1 = check_stream file_stream url c2.
Proof. intros H. unfold check_stream. rewrite H. reflexivity. Qed.

Lemma open_loop_codes (E : Env) (c1 c2 : option (list Z)) :
  acceptable c1 = acceptable c2 ->
  forall fuel attempt file_stream url max_retries w,
    open_loop E fuel attempt file_stream url max_retries c1 w
    = open_loop E fuel attempt file_stream url max_retries c2 w.
Proof.
  intros H. induction fuel as [| fuel IH];
    intros attempt file_stream url max_retries w; [reflexivity |].
  cbn [open_loop]. unfold bind at 1 4.
  destruct (open_attempt E url file_stream w) as [[fs | e |] w1];
    [| reflexivity | reflexivity].
  unfold bind at 1 3. rewrite (check_stream_codes fs url c1 c2 H).
  destruct (check_stream fs url c2 w1) as [[[s | url'] | e |] w2];
    try reflexivity.
  unfold bind.
  destruct (_AttemptResource (attempt + 1) max_retries "file download" w2)
    as [[[] | e |] w3]; try reflexivity.
  apply IH.
Qed.

(** X13.  An empty list of acceptable codes does not mean that no code is
    acceptable: [CheckUrl] with the empty list behaves in every respect as
    with the list [[200]], and [_OpenStream] with an empty list as with no
    list. *)
Theorem CheckUrl_empty_codes (E : Env) (fuel : nat) (url : string)
    (max_retries : Z) (w : World) :
  CheckUrl E fuel url [] max_retries w
  = CheckUrl E fuel url [200] max_retries w
  /\ _OpenStream E fuel url max_retries (Some []) w
     = _OpenStream E fuel url max_retries None w.
Proof.
  assert (Hopen : forall c1 c2,
             acceptable c1 = acceptable c2 ->
             _OpenStream E fuel url max_retries c1 w
             = _OpenStream E fuel url max_retries c2 w).
  { intros c1 c2 H. unfold _OpenStream, bind, do.
    destruct (urlparse_netloc E (strip is_space url)) as [netloc |];
      [| reflexivity].
    destruct (negb (truthy netloc)); [reflexivity |].
    apply open_loop_codes. exact H. }
  split.
  - rewrite !CheckUrl_run.
    rewrite (Hopen (Some []) (Some [200]) eq_refl). reflexivity.
  - apply Hopen. reflexivity.
Qed.

(** X14.  For a URL without host [CheckUrl] returns false: the error of
    [_OpenStream] is logged, and no request is made. *)
Theorem CheckUrl_no_host (E : Env) (fuel : nat) (url : string)
    (status_codes : list Z) (max_retries : Z) (w : World) :
  urlparse_netloc E (strip is_space url) = Some EmptyString ->
  CheckUrl E fuel url status_codes max_retries w
  = (Ok false,
     emit (EvLog ERROR
             ("Invalid remote server URL " +:+ dquote
              +:+ strip is_space url +:+ dquote +:+ "."))
          (emit EvInstallOpener w)).
Proof.
  intros Hhost. rewrite CheckUrl_run.
  unfold _OpenStream, bind, do. rewrite Hhost. reflexivity.
Qed.

Lemma CheckUrl_no_host_witness :
  fst (CheckUrl (Fixtures.env Fixtures.redirect_chain false false) 3
                "C:\glazier\conf" [200] 5 Fixtures.world0) = Ok false.
Proof.
  rewrite (CheckUrl_no_host
             (Fixtures.env Fixtures.redirect_chain false false) 3
             "C:\glazier\conf" [200] 5 Fixtures.world0 eq_refl).
  reflexivity.
Defined.

(** ** A network that only fails *)

Lemma transport_errors_fail (E : Env) :
  (forall n r, exists e, urlopen E n r = URLError e) ->
  failing_cycles E 2.
Proof.
  intros Hnet url w. unfold open_attempt, bind, ask, urlopen_call.
  destruct (Hnet (count is_urlopen (trace w))
              (if check_winpe E then UrlopenCafile url (_ca_cert_file (self w))
               else UrlopenDefault url)) as [e ->].
  unfold log_connect_error, logging_error, logging_info, do. cbv beta iota.
  match goal with
  | |- context [urlopen E ?n (UrlopenContext url)] =>
      destruct (Hnet n (UrlopenContext url)) as [e2 ->]
  end.
  cbv beta iota. eexists. split; [reflexivity |].
  rewrite !count_emit. cbn [is_urlopen is_sleep]. lia.
Qed.

Lemma http_errors_fail (E : Env) :
  (forall n r, urlopen E n r = HTTPError) -> failing_cycles E 1.
Proof.
  intros Hnet url w. unfold open_attempt, bind, ask, urlopen_call.
  rewrite Hnet. unfold log_not_found, logging_error, do. cbv beta iota.
  eexists. split; [reflexivity |].
  rewrite !count_emit. cbn [is_urlopen is_sleep]. lia.
Qed.

Lemma open_loop_failing_step (E : Env) (c : nat) (fuel : nat) (attempt : Z)
    (url : string) (max_retries : Z) (status_codes : option (list Z))
    (w : World) :
  failing_cycles E c ->
  exists w1,
    open_loop E (S fuel) attempt None url max_retries status_codes w
    = (_AttemptResource (attempt + 1) max_retries "file download" ;;
       open_loop E fuel (attempt + 1) None url max_retries status_codes) w1
    /\ count is_urlopen (trace w1) = (count is_urlopen (trace w) + c)%nat
    /\ count is_sleep (trace w1) = count is_sleep (trace w).
Proof.
  intros Hfail. destruct (Hfail url w) as (w1 & Hrun & Hu & Hs).
  exists w1. split; [| split; assumption].
  cbn [open_loop]. unfold bind at 1. rewrite Hrun. reflexivity.
Qed.

Lemma open_loop_exhausts (E : Env) (c : nat) (url : string)
    (max_retries : Z) (status_codes : option (list Z)) :
  failing_cycles E c ->
  0 <= max_retries ->
  forall (k fuel : nat) (attempt : Z) (w : World),
    Z.to_nat (max_retries - attempt - 1) = k ->
    (k < fuel)%nat ->
    exists w',
      open_loop E fuel attempt None url max_retries status_codes w
      = (Raise (exhausted "file download" max_retries), w')
      /\ count is_urlopen (trace w')
         = (count is_urlopen (trace w) + c * (k + 1))%nat
      /\ count is_sleep (trace w') = (count is_sleep (trace w) + k)%nat.
Proof.
  intros Hfail Hpos.
  induction k as [| k IH]; intros fuel attempt w Hk Hfuel;
    (destruct fuel as [| fuel]; [lia |]);
    destruct (open_loop_failing_step E c fuel attempt url max_retries
                status_codes w Hfail) as (w1 & -> & Hu & Hs).
  - unfold bind. rewrite _AttemptResource_raises by lia.
    exists w1. split; [reflexivity |]. lia.
  - destruct (_AttemptResource_sleeps (attempt + 1) max_retries
                "file download" w1 ltac:(lia)) as [msg Hgate].
    unfold bind. rewrite Hgate.
    destruct (IH fuel (attempt + 1)
                (emit (EvSleep SLEEP) (emit (EvLog INFO msg) w1))
                ltac:(lia) ltac:(lia)) as (w' & Hrun & Hu' & Hs').
    exists w'. split; [exact Hrun |].
    rewrite !count_emit in Hu', Hs'. cbn [is_urlopen is_sleep] in Hu', Hs'.
    lia.
Qed.

Lemma _OpenStream_enters_loop (E : Env) (fuel : nat) (url : string)
    (max_retries : Z) (status_codes : option (list Z)) (w : World)
    (netloc : string) :
  urlparse_netloc E (strip is_space url) = Some netloc ->
  truthy netloc = true ->
  _OpenStream E fuel url max_retries status_codes w
  = open_loop E fuel 0 None (strip is_space url) max_retries status_codes
              (emit EvInstallOpener w).
Proof.
  intros Hparse Hhost. unfold _OpenStream, bind, do.
  rewrite Hparse, Hhost. reflexivity.
Qed.

Lemma requests_emit (e : Event) (w : World) :
  requests (trace (emit e w))
  = (requests (trace w)
     ++ match e with EvUrlopen r => [r] | _ => [] end)%list.
Proof.
  unfold requests. cbn [trace emit]. rewrite omap_app.
  destruct e; reflexivity.
Qed.

(** One cycle on a network of transport errors: the two requests, in
    their order, and nothing kept of them. *)
Lemma transport_errors_requests (E : Env) (url : string) (w : World) :
  (forall n r, exists e, urlopen E n r = URLError e) ->
  exists w1,
    open_attempt E url None w = (Ok None, w1)
    /\ self w1 = self w
    /\ requests (trace w1)
       = (requests (trace w)
          ++ transport_cycle E url (_ca_cert_file (self w)))%list.
Proof.
  intros Hnet. unfold open_attempt, bind, ask, urlopen_call.
  destruct (Hnet (count is_urlopen (trace w))
              (if check_winpe E then UrlopenCafile url (_ca_cert_file (self w))
               else UrlopenDefault url)) as [e ->].
  unfold log_connect_error, logging_error, logging_info, do. cbv beta iota.
  match goal with
  | |- context [urlopen E ?n (UrlopenContext url)] =>
      destruct (Hnet n (UrlopenContext url)) as [e2 ->]
  end.
  cbv beta iota. eexists. split; [reflexivity |].
  split; [reflexivity |].
  rewrite !requests_emit, !app_nil_r, <- app_assoc. reflexivity.
Qed.

Lemma open_loop_transport_requests (E : Env) (url : string)
    (max_retries : Z) (status_codes : option (list Z)) :
  (forall n r, exists e, urlopen E n r = URLError e) ->
  0 <= max_retries ->
  forall (k fuel : nat) (attempt : Z) (w : World),
    Z.to_nat (max_retries - attempt - 1) = k ->
    (k < fuel)%nat ->
    exists w',
      open_loop E fuel attempt None url max_retries status_codes w
      = (Raise (exhausted "file download" max_retries), w')
      /\ requests (trace w')
         = (requests (trace w)
            ++ concat (replicate (k + 1)
                         (transport_cycle E url
                            (_ca_cert_file (self w)))))%list.
Proof.
  intros Hnet Hpos.
  induction k as [| k IH]; intros fuel attempt w Hk Hfuel;
    (destruct fuel as [| fuel]; [lia |]);
    destruct (transport_errors_requests E url w Hnet)
      as (w1 & Hrun & Hself & Hreq);
    cbn [open_loop]; unfold bind at 1; rewrite Hrun;
    cbv beta iota; unfold bind at 1; cbn [check_stream];
    unfold ret at 1; cbv beta iota.
  - unfold bind. rewrite _AttemptResource_raises by lia.
    exists w1. split; [reflexivity |].
    rewrite Hreq. cbn [replicate concat Nat.add]. rewrite app_nil_r.
    reflexivity.
  - destruct (_AttemptResource_sleeps (attempt + 1) max_retries
                "file download" w1 ltac:(lia)) as [msg Hgate].
    unfold bind. rewrite Hgate.
    destruct (IH fuel (attempt + 1)
                (emit (EvSleep SLEEP) (emit (EvLog INFO msg) w1))
                ltac:(lia) ltac:(lia)) as (w' & Hloop & Hreq').
    exists w'. split; [exact Hloop |].
    rewrite Hreq', !requests_emit, !app_nil_r, Hreq.
    cbn [self emit]. rewrite Hself.
    change (S k + 1)%nat with (S (k + 1)).
    cbn [replicate concat]. rewrite <- app_assoc. reflexivity.
Qed.

(** X7.  When every request ends in a transport error, [_OpenStream] with
    a budget of [max_retries >= 0] gives up with the retry gate's
    [DownloadError] after [max(max_retries, 1)] cycles; each cycle makes
    two requests, the one the cycle opens with and then the same URL with
    the machine context, and the cycles are separated by one sleep
    each. *)
Theorem _OpenStream_transport_errors (E : Env) (fuel : nat) (url : string)
    (max_retries : Z) (status_codes : option (list Z)) (w : World)
    (netloc : string) :
  urlparse_netloc E (strip is_space url) = Some netloc ->
  truthy netloc = true ->
  (forall n r, exists e, urlopen E n r = URLError e) ->
  0 <= max_retries ->
  (cycles max_retries <= fuel)%nat ->
  let res := _OpenStream E fuel url max_retries status_codes w in
  fst res = Raise (exhausted "file download" max_retries)
  /\ count is_urlopen (trace (snd res))
     = (count is_urlopen (trace w) + 2 * cycles max_retries)%nat
  /\ count is_sleep (trace (snd res))
     = (count is_sleep (trace w) + (cycles max_retries - 1))%nat
  /\ requests (trace (snd res))
     = (requests (trace w)
        ++ concat (replicate (cycles max_retries)
                     (transport_cycle E (strip is_space url)
                        (_ca_cert_file (self w)))))%list.
Proof.
  intros Hparse Hhost Hnet Hpos Hfuel. cbv zeta.
  rewrite (_OpenStream_enters_loop E fuel url max_retries status_codes w
             netloc Hparse Hhost).
  unfold cycles in *.
  destruct (open_loop_exhausts E 2 (strip is_space url) max_retries
              status_codes (transport_errors_fail E Hnet) Hpos
              (Z.to_nat (max_retries - 0 - 1)) fuel 0
              (emit EvInstallOpener w) eq_refl ltac:(lia))
    as (w' & Hrun & Hu & Hs).
  destruct (open_loop_transport_requests E (strip is_space url) max_retries
              status_codes Hnet Hpos
              (Z.to_nat (max_retries - 0 - 1)) fuel 0
              (emit EvInstallOpener w) eq_refl ltac:(lia))
    as (w'' & Hrun' & Hreq).
  rewrite Hrun in Hrun'. injection Hrun' as <-. rewrite Hrun.
  rewrite count_emit in Hu, Hs. rewrite requests_emit, app_nil_r in Hreq.
  cbn [is_urlopen is_sleep fst snd self emit] in *.
  split; [reflexivity |]. split; [lia |]. split; [lia |].
  rewrite Hreq. do 3 f_equal. lia.
Qed.

Lemma _OpenStream_transport_errors_witness :
  let E := constant_env (URLError "timed out") in
  let res := _OpenStream E 2 "https://h.example/f" 2 None Fixtures.world0 in
  fst res = Raise (exhausted "file download" 2)
  /\ count is_urlopen (trace (snd res)) = 4%nat
  /\ count is_sleep (trace (snd res)) = 1%nat
  /\ requests (trace (snd res))
     = [UrlopenCafile "https://h.example/f" None;
        UrlopenContext "https://h.example/f";
        UrlopenCafile "https://h.example/f" None;
        UrlopenContext "https://h.example/f"].
Proof.
  exact (_OpenStream_transport_errors
           (constant_env (URLError "timed out")) 2 "https://h.example/f" 2
           None Fixtures.world0 "h.example" eq_refl eq_refl
           ltac:(intros n r; eexists; reflexivity) ltac:(lia)
           ltac:(vm_compute; lia)).
Defined.

(** X8.  When every request ends in an [HTTPError], there is no second
    request with the machine context: [_OpenStream] with a budget of
    [max_retries >= 0] gives up after [max(max_retries, 1)] cycles of one
    request each. *)
Theorem _OpenStream_http_errors (E : Env) (fuel : nat) (url : string)
    (max_retries : Z) (status_codes : option (list Z)) (w : World)
    (netloc : string) :
  urlparse_netloc E (strip is_space url) = Some netloc ->
  truthy netloc = true ->
  (forall n r, urlopen E n r = HTTPError) ->
  0 <= max_retries ->
  (cycles max_retries <= fuel)%nat ->
  let res := _OpenStream E fuel url max_retries status_codes w in
  fst res = Raise (exhausted "file download" max_retries)
  /\ count is_urlopen (trace (snd res))
     = (count is_urlopen (trace w) + cycles max_retries)%nat
  /\ count is_sleep (trace (snd res))
     = (count is_sleep (trace w) + (cycles max_retries - 1))%nat.
Proof.
  intros Hparse Hhost Hnet Hpos Hfuel. cbv zeta.
  rewrite (_OpenStream_enters_loop E fuel url max_retries status_codes w
             netloc Hparse Hhost).
  unfold cycles in *.
  destruct (open_loop_exhausts E 1 (strip is_space url) max_retries
              status_codes (http_errors_fail E Hnet) Hpos
              (Z.to_nat (max_retries - 0 - 1)) fuel 0
              (emit EvInstallOpener w) eq_refl ltac:(lia))
    as (w' & -> & Hu & Hs).
  rewrite count_emit in Hu, Hs. cbn [is_urlopen is_sleep fst snd] in *.
  split; [reflexivity |]. lia.
Qed.

Lemma _OpenStream_http_errors_witness :
  let E := constant_env HTTPError in
  let res := _OpenStream E 1 "https://h.example/f" 0 None Fixtures.world0 in
  fst res = Raise (exhausted "file download" 0)
  /\ count is_urlopen (trace (snd res)) = 1%nat
  /\ count is_sleep (trace (snd res)) = 0%nat.
Proof.
  exact (_OpenStream_http_errors
           (constant_env HTTPError) 1 "https://h.example/f" 0 None
           Fixtures.world0 "h.example" eq_refl eq_refl
           ltac:(intros n r; reflexivity) ltac:(lia)
           ltac:(vm_compute; lia)).
Defined.

Lemma open_loop_never_gives_up (E : Env) (c : nat) (url : string)
    (max_retries : Z) (status_codes : option (list Z)) :
  failing_cycles E c ->
  max_retries < 0 ->
  forall (fuel : nat) (attempt : Z) (w : World),
    exists w',
      open_loop E fuel attempt None url max_retries status_codes w
      = (OutOfFuel, w')
      /\ count is_sleep (trace w') = (count is_sleep (trace w) + fuel)%nat
      /\ count is_urlopen (trace w')
         = (count is_urlopen (trace w) + c * fuel)%nat.
Proof.
  intros Hfail Hneg. induction fuel as [| fuel IH]; intros attempt w.
  - exists w. split; [reflexivity |]. lia.
  - destruct (open_loop_failing_step E c fuel attempt url max_retries
                status_codes w Hfail) as (w1 & -> & Hu & Hs).
    destruct (_AttemptResource_sleeps (attempt + 1) max_retries
                "file download" w1 ltac:(lia)) as [msg Hgate].
    unfold bind. rewrite Hgate.
    destruct (IH (attempt + 1)
                (emit (EvSleep SLEEP) (emit (EvLog INFO msg) w1)))
      as (w' & Hrun & Hs' & Hu').
    exists w'. split; [exact Hrun |].
    rewrite !count_emit in Hu', Hs'. cbn [is_urlopen is_sleep] in Hu', Hs'.
    lia.
Qed.

(** X9.  With a negative budget and a network on which every request ends
    in a transport error, [_OpenStream] never comes back: whatever the
    fuel, it is used up, with one sleep and two requests for each unit. *)
Theorem _OpenStream_unlimited_never_returns (E : Env) (fuel : nat)
    (url : string) (max_retries : Z) (status_codes : option (list Z))
    (w : World) (netloc : string) :
  urlparse_netloc E (strip is_space url) = Some netloc ->
  truthy netloc = true ->
  (forall n r, exists e, urlopen E n r = URLError e) ->
  max_retries < 0 ->
  let res := _OpenStream E fuel url max_retries status_codes w in
  fst res = OutOfFuel
  /\ count is_sleep (trace (snd res)) = (count is_sleep (trace w) + fuel)%nat
  /\ count is_urlopen (trace (snd res))
     = (count is_urlopen (trace w) + 2 * fuel)%nat.
Proof.
  intros Hparse Hhost Hnet Hneg. cbv zeta.
  rewrite (_OpenStream_enters_loop E fuel url max_retries status_codes w
             netloc Hparse Hhost).
  destruct (open_loop_never_gives_up E 2 (strip is_space url) max_retries
              status_codes (transport_errors_fail E Hnet) Hneg fuel 0
              (emit EvInstallOpener w)) as (w' & -> & Hs & Hu).
  rewrite count_emit in Hu, Hs. cbn [is_urlopen is_sleep fst snd] in *.
  split; [reflexivity |]. lia.
Qed.

Lemma _OpenStream_unlimited_never_returns_witness :
  let E := constant_env (URLError "timed out") in
  let res := _OpenStream E 7 "https://h.example/f" (-1) None
                         Fixtures.world0 in
  fst res = OutOfFuel
  /\ count is_sleep (trace (snd res)) = 7%nat
  /\ count is_urlopen (trace (snd res)) = 14%nat.
Proof.
  exact (_OpenStream_unlimited_never_returns
           (constant_env (URLError "timed out")) 7 "https://h.example/f"
           (-1) None Fixtures.world0 "h.example" eq_refl eq_refl
           ltac:(intros n r; eexists; reflexivity) ltac:(lia)).
Defined.

(** X10.  A response whose code is neither acceptable nor 302 ends
    [_OpenStream] at once with [DownloadError]: after that one request
    there is no sleep and no further attempt, whatever the budget, also an
    unlimited one. *)
Theorem _OpenStream_unexpected_code (E : Env) (fuel : nat) (url : string)
    (max_retries : Z) (status_codes : option (list Z)) (w : World)
    (netloc : string) (s : Stream) :
  urlparse_netloc E (strip is_space url) = Some netloc ->
  truthy netloc = true ->
  urlopen E (count is_urlopen (trace w))
          (first_request E (_ca_cert_file (self w)) (strip is_space url))
  = Response s ->
  code_in (getcode s) (acceptable status_codes) = false ->
  getcode s <> 302 ->
  _OpenStream E (S fuel) url max_retries status_codes w
  = (Raise (DownloadError
              ("Invalid return code for file " +:+ strip is_space url
               +:+ ". [" +:+ of_Z (getcode s) +:+ "]")),
     emit (EvUrlopen (first_request E (_ca_cert_file (self w))
                                    (strip is_space url)))
          (emit EvInstallOpener w)).
Proof.
  intros Hparse Hhost Hnet Hcode H302.
  rewrite (_OpenStream_enters_loop E (S fuel) url max_retries status_codes w
             netloc Hparse Hhost).
  rewrite (open_loop_response E fuel 0 None (strip is_space url) max_retries
             status_codes (emit EvInstallOpener w) s).
  - cbv zeta. rewrite Hcode. unfold code_in at 1. cbn [existsb].
    destruct (Z.eqb_spec (getcode s) 302); [contradiction | reflexivity].
  - rewrite count_emit. cbn [is_urlopen emit self]. rewrite Nat.add_0_r.
    exact Hnet.
Qed.

Lemma _OpenStream_unexpected_code_witness :
  let E := constant_env
             (Response (Fixtures.response 404 "https://h.example/f" [] "0")) in
  _OpenStream E 1 "https://h.example/f" (-1) None Fixtures.world0
  = (Raise (DownloadError
              "Invalid return code for file https://h.example/f. [404]"),
     emit (EvUrlopen (UrlopenCafile "https://h.example/f" None))
          (emit EvInstallOpener Fixtures.world0)).
Proof.
  exact (_OpenStream_unexpected_code
           (constant_env
              (Response (Fixtures.response 404 "https://h.example/f" [] "0")))
           0 "https://h.example/f" (-1) None Fixtures.world0 "h.example"
           (Fixtures.response 404 "https://h.example/f" [] "0")
           eq_refl eq_refl eq_refl eq_refl ltac:(discriminate)).
Defined.

(** ** Signed URLs *)

Lemma prefix_app (p r : string) : String.prefix p (p +:+ r) = true.
Proof.
  induction p as [| a p IH]; [destruct r; reflexivity |].
  change (String a p +:+ r) with (String a (p +:+ r)).
  cbn [String.prefix]. destruct (ascii_dec a a); [exact IH | contradiction].
Qed.

Lemma drop_app (p r : string) : PyStr.drop (String.length p) (p +:+ r) = r.
Proof.
  induction p as [| a p IH]; [reflexivity |].
  change (String a p +:+ r) with (String a (p +:+ r)). exact IH.
Qed.

(** X15.  With the flag [use_signed_url] set, a URL that starts with the
    configured server and a slash reaches the collaborator as exactly the
    text after that prefix (the empty text for the bare prefix), and
    [_SetUrl] gives back the collaborator's answer, or [DownloadError] with
    the text of its failure. *)
Theorem _SetUrl_strips_prefix (E : Env) (rest : string) (w : World) :
  FLAGS_use_signed_url E = true ->
  _SetUrl E ((FLAGS_config_server E +:+ "/") +:+ rest) w
  = (match GetSignedUrl E rest with
     | inr signed => Ok signed
     | inl e => Raise (DownloadError e)
     end,
     emit (EvGetSignedUrl rest) w).
Proof.
  intros Hflag. unfold _SetUrl, startswith. rewrite Hflag. cbn [negb].
  rewrite prefix_app, drop_app. unfold bind, do.
  destruct (GetSignedUrl E rest); reflexivity.
Qed.

Lemma _SetUrl_strips_prefix_witness :
  _SetUrl (Fixtures.env [] true true) "https://cfg.example/conf/build.yaml"
          Fixtures.world0
  = (Ok "https://signed.example/conf/build.yaml",
     emit (EvGetSignedUrl "conf/build.yaml") Fixtures.world0).
Proof.
  exact (_SetUrl_strips_prefix (Fixtures.env [] true true) "conf/build.yaml"
           Fixtures.world0 eq_refl).
Defined.

(** ** Debug information *)

Lemma store_headers_other (items : list (string * string))
    (d : gmap string string) (k : string) :
  ~ In k (map fst items) -> store_headers items d !! k = d !! k.
Proof.
  revert d. induction items as [| h items IH]; intros d Hk; [reflexivity |].
  change (store_headers items (<[h.1 := h.2]> d) !! k = d !! k).
  rewrite IH by (intros Hin; apply Hk; right; exact Hin).
  apply lookup_insert_ne. intros Heq. apply Hk. left. exact Heq.
Qed.

Lemma _StoreDebugInfo_grows (E : Env) (file_stream : option Stream)
    (socket_error : option string) :
  preserves debug_grows (_StoreDebugInfo E file_stream socket_error).
Proof.
  intros w. repeat split; try reflexivity.
  intros k Hk. cbn [snd _StoreDebugInfo set_self self set_debug_info
                    _debug_info].
  destruct (decide ("current_time" = k)) as [<- | Hne];
    [rewrite lookup_insert_eq; eauto |].
  rewrite lookup_insert_ne by exact Hne.
  assert (Hsock : is_Some
                    (match socket_error with
                     | Some e =>
                         if truthy e
                         then <["socket_error" := e]> (_debug_info (self w))
                         else _debug_info (self w)
                     | None => _debug_info (self w)
                     end !! k)).
  { destruct socket_error as [e |]; [| exact Hk].
    destruct (truthy e); [| exact Hk].
    destruct (decide ("socket_error" = k)) as [<- | Hne2];
      [rewrite lookup_insert_eq; eauto |].
    rewrite lookup_insert_ne by exact Hne2. exact Hk. }
  destruct file_stream as [s |]; [| exact Hsock].
  apply store_headers_keeps. exact Hsock.
Qed.


(** X16.  [_StoreDebugInfo] only adds to the debug information: every key
    that was there stays, and the time stamp is set.  A socket error text
    that is not empty is stored under [socket_error], unless the response
    has a header of that name, whose value then takes its place; an empty
    text is treated like none.  Files, trace and the other fields of the
    downloader are not touched. *)
Theorem _StoreDebugInfo_accumulates (E : Env) (file_stream : option Stream)
    (socket_error : option string) (w : World) :
  let r := _StoreDebugInfo E file_stream socket_error w in
  let names :=
    match file_stream with Some s => map fst (headers s) | None => [] end in
  fst r = Ok tt
  /\ debug_grows w (snd r)
  /\ files (snd r) = files w /\ trace (snd r) = trace w
  /\ _debug_info (self (snd r)) !! "current_time"
     = Some (strftime E (trace w))
  /\ (forall e, socket_error = Some e -> truthy e = true ->
                ~ In "socket_error" names ->
                _debug_info (self (snd r)) !! "socket_error" = Some e)
  /\ (socket_error = Some EmptyString ->
      r = _StoreDebugInfo E file_stream None w).
Proof.
  cbv zeta. split; [reflexivity |].
  split; [apply _StoreDebugInfo_grows |].
  split; [reflexivity |]. split; [reflexivity |].
  split; [apply lookup_insert_eq |].
  split.
  - intros e -> He Hnames.
    cbn [snd _StoreDebugInfo set_self self set_debug_info _debug_info].
    rewrite He. rewrite lookup_insert_ne by discriminate.
    destruct file_stream as [s |].
    + rewrite store_headers_other by exact Hnames. apply lookup_insert_eq.
    + apply lookup_insert_eq.
  - intros ->. reflexivity.
Qed.

(** ** Draining: the failure exits *)

Lemma content_length_loop_opening (fuel : nat) (attempt : Z) (s : Stream)
    (max_retries : Z) :
  preserves (adds_only opening_event)
            (content_length_loop fuel attempt s max_retries).
Proof.
  revert attempt. induction fuel as [| fuel IH]; intros attempt;
    cbn [content_length_loop]; [opening_step |].
  destruct (headers_get (headers s) "Content-Length") as [v |].
  - destruct (PyStr.int (strip is_space v)); opening_step.
  - apply preserves_bind;
      [order_goal | apply _AttemptResource_opening | intros _].
    apply IH.
Qed.

Lemma content_length_loop_exhausts (s : Stream) (max_retries : Z) :
  headers_get (headers s) "Content-Length" = None ->
  0 <= max_retries ->
  forall (k fuel : nat) (attempt : Z) (w : World),
    Z.to_nat (max_retries - attempt - 1) = k ->
    (k < fuel)%nat ->
    exists w',
      content_length_loop fuel attempt s max_retries w
      = (Raise (exhausted "server URL" max_retries), w')
      /\ count is_sleep (trace w') = (count is_sleep (trace w) + k)%nat.
Proof.
  intros Hhead Hpos.
  induction k as [| k IH]; intros fuel attempt w Hk Hfuel;
    (destruct fuel as [| fuel]; [lia |]);
    cbn [content_length_loop]; rewrite Hhead; unfold bind.
  - rewrite _AttemptResource_raises by lia.
    exists w. split; [reflexivity | lia].
  - destruct (_AttemptResource_sleeps (attempt + 1) max_retries
                "server URL" w ltac:(lia)) as [msg ->].
    destruct (IH fuel (attempt + 1)
                (emit (EvSleep SLEEP) (emit (EvLog INFO msg) w))
                ltac:(lia) ltac:(lia)) as (w' & Hrun & Hs).
    exists w'. split; [exact Hrun |].
    rewrite !count_emit in Hs. cbn [is_sleep] in Hs. lia.
Qed.

(** X17.  A response without [Content-Length] header is not drained at
    all.  With a budget of [max_retries >= 0], [_StreamToDisk] asks the
    retry gate [max(max_retries, 1)] times, sleeping in between, and then
    raises the gate's [DownloadError] for the server URL; no byte is read,
    the destination is not opened, files and downloader stay as they
    were. *)
Theorem _StreamToDisk_no_content_length (E : Env) (fuel : nat) (s : Stream)
    (show_progress : option bool) (max_retries : Z) (w : World) :
  headers_get (headers s) "Content-Length" = None ->
  0 <= max_retries ->
  (cycles max_retries <= fuel)%nat ->
  let r := _StreamToDisk E fuel s show_progress max_retries w in
  fst r = Raise (exhausted "server URL" max_retries)
  /\ self (snd r) = self w /\ files (snd r) = files w
  /\ count is_sleep (trace (snd r))
     = (count is_sleep (trace w) + (cycles max_retries - 1))%nat
  /\ count is_read (trace (snd r)) = count is_read (trace w).
Proof.
  intros Hhead Hpos Hfuel. cbv zeta. unfold cycles in *.
  destruct (content_length_loop_exhausts s max_retries Hhead Hpos
              (Z.to_nat (max_retries - 0 - 1)) fuel 0 w eq_refl ltac:(lia))
    as (w' & Hrun & Hs).
  destruct (content_length_loop_opening fuel 0 s max_retries w)
    as (Hself & Hfiles & t & Ht & Hall).
  rewrite Hrun in Hself, Hfiles, Ht. cbn [snd] in Hself, Hfiles, Ht.
  assert (Heq : _StreamToDisk E fuel s show_progress max_retries w
                = (Raise (exhausted "server URL" max_retries), w')).
  { unfold _StreamToDisk. unfold bind at 1. unfold ask at 1. cbv beta iota.
    unfold bind at 1. rewrite Hrun. reflexivity. }
  rewrite Heq. cbn [fst snd].
  split; [reflexivity |]. split; [exact Hself |]. split; [exact Hfiles |].
  split; [lia |].
  rewrite Ht, count_app.
  rewrite (count_none opening_event is_read t Hall); [lia |].
  intros [] He; try reflexivity; discriminate.
Qed.

Lemma _StreamToDisk_no_content_length_witness :
  let s := {| getcode := 200; geturl := "https://h.example/f";
              headers := [("Content-Type", "text/plain")];
              body := [Chunk Fixtures.abc] |} in
  let r := _StreamToDisk (Fixtures.env [] false false) 5 s None 5
                         (Fixtures.world_saving "out" ∅) in
  fst r = Raise (DownloadError "Failed to reach server URL after 5 attempt(s).")
  /\ files (snd r) = ∅
  /\ count is_sleep (trace (snd r)) = 4%nat.
Proof.
  cbv zeta.
  pose proof (_StreamToDisk_no_content_length
                (Fixtures.env [] false false) 5
                {| getcode := 200; geturl := "https://h.example/f";
                   headers := [("Content-Type", "text/plain")];
                   body := [Chunk Fixtures.abc] |}
                None 5 (Fixtures.world_saving "out" ∅)
                eq_refl ltac:(lia) ltac:(vm_compute; lia))
    as (H1 & _ & H3 & H4 & _).
  split; [exact H1 |]. split; [exact H3 | exact H4].
Defined.

(** X19.  When the destination cannot be opened, [_StreamToDisk] reads
    nothing and raises [DownloadError] with the text of the socket-error
    clause, which stands first and takes every [OSError]; the world it
    leaves is the one [_StoreDebugInfo] leaves for the text of the failed
    [open]. *)
Theorem _StreamToDisk_open_fails (E : Env) (fuel : nat) (s : Stream)
    (show_progress : option bool) (max_retries : Z) (w : World)
    (v path msg : string) (N : Z) :
  headers_get (headers s) "Content-Length" = Some v ->
  PyStr.int (strip is_space v) = Some N ->
  _save_location (self w) = Some path ->
  open_error E path = Some msg ->
  _StreamToDisk E (S fuel) s show_progress max_retries w
  = (Raise (DownloadError "Socket error during download."),
     snd (_StoreDebugInfo E (Some s) (Some msg) w)).
Proof.
  intros Hhead Hint Hloc Hopen.
  unfold _StreamToDisk. unfold bind at 1. unfold ask at 1. cbv beta iota.
  cbn [content_length_loop]. rewrite Hhead, Hint.
  unfold bind at 1. unfold ret at 1. cbv beta iota. cbn [fst snd].
  unfold bind at 1. unfold try_except.
  unfold bind at 1. unfold save_location at 1. rewrite Hloc.
  unfold bind at 1. unfold open_wb. rewrite Hopen.
  unfold raise at 1. cbv beta iota. cbn [List.find fst snd socket_error].
  unfold bind at 1. reflexivity.
Qed.

Lemma _StreamToDisk_open_fails_witness :
  let r := _StreamToDisk locked_env 1 Fixtures.found None 5
                         (Fixtures.world_saving "out" ∅) in
  fst r = Raise (DownloadError "Socket error during download.")
  /\ _debug_info (self (snd r)) !! "socket_error" = Some "Permission denied"
  /\ trace (snd r) = [].
Proof.
  cbv zeta.
  rewrite (_StreamToDisk_open_fails locked_env 0 Fixtures.found None 5
             (Fixtures.world_saving "out" ∅) "3" "out" "Permission denied" 3
             eq_refl eq_refl eq_refl eq_refl).
  repeat split; vm_compute; reflexivity.
Defined.





(** ** Draining: the whole body *)






(** ** What a download leaves in the downloader *)

Lemma preserves_weaken {A} (R R' : World -> World -> Prop) (m : M A) :
  (forall w w', R w w' -> R' w w') -> preserves R m -> preserves R' m.
Proof. intros Himp Hm w. apply Himp, Hm. Qed.

Lemma adds_only_grows (p : Event -> bool) (w w' : World) :
  adds_only p w w' -> debug_grows w w'.
Proof. intros [Hself _]. apply debug_grows_trace. exact Hself. Qed.

Ltac grows_step :=
  first
    [ apply preserves_bind; [order_goal | | intros ?]
    | apply preserves_ret; order_goal
    | apply preserves_raise; order_goal
    | apply preserves_out_of_fuel; order_goal
    | apply preserves_ask; order_goal
    | apply preserves_do; intros ?; apply debug_grows_trace; reflexivity ].

Lemma _OpenStream_grows (E : Env) (fuel : nat) (url : string)
    (max_retries : Z) (status_codes : option (list Z)) :
  preserves debug_grows (_OpenStream E fuel url max_retries status_codes).
Proof.
  apply (preserves_weaken (adds_only opening_event));
    [apply adds_only_grows | apply _OpenStream_opening].
Qed.

Lemma _SetUrl_grows (E : Env) (url : string) :
  preserves debug_grows (_SetUrl E url).
Proof.
  unfold _SetUrl. destruct (negb (FLAGS_use_signed_url E)); [grows_step |].
  grows_step; [grows_step |].
  destruct (GetSignedUrl E _); grows_step.
Qed.

Lemma write_loop_grows (fuel : nat) (s : Stream) (bytes_so_far total_size : Z)
    (progress : bool) (path : string) :
  preserves debug_grows
            (write_loop fuel s bytes_so_far total_size progress path).
Proof.
  revert s bytes_so_far. induction fuel as [| fuel IH]; intros s bytes_so_far;
    cbn [write_loop]; [grows_step |].
  apply preserves_bind; [order_goal | | intros r].
  { unfold stream_read. grows_step; [grows_step |].
    destruct (body s) as [| [data | msg] b]; grows_step. }
  destruct (Bytes.is_empty (fst r)); [grows_step |].
  apply preserves_bind; [order_goal | | intros _].
  { unfold file_write. grows_step. }
  apply preserves_bind; [order_goal | | intros _; apply IH].
  destruct progress; [| grows_step].
  unfold _DownloadChunkReport.
  destruct (total_size =? 0); [grows_step |].
  grows_step; [grows_step |].
  destruct (bytes_so_far + Bytes.len (fst r) >=? total_size); grows_step.
Qed.

Lemma save_location_grows : preserves debug_grows save_location.
Proof.
  intros w. unfold save_location.
  destruct (_save_location (self w)); apply debug_grows_refl.
Qed.

Lemma _Validate_grows (E : Env) (s : Stream) (expected_size : Z) :
  preserves debug_grows (_Validate E s expected_size).
Proof.
  unfold _Validate.
  apply preserves_bind;
    [order_goal | apply save_location_grows | intros path].
  apply preserves_bind; [order_goal | grows_step | intros content].
  destruct content as [data |].
  - destruct (negb (Bytes.len data =? expected_size)); [| grows_step].
    apply preserves_bind;
      [order_goal | apply _StoreDebugInfo_grows | intros _].
    grows_step.
  - apply preserves_bind;
      [order_goal | apply _StoreDebugInfo_grows | intros _].
    grows_step.
Qed.

Lemma _StreamToDisk_grows (E : Env) (fuel : nat) (s : Stream)
    (show_progress : option bool) (max_retries : Z) :
  preserves debug_grows (_StreamToDisk E fuel s show_progress max_retries).
Proof.
  unfold _StreamToDisk.
  apply preserves_bind; [order_goal | grows_step | intros dp].
  apply preserves_bind; [order_goal | | intros r].
  { apply (preserves_weaken (adds_only opening_event));
      [apply adds_only_grows | apply content_length_loop_opening]. }
  apply preserves_bind; [order_goal | | intros _].
  - apply preserves_try_except; [order_goal | |].
    + apply preserves_bind;
        [order_goal | apply save_location_grows | intros path].
      apply preserves_bind; [order_goal | | intros _].
      { unfold open_wb. destruct (open_error E path); grows_step. }
      apply preserves_bind; [order_goal | | intros _].
      { unfold logging_info. grows_step. }
      apply preserves_bind;
        [order_goal | apply write_loop_grows | intros _].
      grows_step.
    + apply List.Forall_cons;
        [intros e
        | apply List.Forall_cons; [intros e | apply List.Forall_nil]];
        cbn [snd].
      * apply preserves_bind;
          [order_goal | apply _StoreDebugInfo_grows | intros _].
        grows_step.
      * repeat grows_step.
  - apply preserves_bind;
      [order_goal | apply _Validate_grows | intros _].
    unfold stream_close. grows_step.
Qed.

Lemma download_grows (E : Env) (fuel : nat) (url : string) (max_retries : Z)
    (show_progress : bool) :
  preserves debug_grows
    (r <- (if CheckBeyondCorp E then
             url <- _SetUrl E url ;; ret (url, -1)
           else ret (url, max_retries)) ;;
     file_stream <- _OpenStream E fuel (fst r) (snd r) None ;;
     _StreamToDisk E fuel file_stream (Some show_progress) 5).
Proof.
  apply preserves_bind; [order_goal | | intros r].
  { destruct (CheckBeyondCorp E); [| grows_step].
    apply preserves_bind;
      [order_goal | apply _SetUrl_grows | intros u].
    grows_step. }
  apply preserves_bind;
    [order_goal | apply _OpenStream_grows | intros s].
  apply _StreamToDisk_grows.
Qed.

(** X23.  Whatever [DownloadFile] is given and however it ends, the
    downloader afterwards has the requested save location, its progress
    default and certificate file are unchanged, and every key that was in
    the debug information is still there: the debug information is never
    cleared, it only grows from one download to the next. *)
Theorem DownloadFile_keeps_debug_info (E : Env) (fuel : nat)
    (url save_location : string) (max_retries : Z) (show_progress : bool)
    (w : World) :
  let w' := snd (DownloadFile E fuel url save_location max_retries
                              show_progress w) in
  _save_location (self w') = Some save_location
  /\ _default_show_progress (self w') = _default_show_progress (self w)
  /\ _ca_cert_file (self w') = _ca_cert_file (self w)
  /\ forall k, is_Some (_debug_info (self w) !! k) ->
               is_Some (_debug_info (self w') !! k).
Proof.
  cbv zeta.
  set (w0 := set_self (set_save_location (Some save_location) (self w)) w).
  assert (Hrest : debug_grows w0
                    (snd (DownloadFile E fuel url save_location max_retries
                                       show_progress w))).
  { unfold DownloadFile. unfold bind at 1. unfold do at 1. cbv beta iota.
    fold w0. destruct (IsRemote url).
    - apply download_grows.
    - unfold bind, do. cbv beta iota.
      destruct (Copy E url save_location _); apply debug_grows_trace;
        reflexivity. }
  destruct Hrest as (Hloc & Hprog & Hca & Hkeys).
  split; [rewrite Hloc; reflexivity |].
  split; [rewrite Hprog; reflexivity |].
  split; [rewrite Hca; reflexivity |].
  intros k Hk. apply Hkeys. exact Hk.
Qed.

(** ** Downloads from end to end *)






Lemma bind_assoc {A B C} (m : M A) (k : A -> M B) (h : B -> M C) (w : World) :
  bind (bind m k) h w = bind m (fun a => bind (k a) h) w.
Proof. unfold bind. destruct (m w) as [[a | e |] w1]; reflexivity. Qed.

Lemma bind_ext {A B} (m : M A) (k1 k2 : A -> M B) (w : World) :
  (forall a w', k1 a w' = k2 a w') -> bind m k1 w = bind m k2 w.
Proof.
  intros H. unfold bind. destruct (m w) as [[a | e |] w1];
    [apply H | reflexivity | reflexivity].
Qed.

Lemma DownloadFileTemp_run (E : Env) (fuel : nat) (temp_name url : string)
    (max_retries : Z) (show_progress : bool) (w : World) :
  let w1 := set_self (set_save_location (Some temp_name) (self w))
                     (set_files (delete temp_name (files w)) w) in
  let download :=
    r <- (if CheckBeyondCorp E then
            url <- _SetUrl E url ;; ret (url, -1)
          else ret (url, max_retries)) ;;
    file_stream <- _OpenStream E fuel (fst r) (snd r) None ;;
    _StreamToDisk E fuel file_stream (Some show_progress) 5 in
  DownloadFileTemp E fuel temp_name url max_retries show_progress w
  = match download w1 with
    | (Ok _, w') => (Ok (Some temp_name), w')
    | (Raise e, w') => (Raise e, w')
    | (OutOfFuel, w') => (OutOfFuel, w')
    end.
Proof.
  cbv zeta.
  set (w1 := set_self (set_save_location (Some temp_name) (self w))
                      (set_files (delete temp_name (files w)) w)).
  pose proof (download_grows E fuel url max_retries show_progress w1)
    as (Hloc & _).
  unfold DownloadFileTemp. unfold bind at 1. unfold do at 1. cbv beta iota.
  fold w1.
  match goal with
  | |- bind ?A (fun r => bind (@?O r) (fun fs => bind (@?S fs) ?h)) w1 = _ =>
      transitivity (bind (bind A (fun r => bind (O r) S)) h w1)
  end.
  { rewrite bind_assoc. apply bind_ext. intros r w'.
    rewrite bind_assoc. reflexivity. }
  unfold bind at 1.
  match goal with
  | |- context [match ?d with _ => _ end] =>
      match type of Hloc with
      | context [snd ?d'] => change d' with d in Hloc
      end
  end.
  match goal with
  | |- match ?d with _ => _ end = _ => destruct d as [[[] | e |] w']
  end; try reflexivity.
  cbn [snd] in Hloc. unfold ask. rewrite Hloc. reflexivity.
Qed.

(** X22.  [DownloadFileTemp] removes the temporary file, and when it
    returns, it returns the temporary name.  For a remote locator it is
    [DownloadFile] into that name.  It has no branch for other locators:
    with BeyondCorp off, a locator without host (a local path) is not
    copied but fails as an invalid URL, before any request. *)
Theorem DownloadFileTemp_spec (E : Env) (fuel : nat)
    (temp_name url : string) (max_retries : Z) (show_progress : bool)
    (w : World) :
  let w0 := set_files (delete temp_name (files w)) w in
  let t := DownloadFileTemp E fuel temp_name url max_retries show_progress w in
  (forall p, fst t = Ok p -> p = Some temp_name)
  /\ (IsRemote url = true ->
      t = match DownloadFile E fuel url temp_name max_retries show_progress
                             w0 with
          | (Ok _, w') => (Ok (Some temp_name), w')
          | (Raise e, w') => (Raise e, w')
          | (OutOfFuel, w') => (OutOfFuel, w')
          end)
  /\ (CheckBeyondCorp E = false ->
      urlparse_netloc E (strip is_space url) = Some EmptyString ->
      fst t = Raise (DownloadError
                       ("Invalid remote server URL " +:+ dquote
                        +:+ strip is_space url +:+ dquote +:+ "."))
      /\ files (snd t) = delete temp_name (files w)
      /\ trace (snd t) = (trace w ++ [EvInstallOpener])%list).
Proof.
  cbv zeta. rewrite DownloadFileTemp_run. cbv zeta.
  set (w1 := set_self (set_save_location (Some temp_name) (self w))
                      (set_files (delete temp_name (files w)) w)).
  split; [| split].
  - intros p.
    match goal with
    | |- context [match ?d with _ => _ end] =>
        destruct d as [[[] | e |] w']
    end; cbn [fst]; [intros [= <-]; reflexivity | discriminate | discriminate].
  - intros Hremote. unfold DownloadFile. unfold bind at 4. unfold do at 1.
    cbv beta iota. rewrite Hremote. reflexivity.
  - intros Hbc Hhost. rewrite Hbc.
    match goal with
    | |- context [match ?d with _ => _ end] =>
        assert (Heq : d = (Raise (DownloadError
                                    ("Invalid remote server URL " +:+ dquote
                                     +:+ strip is_space url +:+ dquote
                                     +:+ ".")),
                           emit EvInstallOpener w1))
    end.
    { unfold bind at 1. unfold ret at 1. cbv beta iota. cbn [fst snd].
      unfold bind at 1. unfold _OpenStream. unfold bind at 1. unfold do at 1.
      cbv beta iota. rewrite Hhost. reflexivity. }
    rewrite Heq. repeat split.
Qed.

Lemma DownloadFileTemp_spec_witness :
  let E := Fixtures.env [Response Fixtures.found] false false in
  let w := Fixtures.world_saving "old" {["T:\tmp1" := Fixtures.abc]} in
  DownloadFileTemp E 5 "T:\tmp1" "C:\conf\build.yaml" 5 false w
  = (Raise (DownloadError
              ("Invalid remote server URL " +:+ dquote
               +:+ "C:\conf\build.yaml" +:+ dquote +:+ ".")),
     emit EvInstallOpener
          (set_self (set_save_location (Some "T:\tmp1") (self w))
                    (set_files ∅ w)))
  /\ fst (DownloadFileTemp E 5 "T:\tmp1" "https://h.example/3" 5 false w)
     = Ok (Some "T:\tmp1").
Proof.
  cbv zeta. split; [vm_compute; reflexivity |].
  rewrite (proj1 (proj2 (DownloadFileTemp_spec
                           (Fixtures.env [Response Fixtures.found] false false)
                           5 "T:\tmp1" "https://h.example/3" 5 false
                           (Fixtures.world_saving "old"
                              {["T:\tmp1" := Fixtures.abc]})))
             eq_refl).
  vm_compute. reflexivity.
Defined.

(** ** More on opening and hashing *)

(** X26.  A first response with an acceptable code is returned at once,
    after one request and without sleep, whatever the budget (a budget of
    zero still allows this first attempt) and whatever the code: when 302
    is listed as acceptable, a 302 response is returned and its redirect is
    not followed. *)
Theorem _OpenStream_first_response (E : Env) (fuel : nat) (url : string)
    (max_retries : Z) (status_codes : option (list Z)) (w : World)
    (netloc : string) (s : Stream) :
  urlparse_netloc E (strip is_space url) = Some netloc ->
  truthy netloc = true ->
  urlopen E (count is_urlopen (trace w))
          (first_request E (_ca_cert_file (self w)) (strip is_space url))
  = Response s ->
  code_in (getcode s) (acceptable status_codes) = true ->
  _OpenStream E (S fuel) url max_retries status_codes w
  = (Ok s,
     emit (EvUrlopen (first_request E (_ca_cert_file (self w))
                                    (strip is_space url)))
          (emit EvInstallOpener w)).
Proof.
  intros Hparse Hhost Hnet Hcode.
  rewrite (_OpenStream_enters_loop E (S fuel) url max_retries status_codes w
             netloc Hparse Hhost).
  rewrite (open_loop_response E fuel 0 None (strip is_space url) max_retries
             status_codes (emit EvInstallOpener w) s).
  - cbv zeta. rewrite Hcode. reflexivity.
  - rewrite count_emit. cbn [is_urlopen emit self]. rewrite Nat.add_0_r.
    exact Hnet.
Qed.

Lemma _OpenStream_first_response_witness :
  let moved := Fixtures.response 302 "https://h.example/1" [] "0" in
  fst (_OpenStream (constant_env (Response moved)) 1 "https://h.example/0" 0
                   (Some [200; 302]) Fixtures.world0)
  = Ok moved.
Proof.
  cbv zeta.
  rewrite (_OpenStream_first_response
             (constant_env
                (Response (Fixtures.response 302 "https://h.example/1" []
                                             "0")))
             0 "https://h.example/0" 0 (Some [200; 302]) Fixtures.world0
             "h.example"
             (Fixtures.response 302 "https://h.example/1" [] "0")
             eq_refl eq_refl eq_refl eq_refl).
  reflexivity.
Defined.

(** X25.  The read loop of [VerifyShaHash] hands the hash object the whole
    file, byte for byte and in order, whatever the length of the file:
    reading in chunks of 4 MiB does not change what is hashed. *)
Theorem sha_read_loop_whole_file (fuel : nat) (f : list byte) (w : World) :
  (length f < fuel)%nat ->
  sha_read_loop fuel f [] w = (Ok f, w).
Proof. intros Hfuel. exact (sha_read_loop_all fuel f [] w Hfuel). Qed.

Lemma sha_read_loop_whole_file_witness :
  sha_read_loop 4 Fixtures.abc [] Fixtures.world0
  = (Ok Fixtures.abc, Fixtures.world0).
Proof.
  exact (sha_read_loop_whole_file 4 Fixtures.abc Fixtures.world0
           ltac:(simpl; lia)).
Defined.

(** X27.  [VerifyShaHash] has at most one effect, a log record.  On a
    path without a NUL character it returns and logs exactly once: at
    level INFO when it returns true and at level ERROR when it returns
    false, be it for a digest that differs or for a file that cannot be
    read.  On a path with a NUL character it raises the [ValueError] of
    [open] and logs nothing. *)
Theorem VerifyShaHash_logs_once (E : Env) (fuel : nat)
    (file_path expected : string) (w : World) :
  (forall data, files w !! file_path = Some data ->
                (length data < fuel)%nat) ->
  if embedded_null file_path then
    VerifyShaHash E fuel file_path expected w = (Raise ValueError, w)
  else
    exists (b : bool) (msg : string),
      VerifyShaHash E fuel file_path expected w
      = (Ok b, emit (EvLog (if b then INFO else ERROR) msg) w).
Proof.
  intros Hfuel. destruct (embedded_null file_path) eqn:Hnul;
    [exact (VerifyShaHash_null_path E fuel file_path expected w Hnul) |].
  unfold VerifyShaHash, bind, try_except. rewrite open_rb_run, Hnul.
  destruct (open_error E file_path) as [msg |].
  - exists false. eexists. reflexivity.
  - destruct (files w !! file_path) as [data |].
    + rewrite sha_read_loop_all by (apply Hfuel; reflexivity).
      unfold ret. cbv beta iota. cbn [app].
      destruct (String.eqb (sha256_hexdigest E data) (lower expected));
        [exists true | exists false]; eexists; reflexivity.
    + exists false. eexists. reflexivity.
Qed.

Lemma VerifyShaHash_logs_once_witness :
  let E := Fixtures.env [] false false in
  let w := Fixtures.world_saving "out" {["f" := Fixtures.abc]} in
  (exists (b : bool) (msg : string),
     VerifyShaHash E 4 "f" "03" w
     = (Ok b, emit (EvLog (if b then INFO else ERROR) msg) w))
  /\ VerifyShaHash E 4 ("f" +:+ String Ascii.zero "") "03" w
     = (Raise ValueError, w).
Proof.
  cbv zeta. split.
  - exact (VerifyShaHash_logs_once
             (Fixtures.env [] false false) 4 "f" "03"
             (Fixtures.world_saving "out" {["f" := Fixtures.abc]})
             ltac:(intros data H; cbn [files Fixtures.world_saving] in H;
                   rewrite lookup_singleton_eq in H;
                   injection H as <-; simpl; lia)).
  - exact (VerifyShaHash_logs_once
             (Fixtures.env [] false false) 4
             ("f" +:+ String Ascii.zero "") "03"
             (Fixtures.world_saving "out" {["f" := Fixtures.abc]})
             ltac:(intros data H; cbn [files Fixtures.world_saving] in H;
                   rewrite lookup_singleton_ne in H by discriminate;
                   discriminate)).
Defined.
